(* ===== verification/_CoqProject ===== *)
-Q . S2P
Prelude.v
Binary64.v
DateTime.v
Pytz.v
Flux.v
Query.v
Cli.v
Frame.v
Normalize.v
World.v
Creds.v
Split.v
Exporter.v
Main.v
