(* ===== verification/Prelude.v ===== *)
(** * A verification development of paros-tools

    paros-tools has two scripts.  [src/influxdb-setup.py] asks for the
    URL, organisation and token of an InfluxDB server and pickles them
    into [influx-creds.pickle].  [src/get-paros-data.py] ([main]) loads
    that file ([loadInfluxClient]), turns the command line into a Flux
    query (the zones with pytz, the two times with [fromisoformat] moved
    to naive UTC, the filters with [createFluxFilters]), sends it,
    splits the answer into one table per [table] index, normalizes each
    table ([processInfluxDF]) into a dictionary keyed by
    ["{box}_{sensor}"], and writes the dictionary as CSV, MAT or pickle
    files chosen by the extension of the output path.

    ** Files, in dependency order

    - [Prelude] (this file): Python's string operations used by the
      scripts ([in], [split], [join] as [str_has], [py_split],
      [py_join]); the exceptions ([exc]); the monad [PyM S A = S -> S *
      outcome A] of state, exceptions and [exit] with its notation
      [x <- m ;; k] in [py_scope]; the [Stdout] class, the interface the
      components print through and the world implements; [for_], [mapM]
      and [map_sum] for [for] loops; the shared lemmas on strings, lists,
      splits and joins, the monad's laws and inversion lemmas, with the
      hint databases [paros], [pystr], [pym] and the tactics [py_simp],
      [sum_inv], [pym_inv].
    - [Binary64]: the double arithmetic numpy performs on line 74
      ([(double)ns / 1e9]): doubles as [m * 2^e], rounding to nearest,
      ties to even, and the two roundings of the division.
    - [DateTime]: CPython's [datetime] as the query code uses it
      (library code, modelled from CPython): the calendar ([_ymd2ord],
      [_ord2ymd]), the C parser of [fromisoformat], [isoformat], the
      microsecond arithmetic of [datetime +/- timedelta] with its
      [OverflowError].
    - [Pytz]: [pytz.timezone] (113-114) over a zone table, and lines
      117-123 ([to_utc_naive]): fixed-offset zones, and zones with
      transition tables through pytz's [localize(is_dst=False)],
      [normalize] and [fromutc], gaps and folds included.
    - [Flux]: [createFluxFilters] (78-99) and a reading of the clause it
      prints back into predicates, following Flux's string literals
      (escapes, [\xHH] bytes, [${...}] interpolation refused), with the
      rows a [filter] stage keeps.
    - [Query]: the namespace record of the command line and its
      defaults, and the query construction of [main] (112-140) as [prepare_query], with
      the lines of the query and the rows its filter stages keep.
    - [Cli]: [cliArguments] (10-29): the parser it builds and
      [parse_args] on the argument vector, after CPython's [argparse]
      (classification of every token, then consumption of option values
      and positionals; the help exit 0, the usage errors exit 2).
    - [Frame]: pandas DataFrames as ordered lists of named columns, the
      operations [processInfluxDF] calls (column access, [iloc[0]],
      [drop], [rename], column assignment, [.dt.tz_convert],
      [.dt.tz_localize(None)], epoch arithmetic) with pandas' exceptions,
      and the invariant [wf] (distinct names, one height).
    - [Normalize]: [processInfluxDF] (53-76) in [PyM] over any [Stdout]
      state, and the tables the database returns ([raw_table]).
    - [World]: the state of a process: files by path (a gmap), standard
      input lines, and the standard output log; [isfile], file reads and
      writes, [pickle.load] of a credentials dictionary, [input].
    - [Creds]: [loadInfluxClient] (31-51) and the setup tool (all of
      influxdb-setup.py), including its three prompt loops.
    - [Split]: lines 145-152: a list response is cut by
      [groupby('table')], a single DataFrame is kept whole.
    - [Exporter]: [os.path.splitext] and the writers of lines 164-182.
    - [Main]: the dictionary [out_df] (155-159) and [main] (101-182) as
      the composition of the above, [main_argv] with the command line.

    ** What is proved

    - The query: the rows its filter stages keep are exactly those of the
      listed boxes and sensors, an option left out keeping every row,
      for values a Flux string literal reads verbatim
      ([Query.prepare_query_selects], a refinement of the filter
      specification of spec 3); its range line reads back as the UTC
      times the input zone's clock shows as the local times given,
      whenever it shows them ([prepare_query_range]); nothing checks
      that the start precedes the end ([prepare_query_reversed_range]);
      errors come in the code's order ([prepare_query_errors]).  Below
      these: [fromisoformat] inverts [isoformat] on every valid
      datetime, the ordinal conversions are inverse on years 1..9999
      ([DateTime.ordinal_bijection]), CPython's closed formula for the
      ordinal counts the days one by one ([DateTime.ymd2ord_counts]).
    - Zones: a wall-clock time the zone shows goes to UTC and back to
      itself; for any zone with an isolated transition, a time a
      spring-forward transition skips is read with the offset before the
      gap and comes back shifted by the gap ([Pytz.to_utc_naive_gap],
      against the round trip of spec 7), a time a fall-back transition
      shows twice is read as standard time ([Pytz.to_utc_naive_fold]);
      near the ends of years 1..9999 [localize]'s day-long probes
      overflow ([Pytz.to_utc_naive_edge_overflow]).
    - [createFluxFilters]: one predicate per value, read back exactly;
      empty exactly for an absent option; a value with a double quote
      adds a predicate of its own ([Flux.createFluxFilters_quote_injection]).
    - [processInfluxDF] on a raw table: identifier, columns, the time
      column as numpy's doubles for the output zone's wall clock,
      well-formedness, the warning printed for every [err] column (the
      defect of line 64), and the errors for empty tables and missing
      labels.  The doubles are exact for whole seconds of years 1834 to
      2106 ([Binary64.td_seconds_whole]) and only on the 1/512 s grid
      ([Binary64.td_seconds_exact_grid]).
    - The split: for a list response no row is lost or duplicated and
      every group is a non-empty table of one [table] index; a single
      DataFrame is written whole under its first row's identifier
      ([Main.single_frame_merged]).
    - The dictionary after the loop holds one key per identifier, in
      order of first appearance, with the last table normalized under it
      ([Main.process_all_last_wins]).
    - The exporter: where each table lands for [.csv], the array shapes
      for [.mat], nothing for any other extension.
    - The credentials: what the setup tool writes the loader reads back
      ([Creds.setup_then_load]); the prompt loops return the first
      non-empty answer or the default, and end; a missing key in an old
      file raises [KeyError]; [main] exits with 1 before anything else
      when the file is missing.
    - The command line: the namespace of three bare positionals, the
      last of a repeated option wins, a unique prefix selects an option,
      an ambiguous one ([--b]) is reported before anything is consumed;
      a command line written from a namespace runs [main] on that
      namespace ([Main.main_argv_to_argv]); a refused one ends before
      any file is touched, [-h] printing the help text (exit 0), a usage
      error printing nothing on standard output (exit 2).
    - End to end ([Main.main_csv]): a run with a credentials file, an
      accepted query, a response of raw tables with distinct
      identifiers and an output path [b.csv] writes each group's
      normalized table to [b_<identifier>.csv] and no other file.

    ** Bounds, fuel and modelling choices

    - Integers are [Z]: Python's integers are unbounded; the datetime
      range (years 1..9999, ordinals up to 3652059) is checked as the C
      code checks it.  The calendar round trips are proved by evaluating
      one 400-year cycle ([vm_compute]) and the periodicity of the
      calendar, which covers the whole range.
    - [Flux.parse_disj] takes the length of the text as fuel: every
      predicate consumes at least one character, so it never runs out
      on a clause of [createFluxFilters].
    - [Creds.ask] gives its loop one round more than there are input
      lines left; [Creds.ask_loop_enough] proves any larger fuel gives
      the same run, so the [while] loop's result never depends on it.
    - pytz zones are given by name as a fixed offset or a transition
      table ([Pytz.PytzDb]), the contents of the tz database being data;
      pandas zones are offset functions of the instant ([Frame.TzDb]).
    - [Pytz.localize] recurses in a gap; its fuel is Python's recursion
      limit (1000), and a time outside a gap needs one round.
    - Standard output is a log of [print] lines and [input] prompts;
      standard error is not modelled.  The help text depends on the
      terminal width and is a parameter of [cliArguments].
    - Floats are doubles held as their exact rational value; the
      quotients of line 74 are far from overflow and from subnormals,
      which [Binary64] does not need (it clamps the exponent at the
      subnormal range but has no infinity).  The rounding was compared
      with Python's float division on sample counts of nanoseconds.
    - [argparse] is modelled for this parser only (one single-dash
      option, [-h]); the model was run against CPython 3.11's argparse on
      random argument vectors and agrees except for a [--] given as a
      value, which it keeps as Python 3.13 does (3.11 turns it into an
      empty list).

    ** Not modelled

    The texts of argparse's help and usage messages, the InfluxDB
    client and the network query (a parameter of [main]), pandas' repr
    printed as a preview (a parameter), the byte formats of pickle, CSV
    and MAT files (a file is the rows or arrays it holds), the contents
    of the tz database (a parameter), and [table] columns that are not
    integers. *)

From Stdlib Require Import ZArith Lia Ascii String DecimalString.
From stdpp Require Import base list strings sets.

Declare Scope py_scope.
Delimit Scope py_scope with py.

(** stdpp stops [simpl] on string concatenation; the models compute with
    it, so it unfolds again on a constructor. *)
#[global] Arguments String.append : simpl nomatch.

(** ** Characters the source writes as literals *)

Definition dq : ascii := "034"%char.      (* the double quote *)
Definition nl : ascii := "010"%char.      (* \n *)
Definition tab : ascii := "009"%char.     (* \t *)
Definition comma : ascii := ","%char.

(** [str1 c] is the one-character Python string [c]. *)
Definition str1 (c : ascii) : string := String c EmptyString.

(** ** Python's [c in s] for one character, and [s.split(c)] *)

Fixpoint str_has (c : ascii) (s : string) : bool :=
  match s with
  | EmptyString => false
  | String a s' => Ascii.eqb a c || str_has c s'
  end.

(** The number of occurrences of [c] in [s] ([s.count(c)]). *)
Fixpoint str_count (c : ascii) (s : string) : nat :=
  match s with
  | EmptyString => 0
  | String a s' => (if Ascii.eqb a c then 1 else 0) + str_count c s'
  end.

(** [py_split c s] is Python's [s.split(c)] for a one-character
    separator: the pieces between occurrences of [c], empty pieces kept,
    so that [",".split(",") == ["", ""]] and [""]. split(",") == [""]]. *)
Fixpoint py_split (c : ascii) (s : string) : list string :=
  match s with
  | EmptyString => [EmptyString]
  | String a s' =>
      let r := py_split c s' in
      if Ascii.eqb a c then EmptyString :: r
      else match r with
           | [] => [str1 a]
           | h :: t => String a h :: t
           end
  end.

(** The rest of [s] after the character [c], if [s] starts with it. *)
Definition strip_char (c : ascii) (s : string) : option string :=
  match s with
  | String a s' => if Ascii.eqb a c then Some s' else None
  | EmptyString => None
  end.

(** The rest of [s] after the prefix [p], if [s] starts with it. *)
Fixpoint strip_prefix (p s : string) : option string :=
  match p, s with
  | EmptyString, _ => Some s
  | String a p', String b s' => if Ascii.eqb a b then strip_prefix p' s' else None
  | String _ _, EmptyString => None
  end.

(** The characters before the first [c], and those after it. *)
Fixpoint take_until (c : ascii) (s : string) : option (string * string) :=
  match s with
  | EmptyString => None
  | String a s' =>
      if Ascii.eqb a c then Some (EmptyString, s')
      else match take_until c s' with
           | Some (t, r) => Some (String a t, r)
           | None => None
           end
  end.

(** Python's [sep.join(l)] is [String.concat sep l]. *)
Abbreviation py_join := String.concat (only parsing).

(** [str(z)] of a Python integer, in decimal. *)
Definition z_to_dec (z : Z) : string :=
  DecimalString.NilEmpty.string_of_int (Z.to_int z).

(** ** An exception-and-exit monad over an explicit state

    The scripts signal failure by Python exceptions that nobody catches
    and by [exit(1)]; both end the run.  [PyM S A] threads a state [S]
    (standard output, the file system) and ends in a value, a raised
    exception or an exit code. *)

Inductive exc :=
  | KeyError (keys : list string)      (* the labels that were not found *)
  | IndexError (msg : string)
  | ValueError (msg : string)
  | TypeError (msg : string)
  | AttributeError (msg : string)
  | UnknownTimeZoneError (zone : string)
  | OverflowError (msg : string)
  | FileNotFoundError (path : string)
  | UnpicklingError (msg : string)
  | RecursionError (msg : string)
  | EOFError.

Inductive outcome (A : Type) :=
  | Ok (a : A)
  | Raised (e : exc)
  | Exited (code : Z).
Arguments Ok {A} a.
Arguments Raised {A} e.
Arguments Exited {A} code.

Definition PyM (S A : Type) : Type := S -> S * outcome A.

Definition ret {S A} (a : A) : PyM S A := fun s => (s, Ok a).
Definition bind {S A B} (m : PyM S A) (k : A -> PyM S B) : PyM S B :=
  fun s => match m s with
           | (s', Ok a) => k a s'
           | (s', Raised e) => (s', Raised e)
           | (s', Exited c) => (s', Exited c)
           end.
Definition raise {S A} (e : exc) : PyM S A := fun s => (s, Raised e).
Definition exit {S A} (code : Z) : PyM S A := fun s => (s, Exited code).
Definition get {S} : PyM S S := fun s => (s, Ok s).
Definition put {S} (s : S) : PyM S unit := fun _ => (s, Ok tt).
Definition modify {S} (f : S -> S) : PyM S unit := fun s => (f s, Ok tt).

(** Pure fallible code returns [inl e] for the exception [e] it raises;
    stdpp's [x ← m; k] chains such steps. *)
#[export] Instance sum_ret {E} : MRet (sum E) := fun A a => inr a.
#[export] Instance sum_bind {E} : MBind (sum E) :=
  fun A B f m => match m with inl e => inl e | inr a => f a end.

(** [lift_sum] turns a pure fallible result into a step of the monad. *)
Definition lift_sum {S A} (r : exc + A) : PyM S A :=
  match r with inl e => raise e | inr a => ret a end.

Notation "x <- m ;; k" := (bind m (fun x => k))
  (at level 100, m at next level, right associativity) : py_scope.
Notation "m ;; k" := (bind m (fun _ => k))
  (at level 100, right associativity) : py_scope.

(** ** Standard output

    Both scripts report by [print].  The components are written against
    this interface, and the world of the whole program implements it. *)
Class Stdout (S : Type) := {
  out_of : S -> list string;
  emit : string -> S -> S;
  out_of_emit : forall l s, out_of (emit l s) = (out_of s ++ [l])%list
}.

Definition print {S} `{Stdout S} (line : string) : PyM S unit := modify (emit line).

(** A bare log of printed lines is the simplest such state. *)
#[export] Program Instance stdout_log : Stdout (list string) := {
  out_of s := s; emit l s := (s ++ [l])%list
}.
Next Obligation. done. Qed.

(** [mapM] runs a step on every element in order, as a Python [for] loop
    that collects its results. *)
Fixpoint mapM {S A B} (f : A -> PyM S B) (l : list A) : PyM S (list B) :=
  match l with
  | [] => ret []
  | x :: xs => bind (f x) (fun y => bind (mapM f xs) (fun ys => ret (y :: ys)))
  end.

(** A [for] loop whose body returns nothing. *)
Fixpoint for_ {S A} (f : A -> PyM S unit) (l : list A) : PyM S unit :=
  match l with
  | [] => ret tt
  | x :: xs => bind (f x) (fun _ => for_ f xs)
  end.

(** A [for] loop of fallible pure steps: the first exception stops it. *)
Fixpoint map_sum {E A B} (f : A -> E + B) (l : list A) : E + list B :=
  match l with
  | [] => inr []
  | x :: xs => y ← f x; ys ← map_sum f xs; inr (y :: ys)
  end.

(** * Generic lemmas *)

Create HintDb paros discriminated.
Create Rewrite HintDb pystr.
Create Rewrite HintDb pym.

(** ** The monad: how a first step that returns, raises or prints
    continues *)

Lemma bind_ret_l {S A B} (a : A) (k : A -> PyM S B) s : bind (ret a) k s = k a s.
Proof. done. Qed.

Lemma bind_lift_inr {S A B} (a : A) (k : A -> PyM S B) s :
  bind (lift_sum (inr a)) k s = k a s.
Proof. done. Qed.

Lemma bind_lift_inl {S A B} e (k : A -> PyM S B) s :
  bind (lift_sum (inl e)) k s = (s, Raised e).
Proof. done. Qed.

Lemma bind_print {S B} `{Stdout S} l (k : unit -> PyM S B) s :
  bind (print l) k s = k tt (emit l s).
Proof. done. Qed.

Lemma bind_assoc {S A B C} (m : PyM S A) (k : A -> PyM S B) (k' : B -> PyM S C) s :
  bind (bind m k) k' s = bind m (fun a => bind (k a) k') s.
Proof. unfold bind. by destruct (m s) as [? []]. Qed.

Lemma bind_Ok {S A B} (m : PyM S A) (k : A -> PyM S B) s s' a :
  m s = (s', Ok a) -> bind m k s = k a s'.
Proof. unfold bind. by intros ->. Qed.

(** A step that returns was a first step that returned and a
    continuation that returned. *)
Lemma bind_Ok_inv {S A B} (m : PyM S A) (k : A -> PyM S B) s s' b :
  bind m k s = (s', Ok b) -> exists a s1, m s = (s1, Ok a) /\ k a s1 = (s', Ok b).
Proof. unfold bind. destruct (m s) as [s1 [a|e|c]]; [eauto|done|done]. Qed.

Lemma lift_sum_inv {S A} (r : exc + A) (s s' : S) a :
  lift_sum r s = (s', Ok a) -> s' = s /\ r = inr a.
Proof. destruct r; by intros [= <- <-]. Qed.

Lemma ret_inv {S A} (a b : A) (s s' : S) : ret a s = (s', Ok b) -> s' = s /\ a = b.
Proof. by intros [= <- <-]. Qed.

(** [pym_inv H] splits a returning chain [H] into its steps. *)
Ltac pym_inv H :=
  repeat match type of H with
  | bind _ _ _ = (_, Ok _) =>
      let a := fresh "a" in let s := fresh "s" in let Ha := fresh "Ha" in
      apply bind_Ok_inv in H as (a & s & Ha & H)
  end.

#[export] Hint Rewrite @bind_ret_l @bind_lift_inr @bind_lift_inl @bind_print
  @bind_assoc : pym.

(** ** Strings *)

Lemma sapp_assoc (a b c : string) : (a +:+ b) +:+ c = a +:+ b +:+ c.
Proof. induction a as [|x a IH]; simpl; [done | by rewrite IH]. Qed.

Lemma sapp_nil_r (a : string) : a +:+ EmptyString = a.
Proof. induction a as [|x a IH]; simpl; [done | by rewrite IH]. Qed.

Lemma slength_app (a b : string) :
  String.length (a +:+ b) = String.length a + String.length b.
Proof. induction a as [|x a IH]; simpl; lia. Qed.

#[export] Hint Rewrite sapp_assoc sapp_nil_r slength_app : pystr.

Lemma str_has_app c (a b : string) :
  str_has c (a +:+ b) = str_has c a || str_has c b.
Proof.
  induction a as [|x a IH]; simpl; [done|]. by rewrite IH, orb_assoc.
Qed.

#[export] Hint Rewrite str_has_app : pystr.

(** [Ascii.eqb] reflects equality; [ascii_case] splits on it. *)
Ltac ascii_case a c :=
  let E := fresh "E" in
  destruct (Ascii.eqb_spec a c) as [E|E]; [subst|].

(** [py_simp] normalises string expressions of the development. *)
Ltac py_simp := repeat (simpl; autorewrite with pystr in *).

Lemma sapp_cancel_l (p a b : string) : p +:+ a = p +:+ b -> a = b.
Proof. induction p as [|x p IH]; simpl; [done|]. intros [= H]. by apply IH. Qed.

Lemma sapp_cancel_r (a b s : string) : a +:+ s = b +:+ s -> a = b.
Proof.
  intros H. assert (Hl : String.length a = String.length b).
  { apply (f_equal String.length) in H. rewrite !slength_app in H. lia. }
  revert b Hl H. induction a as [|x a IH]; intros [|y b]; simpl; try done.
  intros [= Hl] [= -> H]. f_equal. by apply IH.
Qed.

(** [s[n:n+m]] *)
Lemma substring_app_l n m (a b : string) :
  n + m <= String.length a -> substring n m (a +:+ b) = substring n m a.
Proof.
  revert n m. induction a as [|x a IH]; intros n m Hnm; simpl in *.
  - assert (n = 0) as -> by lia. assert (m = 0) as -> by lia. by destruct b.
  - destruct n as [|n]; simpl.
    + destruct m as [|m]; simpl; [done|]. f_equal. apply IH; lia.
    + apply IH; lia.
Qed.

Lemma substring_full (a : string) : substring 0 (String.length a) a = a.
Proof. induction a as [|x a IH]; simpl; [done|]. by rewrite IH. Qed.

Lemma substring_app_r (a b : string) :
  substring (String.length a) (String.length b) (a +:+ b) = b.
Proof. induction a as [|x a IH]; simpl; [apply substring_full|done]. Qed.

Lemma substring_suffix (a b : string) :
  substring (String.length a) (String.length (a +:+ b) - String.length a) (a +:+ b) = b.
Proof.
  replace (String.length (a +:+ b) - String.length a) with (String.length b)
    by (rewrite slength_app; lia).
  apply substring_app_r.
Qed.

Lemma substring_split d (s : string) :
  d <= String.length s -> substring 0 d s +:+ substring d (String.length s - d) s = s.
Proof.
  revert d. induction s as [|x s IH]; intros [|d] Hd; simpl in *; try lia; [done| |].
  - by rewrite substring_full.
  - f_equal. apply IH. lia.
Qed.

Lemma strip_prefix_app p s : strip_prefix p (p +:+ s) = Some s.
Proof. induction p as [|a p IH]; simpl; [done|]. by rewrite Ascii.eqb_refl. Qed.

Lemma take_until_app c t s :
  str_has c t = false -> take_until c (t +:+ String c s) = Some (t, s).
Proof.
  induction t as [|a t IH]; simpl; intros H; [by rewrite Ascii.eqb_refl|].
  apply orb_false_iff in H as [Ha Ht]. by rewrite Ha, IH.
Qed.

(** ** Python's [split] and [join] *)

Lemma py_split_not_nil c s : py_split c s <> [].
Proof.
  destruct s as [|a s]; simpl; [done|].
  destruct (Ascii.eqb a c); [done|]. by destruct (py_split c s).
Qed.
#[export] Hint Resolve py_split_not_nil : paros.

Lemma py_split_cons_ne c a s :
  a <> c ->
  exists h t, py_split c s = h :: t /\ py_split c (String a s) = String a h :: t.
Proof.
  intros Hne. simpl. destruct (Ascii.eqb_spec a c); [done|].
  destruct (py_split c s) as [|h t] eqn:E; [by apply py_split_not_nil in E|].
  eauto.
Qed.

(** Without the separator, [s.split(c)] is the one-element list [[s]]. *)
Lemma py_split_no_sep c s : str_has c s = false -> py_split c s = [s].
Proof.
  induction s as [|a s IH]; simpl; [done|].
  intros H. apply orb_false_iff in H as [Ha Hs].
  rewrite Ha, IH by done. done.
Qed.

(** No piece of a split contains the separator. *)
Lemma py_split_pieces c s : Forall (fun p => str_has c p = false) (py_split c s).
Proof.
  induction s as [|a s IH]; simpl; [by repeat constructor|].
  destruct (Ascii.eqb_spec a c) as [->|Hne]; [constructor; done|].
  destruct (py_split c s) as [|h t]; [by apply Forall_singleton; simpl;
    apply orb_false_iff; split; [apply Ascii.eqb_neq|]|].
  inversion IH; subst. constructor; [|done]. simpl.
  apply orb_false_iff; split; [by apply Ascii.eqb_neq|done].
Qed.

(** Joining the pieces of a split with the separator gives the string
    back. *)
Lemma py_join_split c s : py_join (str1 c) (py_split c s) = s.
Proof.
  induction s as [|a s IH]; [done|].
  destruct (Ascii.eqb_spec a c) as [->|Hne].
  - simpl. rewrite Ascii.eqb_refl.
    destruct (py_split c s) eqn:E; [by apply py_split_not_nil in E|].
    simpl in *. by rewrite IH.
  - destruct (py_split_cons_ne c a s Hne) as (h & t & E1 & E2).
    rewrite E2. rewrite E1 in IH. destruct t; simpl in *; by rewrite IH.
Qed.

Lemma py_split_app_sep c a b :
  str_has c a = false ->
  py_split c (a +:+ String c b) = a :: py_split c b.
Proof.
  induction a as [|x a IH]; simpl; intros H.
  - by rewrite Ascii.eqb_refl.
  - apply orb_false_iff in H as [Hx Ha]. rewrite Hx, IH by done. done.
Qed.

(** Splitting a join of separator-free pieces gives the pieces back. *)
Lemma py_split_join c l :
  l <> [] -> Forall (fun p => str_has c p = false) l ->
  py_split c (py_join (str1 c) l) = l.
Proof.
  induction l as [|x l IH]; [done|]. intros _ Hl. inversion Hl; subst.
  destruct l as [|y l].
  - by apply py_split_no_sep.
  - change (py_join (str1 c) (x :: y :: l))
      with (x +:+ String c (py_join (str1 c) (y :: l))).
    rewrite py_split_app_sep by done. f_equal. by apply IH.
Qed.

(** A split has one piece more than the string has separators. *)
Lemma py_split_length c s : length (py_split c s) = S (str_count c s).
Proof.
  induction s as [|a s IH]; simpl; [done|].
  destruct (Ascii.eqb a c); simpl; [lia|].
  destruct (py_split c s) eqn:E; [by apply py_split_not_nil in E|]. simpl in *; lia.
Qed.

(** A piece of a split is a piece of the string: a character the string
    lacks, no piece has. *)
Lemma py_split_no c d s :
  str_has c s = false -> Forall (fun p => str_has c p = false) (py_split d s).
Proof.
  induction s as [|a s IH]; simpl; [by repeat constructor|].
  intros [Ha Hs]%orb_false_iff.
  destruct (Ascii.eqb a d); [by constructor; auto|].
  specialize (IH Hs). destruct (py_split d s) as [|h t]; [by repeat constructor; simpl; rewrite Ha|].
  inversion IH; subst. constructor; [|done]. simpl. by rewrite Ha.
Qed.

Lemma str_has_join c sep l :
  str_has c sep = false -> Forall (fun p => str_has c p = false) l ->
  str_has c (py_join sep l) = false.
Proof.
  intros Hsep Hl. induction Hl as [|x l Hx Hl IH]; [done|].
  destruct l as [|y l]; [done|].
  change (py_join sep (x :: y :: l)) with (x +:+ sep +:+ py_join sep (y :: l)).
  by rewrite !str_has_app, Hx, Hsep, IH.
Qed.

Lemma prefix_app p s : String.prefix p (p +:+ s) = true.
Proof.
  induction p as [|a p IH]; simpl; [by destruct s|].
  destruct (Ascii.ascii_dec a a); [done|congruence].
Qed.

Lemma option_bind_Some_l {A B} (x : A) (f : A -> option B) : (Some x ≫= f) = f x.
Proof. reflexivity. Qed.

Lemma sum_bind_inr_l {E A B} (x : A) (f : A -> E + B) : (inr x ≫= f) = f x.
Proof. reflexivity. Qed.

Lemma sum_bind_inl_l {E A B} (e : E) (f : A -> E + B) : (inl e ≫= f) = inl e.
Proof. reflexivity. Qed.

(** A chain of fallible steps succeeds exactly when each step does. *)
Lemma sum_bind_inr {E A B} (m : E + A) (k : A -> E + B) v :
  (x ← m; k x) = inr v <-> exists x, m = inr x /\ k x = inr v.
Proof. destruct m as [e|x]; simpl; [split; [done|by intros (? & ? & ?)]|naive_solver]. Qed.

Lemma sum_bind_inl {E A B} (m : E + A) (k : A -> E + B) e :
  m = inl e -> (x ← m; k x) = inl e.
Proof. by intros ->. Qed.

(** [sum_inv H] splits a successful chain [H] into its steps. *)
Ltac sum_inv H :=
  repeat match type of H with
  | (_ ← _; _) = inr _ =>
      let x := fresh "x" in let Hx := fresh "Hx" in
      apply sum_bind_inr in H as (x & Hx & H)
  end.

Lemma map_sum_inr {E A B} (f : A -> E + B) l ys :
  map_sum f l = inr ys -> Forall2 (fun x y => f x = inr y) l ys.
Proof.
  revert ys. induction l as [|x l IH]; intros ys; cbn [map_sum]; [by intros [= <-]|].
  unfold mbind, sum_bind. destruct (f x) as [e|y] eqn:Hx; [done|].
  destruct (map_sum f l) as [e|ys']; [done|]. intros [= <-]. constructor; auto.
Qed.

Lemma map_sum_all_inr {E A B} (f : A -> E + B) (g : A -> B) l :
  (forall x, x ∈ l -> f x = inr (g x)) -> map_sum f l = inr (g <$> l).
Proof.
  induction l as [|x l IH]; intros Hf; [done|]. simpl.
  rewrite Hf by set_solver. simpl. rewrite IH by set_solver. done.
Qed.

(** ** Lists *)

Lemma filter_all_True {A} (P : A -> Prop) `{forall x, Decision (P x)} l :
  Forall P l -> filter P l = l.
Proof. induction 1; [done|]. rewrite filter_cons_True by done. by f_equal. Qed.

Lemma filter_all_False {A} (P : A -> Prop) `{forall x, Decision (P x)} l :
  Forall (fun x => ~ P x) l -> filter P l = [].
Proof. induction 1; [done|]. by rewrite filter_cons_False. Qed.
