(* ===== verification/Binary64.v ===== *)
(** * The binary64 division of line 74

    Line 74 divides a [timedelta64[ns]] column by [pd.Timedelta('1s')].
    numpy computes each element as [(double)ns / (double)1e9]: the
    int64 count of nanoseconds is converted to the nearest double, then
    the quotient is rounded to the nearest double, ties to even.  This
    file models a finite double as [m * 2^e], the rounding of an exact
    quotient of integers to 53 bits, and the two steps of the division,
    with the lemmas that say when the stored value is exact. *)

From Stdlib Require Import ZArith Lia QArith.
From stdpp Require Import base tactics.
From S2P Require Import Prelude.

Module Binary64.
Local Open Scope Z_scope.

(** ** Doubles *)

(** Bits of the significand, and the exponent of the least subnormal. *)
Definition prec : Z := 53.
Definition emin : Z := -1074.

(** A finite double, as its significand and exponent: [fmant * 2^fexp]. *)
Record float := mkfloat { fmant : Z; fexp : Z }.

(** The value of a double, as a rational in lowest terms. *)
Definition to_Q (f : float) : Q :=
  Qred (if 0 <=? fexp f then Qmake (fmant f * 2 ^ fexp f) 1
        else Qmake (fmant f) (Z.to_pos (2 ^ (- fexp f)))).

(** ** Rounding an exact quotient *)

(** [p / q >= 2^k], for [q > 0], without leaving the integers. *)
Definition ge_pow2 (p q k : Z) : bool :=
  if 0 <=? k then q * 2 ^ k <=? p else q <=? p * 2 ^ (- k).

(** [floor(log2(p / q))] for [p, q > 0]. *)
Definition flog2 (p q : Z) : Z :=
  let k := Z.log2 p - Z.log2 q in
  if ge_pow2 p q k then k else k - 1.

(** [N / D] rounded to the nearest integer, ties to the even one. *)
Definition rne (N D : Z) : Z :=
  let m := N / D in
  let r := N mod D in
  if 2 * r <? D then m
  else if D <? 2 * r then m + 1
  else if Z.even m then m else m + 1.

(** [a / q] and [2^e] brought to one integer quotient [N / D] with
    [N / D = a / (q * 2^e)]. *)
Definition scaled (a q e : Z) : Z * Z :=
  if 0 <=? e then (a, q * 2 ^ e) else (a * 2 ^ (- e), q).

(** The double nearest to [a / q], for [a >= 0] and [q > 0]: the
    exponent puts 53 bits before the rounding point, or is [emin] for a
    subnormal.  The quotients of line 74 stay far below the largest
    double, so the overflow to infinity never occurs and is not
    modelled. *)
Definition round_pos (a q : Z) : float :=
  let e := Z.max emin (flog2 a q - (prec - 1)) in
  let '(N, D) := scaled a q e in
  mkfloat (rne N D) e.

(** The double nearest to [p / q], [q > 0]: rounding to nearest is
    symmetric, so the sign is put back after rounding [|p| / q]. *)
Definition round_div (p q : Z) : float :=
  let f := round_pos (Z.abs p) q in
  mkfloat (Z.sgn p * fmant f) (fexp f).

(** ** The two steps of line 74 *)

(** [(double)ns]: the int64 to double conversion. *)
Definition of_int64 (n : Z) : float := round_div n 1.

(** [x / (double)d] for a double [x] and an integer [d > 0] that is a
    double itself ([1e9] is). *)
Definition div_int (x : float) (d : Z) : float :=
  if 0 <=? fexp x then round_div (fmant x * 2 ^ fexp x) d
  else round_div (fmant x) (d * 2 ^ (- fexp x)).

Definition ns_per_s : Z := 1000000000.

(** The seconds numpy stores for a count of nanoseconds. *)
Definition td_seconds (ns : Z) : Q := to_Q (div_int (of_int64 ns) ns_per_s).

(** ** Lemmas *)

Lemma rne_exact m D : 0 < D -> rne (m * D) D = m.
Proof.
  intros HD. unfold rne. rewrite Z.div_mul, Z.mod_mul by lia.
  replace (2 * 0 <? D) with true by (symmetry; apply Z.ltb_lt; lia). done.
Qed.

Lemma pow2_pos k : 0 <= k -> 0 < 2 ^ k.
Proof. intros. by apply Z.pow_pos_nonneg. Qed.

Lemma rne_zero D : 0 < D -> rne 0 D = 0.
Proof. intros. apply (rne_exact 0 D); lia. Qed.

(** [flog2] is a lower bound of the binary logarithm. *)
Lemma flog2_lower p q : 0 < p -> 0 < q -> ge_pow2 p q (flog2 p q) = true.
Proof.
  intros Hp Hq. unfold flog2.
  set (k := Z.log2 p - Z.log2 q).
  destruct (ge_pow2 p q k) eqn:E; [done|].
  pose proof (Z.log2_spec p Hp) as [Hp1 _]. pose proof (Z.log2_spec q Hq) as [_ Hq2].
  pose proof (Z.log2_nonneg p). pose proof (Z.log2_nonneg q).
  unfold ge_pow2. destruct (Z.leb_spec 0 (k - 1)).
  - apply Z.leb_le.
    assert (2 ^ Z.log2 p = 2 ^ (Z.log2 q + 1) * 2 ^ (k - 1))
      by (rewrite <- Z.pow_add_r by lia; f_equal; unfold k; lia).
    pose proof (pow2_pos (k - 1)). nia.
  - apply Z.leb_le.
    assert (2 ^ Z.log2 p * 2 ^ (- (k - 1)) = 2 ^ (Z.log2 q + 1))
      by (rewrite <- Z.pow_add_r by lia; f_equal; unfold k; lia).
    pose proof (pow2_pos (- (k - 1))). nia.
Qed.

(** The exponent [round_pos] picks for a value [a * 2^j] with a
    significand of at most 53 bits is at most [j]. *)
Lemma round_pos_exp a j q :
  0 < a < 2 ^ prec -> 0 <= j -> 0 < q ->
  Z.max emin (flog2 (a * 2 ^ j * q) q - (prec - 1)) <= j.
Proof.
  intros Ha Hj Hq. pose proof (pow2_pos j).
  pose proof (flog2_lower (a * 2 ^ j * q) q ltac:(nia) Hq) as Hf.
  set (F := flog2 (a * 2 ^ j * q) q) in *.
  unfold ge_pow2 in Hf. destruct (Z.leb_spec 0 F); [|unfold emin, prec; lia].
  apply Z.leb_le in Hf.
  assert (2 ^ F <= a * 2 ^ j) by nia.
  assert (Hlt : 2 ^ F < 2 ^ (prec + j)) by (rewrite Z.pow_add_r by (unfold prec; lia); nia).
  apply Z.pow_lt_mono_r_iff in Hlt; [|lia|unfold prec; lia]. unfold emin, prec in *. lia.
Qed.

(** A quotient that is a double ([a * 2^j] with [|a| < 2^53], [j >= 0])
    is rounded to itself. *)
Lemma round_pos_exact a j q :
  0 <= a < 2 ^ prec -> 0 <= j -> 0 < q ->
  exists e, round_pos (a * 2 ^ j * q) q = mkfloat (a * 2 ^ (j - e)) e /\ (a = 0 \/ e <= j).
Proof.
  intros Ha Hj Hq. unfold round_pos.
  set (e := Z.max emin (flog2 (a * 2 ^ j * q) q - (prec - 1))).
  exists e. destruct (Z.eq_dec a 0) as [->|Ha0].
  - split; [|by left]. rewrite !Z.mul_0_l. unfold scaled.
    destruct (Z.leb_spec 0 e); rewrite ?Z.mul_0_l, rne_zero; try done.
    pose proof (pow2_pos e). nia.
  - assert (He : e <= j) by (apply round_pos_exp; lia). split; [|by right].
    unfold scaled. destruct (Z.leb_spec 0 e).
    + replace (a * 2 ^ j * q) with (a * 2 ^ (j - e) * (q * 2 ^ e))
        by (replace j with (j - e + e) at 2 by lia; rewrite Z.pow_add_r by lia; lia).
      rewrite rne_exact; [done|]. pose proof (pow2_pos e). nia.
    + replace (a * 2 ^ j * q * 2 ^ (- e)) with (a * 2 ^ (j - e) * q)
        by (replace (j - e) with (j + - e) by lia; rewrite Z.pow_add_r by lia; lia).
      by rewrite rne_exact.
Qed.

Lemma round_div_exact a j q :
  Z.abs a < 2 ^ prec -> 0 <= j -> 0 < q ->
  exists e, round_div (a * 2 ^ j * q) q = mkfloat (a * 2 ^ (j - e)) e /\ (a = 0 \/ e <= j).
Proof.
  intros Ha Hj Hq. pose proof (pow2_pos j). unfold round_div.
  replace (Z.abs (a * 2 ^ j * q)) with (Z.abs a * 2 ^ j * q)
    by (rewrite !Z.abs_mul, (Z.abs_eq (2 ^ j)), (Z.abs_eq q); lia).
  destruct (round_pos_exact (Z.abs a) j q) as (e & -> & He); [lia|done|done|].
  exists e. cbn [fmant fexp]. split; [|destruct He; [left; lia|by right]].
  f_equal. rewrite !Z.sgn_mul, (Z.sgn_pos (2 ^ j)), (Z.sgn_pos q) by lia.
  destruct (Z.lt_trichotomy a 0) as [Hn|[->|Hp]];
    [rewrite Z.sgn_neg, Z.abs_neq by lia|done|rewrite Z.sgn_pos, Z.abs_eq by lia]; lia.
Qed.

Lemma Qred_inject_Z k : Qred (inject_Z k) = inject_Z k.
Proof.
  unfold Qred, inject_Z. pose proof (Z.ggcd_gcd k 1) as Hg. pose proof (Z.ggcd_correct_divisors k 1) as Hd.
  destruct (Z.ggcd k 1) as [g [r1 r2]]. cbn [fst snd] in *. rewrite Z.gcd_1_r in Hg. subst g.
  destruct Hd as [H1 H2]. replace r1 with k by lia. replace r2 with 1 by lia. done.
Qed.

(** A double [k * 2^(-e)] with [e <= 0] (or [k = 0]) is the integer [k]. *)
Lemma to_Q_int k e : k = 0 \/ e <= 0 -> to_Q (mkfloat (k * 2 ^ (0 - e)) e) = inject_Z k.
Proof.
  intros Hk. unfold to_Q. cbn [fmant fexp].
  rewrite <- Qred_inject_Z.
  apply Qred_complete. unfold Qeq, inject_Z. cbn [Qnum Qden].
  destruct (Z.leb_spec 0 e).
  - cbn [Qnum Qden]. destruct Hk as [->|He]; [lia|].
    replace e with 0 by lia. simpl. lia.
  - cbn [Qnum Qden]. rewrite Z2Pos.id by (apply pow2_pos; lia).
    replace (0 - e) with (- e) by lia. lia.
Qed.

(** The digits of a second: [10^9 = 5^9 * 2^9]. *)
Lemma ns_per_s_split : ns_per_s = 5 ^ 9 * 2 ^ 9.
Proof. reflexivity. Qed.


Lemma pow2_split e : 0 <= e <= 9 -> 2 ^ (9 - e) * 2 ^ e = 2 ^ 9.
Proof. intros. rewrite <- Z.pow_add_r by lia. f_equal; lia. Qed.

Lemma pow2_split_neg e : e < 0 -> 2 ^ (9 - e) = 2 ^ 9 * 2 ^ (- e).
Proof. intros. rewrite <- Z.pow_add_r by lia. f_equal; lia. Qed.

(** * Properties *)

(** C17 (bounds).  A sample at a whole second [k] of the output zone's
    wall clock, with [|k| < 2^32] (the years 1834 to 2106), is stored by
    line 74 as exactly [k]: [k * 10^9] is a double, and so is [k]. *)
Theorem td_seconds_whole k : Z.abs k < 2 ^ 32 -> td_seconds (k * ns_per_s) = inject_Z k.
Proof.
  intros Hk. destruct (Z.eq_dec k 0) as [->|Hk0]; [vm_compute; reflexivity|].
  unfold td_seconds, of_int64.
  destruct (round_div_exact (k * 5 ^ 9) 9 1) as (e1 & E1 & He1);
    [unfold prec; change (5 ^ 9) with 1953125; change (2 ^ 32) with 4294967296 in Hk; lia|lia|lia|].
  destruct He1 as [He1|He1]; [lia|].
  replace (k * ns_per_s) with (k * 5 ^ 9 * 2 ^ 9 * 1) by (rewrite ns_per_s_split; lia).
  rewrite E1. unfold div_int. cbn [fmant fexp].
  assert (Hk2 : Z.abs k < 2 ^ prec)
    by (unfold prec; change (2 ^ 32) with 4294967296 in Hk; change (2 ^ 53) with 9007199254740992; lia).
  destruct (Z.leb_spec 0 e1).
  - replace (k * 5 ^ 9 * 2 ^ (9 - e1) * 2 ^ e1) with (k * 2 ^ 0 * ns_per_s)
      by (rewrite ns_per_s_split, <- (pow2_split e1) by lia; ring).
    destruct (round_div_exact k 0 ns_per_s) as (e2 & -> & He2); [done|lia|done|].
    apply to_Q_int. destruct He2; [by left|right; lia].
  - pose proof (pow2_pos (- e1)).
    replace (k * 5 ^ 9 * 2 ^ (9 - e1)) with (k * 2 ^ 0 * (ns_per_s * 2 ^ (- e1)))
      by (rewrite pow2_split_neg, ns_per_s_split by lia; ring).
    destruct (round_div_exact k 0 (ns_per_s * 2 ^ (- e1))) as (e2 & -> & He2); [done|lia|unfold ns_per_s; lia|].
    apply to_Q_int. destruct He2; [by left|right; lia].
Qed.


(** ** Witnesses *)

(** 2021-07-01T12:00:00 is stored as 1625140800 exactly. *)
Example td_seconds_whole_witness :
  Z.abs 1625140800 < 2 ^ 32 /\ td_seconds (1625140800 * ns_per_s) = inject_Z 1625140800.
Proof.
  assert (H : Z.abs 1625140800 < 2 ^ 32) by (vm_compute; reflexivity).
  split; [exact H|]. exact (td_seconds_whole _ H).
Defined.


End Binary64.
