(* ===== verification/DateTime.v ===== *)
(** * Naive datetimes as the script uses them (Python's [datetime])

    [main] parses the two command-line times with
    [datetime.fromisoformat] (get-paros-data.py, 116 and 120), moves them
    to UTC (117-123, modelled in [Pytz] on the arithmetic of this file)
    and prints them with [isoformat] into the query (131).  None of this
    is code of the repository: the definitions follow CPython's
    [datetime] (the proleptic Gregorian ordinal of [_ymd2ord] and
    [_ord2ymd], the C parser of [fromisoformat] of Python 3.7 to 3.10,
    the arithmetic of [datetime + timedelta] on microsecond counts).  The
    theorems show that printing and parsing are inverse, that the
    ordinal conversions are inverse on the whole range of [datetime],
    and that the closed formula of [_ymd2ord] equals counting the days
    one by one. *)

From Stdlib Require Import ZArith Lia Ascii String.
From stdpp Require Import base list strings.
From S2P Require Import Prelude.

Module DateTime.
Local Open Scope Z_scope.

(** ** The calendar ([_is_leap] ... [_ord2ymd] of datetime.py) *)

Definition MINYEAR : Z := 1.
Definition MAXYEAR : Z := 9999.
Definition MAXORDINAL : Z := 3652059.   (* date.max.toordinal() *)

Definition is_leap (y : Z) : bool :=
  (y mod 4 =? 0) && (negb (y mod 100 =? 0) || (y mod 400 =? 0)).

(** [_DAYS_IN_MONTH] and [_DAYS_BEFORE_MONTH], indexed 1..12. *)
Definition days_in_month_tbl (m : Z) : Z :=
  match m with
  | 1 => 31 | 2 => 28 | 3 => 31 | 4 => 30 | 5 => 31 | 6 => 30
  | 7 => 31 | 8 => 31 | 9 => 30 | 10 => 31 | 11 => 30 | 12 => 31 | _ => -1
  end.
Definition days_before_month_tbl (m : Z) : Z :=
  match m with
  | 1 => 0 | 2 => 31 | 3 => 59 | 4 => 90 | 5 => 120 | 6 => 151
  | 7 => 181 | 8 => 212 | 9 => 243 | 10 => 273 | 11 => 304 | 12 => 334 | _ => -1
  end.

Definition days_in_month (y m : Z) : Z :=
  if (m =? 2) && is_leap y then 29 else days_in_month_tbl m.

Definition days_before_year (y : Z) : Z :=
  let y' := y - 1 in y' * 365 + y' / 4 - y' / 100 + y' / 400.

Definition days_before_month (y m : Z) : Z :=
  days_before_month_tbl m + (if (2 <? m) && is_leap y then 1 else 0).

(** [_ymd2ord]: day 1 is 0001-01-01. *)
Definition ymd2ord (y m d : Z) : Z := days_before_year y + days_before_month y m + d.

(** [_ord2ymd], with its 400-, 100- and 4-year cycles. *)
Definition ord2ymd (n : Z) : Z * Z * Z :=
  let n := n - 1 in
  let '(n400, n) := Z.div_eucl n 146097 in
  let year := n400 * 400 + 1 in
  let '(n100, n) := Z.div_eucl n 36524 in
  let '(n4, n) := Z.div_eucl n 1461 in
  let '(n1, n) := Z.div_eucl n 365 in
  let year := year + n100 * 100 + n4 * 4 + n1 in
  if (n1 =? 4) || (n100 =? 4) then (year - 1, 12, 31) else
  let leapyear := (n1 =? 3) && (negb (n4 =? 24) || (n100 =? 3)) in
  let month := Z.shiftr (n + 50) 5 in
  let preceding := days_before_month_tbl month + (if (2 <? month) && leapyear then 1 else 0) in
  let '(month, preceding) :=
    if n <? preceding then
      let month := month - 1 in
      (month, preceding - (days_in_month_tbl month + (if (month =? 2) && leapyear then 1 else 0)))
    else (month, preceding) in
  (year, month, n - preceding + 1).

(** ** Naive datetimes *)

Record datetime := mkdt {
  year : Z; month : Z; day : Z;
  hour : Z; minute : Z; second : Z; microsecond : Z
}.

(** [==] on naive datetimes compares the fields. *)
#[export] Instance datetime_eq_dec : EqDecision datetime.
Proof. solve_decision. Defined.

(** The field checks of the [datetime] constructor ([new_datetime] in
    _datetimemodule.c), in their order, with their messages. *)
Definition check_fields (y m d hh mm ss us : Z) : exc + datetime :=
  if negb ((MINYEAR <=? y) && (y <=? MAXYEAR)) then inl (ValueError ("year " +:+ z_to_dec y +:+ " is out of range"))
  else if negb ((1 <=? m) && (m <=? 12)) then inl (ValueError "month must be in 1..12")
  else if negb ((1 <=? d) && (d <=? days_in_month y m)) then inl (ValueError "day is out of range for month")
  else if negb ((0 <=? hh) && (hh <=? 23)) then inl (ValueError "hour must be in 0..23")
  else if negb ((0 <=? mm) && (mm <=? 59)) then inl (ValueError "minute must be in 0..59")
  else if negb ((0 <=? ss) && (ss <=? 59)) then inl (ValueError "second must be in 0..59")
  else if negb ((0 <=? us) && (us <=? 999999)) then inl (ValueError "microsecond must be in 0..999999")
  else inr (mkdt y m d hh mm ss us).

(** The datetimes the constructor accepts. *)
Definition valid (dt : datetime) : bool :=
  (MINYEAR <=? year dt) && (year dt <=? MAXYEAR) &&
  (1 <=? month dt) && (month dt <=? 12) &&
  (1 <=? day dt) && (day dt <=? days_in_month (year dt) (month dt)) &&
  (0 <=? hour dt) && (hour dt <=? 23) && (0 <=? minute dt) && (minute dt <=? 59) &&
  (0 <=? second dt) && (second dt <=? 59) &&
  (0 <=? microsecond dt) && (microsecond dt <=? 999999).

(** ** Printing: [%0wd] and [datetime.isoformat()] *)

Definition digit_char (d : Z) : ascii := ascii_of_nat (48 + Z.to_nat d).

(** [pad w z] is ["%0wd" % z] for [0 <= z < 10^w]: the [w] last decimal
    digits of [z], most significant first. *)
Fixpoint pad (w : nat) (z : Z) : string :=
  match w with
  | O => EmptyString
  | S w' => String (digit_char ((z / 10 ^ Z.of_nat w') mod 10)) (pad w' z)
  end.

(** [".%06d"] of the microseconds, left out when they are 0 (the
    [timespec='auto'] of [_format_time]). *)
Definition frac (us : Z) : string :=
  if us =? 0 then "" else String "." (pad 6 us).

(** ["%04d-%02d-%02dT%02d:%02d:%02d"] and the fraction. *)
Definition isoformat (dt : datetime) : string :=
  pad 4 (year dt) +:+ "-" +:+ pad 2 (month dt) +:+ "-" +:+ pad 2 (day dt) +:+ "T" +:+
  pad 2 (hour dt) +:+ ":" +:+ pad 2 (minute dt) +:+ ":" +:+ pad 2 (second dt) +:+
  frac (microsecond dt).

(** ** Parsing: [parse_digits] of _datetimemodule.c *)

Definition digit_val (c : ascii) : option Z :=
  let n := Z.of_nat (nat_of_ascii c) - 48 in
  if (0 <=? n) && (n <=? 9) then Some n else None.

(** Exactly [w] decimal digits, accumulated into [acc]. *)
Fixpoint parse_digits_acc (w : nat) (acc : Z) (s : string) : option (Z * string) :=
  match w with
  | O => Some (acc, s)
  | S w' =>
      match s with
      | EmptyString => None
      | String c s' => d ← digit_val c; parse_digits_acc w' (acc * 10 + d) s'
      end
  end.

Definition parse_digits (w : nat) (s : string) : option (Z * string) := parse_digits_acc w 0 s.

(** ** [datetime.fromisoformat] (the C parser of Python 3.7 to 3.10)

    The date is exactly [YYYY-MM-DD]; any one character may separate it
    from the time; the time is [HH[:MM[:SS[.fff[fff]]]]], optionally
    followed by a UTC offset [+HH[:MM[:SS[.ffffff]]]] or [-...].  The C
    code reads one character past the part it parses: [term] is that
    character, [NUL] at the end of the string or the sign of the offset. *)

Definition NUL : ascii := "000"%char.

Inductive hms_exit :=
  | HmsDone (more : bool)      (* returned [*p != '\0'] *)
  | HmsFrac (rest : string).   (* went on to parse [.fff[fff]] *)

(** The [HH[:MM[:SS]]] loop of [parse_hh_mm_ss_ff]. *)
Fixpoint hms_loop (k : nat) (t : string) (term : ascii) (vals : list Z)
  : option (list Z * hms_exit) :=
  match k with
  | O => Some (vals, HmsFrac t)
  | S k' =>
      '(v, rest) ← parse_digits 2 t;
      let vals := vals ++ [v] in
      match rest with
      | EmptyString => Some (vals, HmsDone (negb (Ascii.eqb term NUL)))
      | String c EmptyString => Some (vals, HmsDone (negb (Ascii.eqb c NUL)))
      | String c rest' =>
          if Ascii.eqb c ":" then hms_loop k' rest' term vals
          else if Ascii.eqb c "." then Some (vals, HmsFrac rest')
          else None
      end
  end.

(** [parse_hh_mm_ss_ff]: hours, minutes, seconds, microseconds, and
    whether characters are left. *)
Definition parse_hms (t : string) (term : ascii) : option (Z * Z * Z * Z * bool) :=
  '(vals, ex) ← hms_loop 3 t term [];
  let hh := nth 0 vals 0 in let mm := nth 1 vals 0 in let ss := nth 2 vals 0 in
  match ex with
  | HmsDone more => Some (hh, mm, ss, 0, more)
  | HmsFrac rest =>
      let len := String.length rest in
      if (len =? 6)%nat || (len =? 3)%nat then
        '(ff, _) ← parse_digits len rest;
        Some (hh, mm, ss, if (len =? 3)%nat then ff * 1000 else ff, negb (Ascii.eqb term NUL))
      else None
  end.

(** The time part cut at its first [+] or [-]. *)
Fixpoint split_tz (t : string) : string * option (ascii * string) :=
  match t with
  | EmptyString => (EmptyString, None)
  | String c t' =>
      if Ascii.eqb c "+" || Ascii.eqb c "-" then (EmptyString, Some (c, t'))
      else let '(a, r) := split_tz t' in (String c a, r)
  end.

(** [parse_isoformat_time]: the time, and the offset (seconds and
    microseconds) when one is given. *)
Definition parse_isoformat_time (t : string) : option ((Z * Z * Z * Z) * option (Z * Z)) :=
  match split_tz t return option ((Z * Z * Z * Z) * option (Z * Z)) with
  | (hms, None) =>
      '(hh, mm, ss, us, more) ← parse_hms hms NUL;
      if (more : bool) then None else Some ((hh, mm, ss, us), None)
  | (hms, Some (sign, tz)) =>
      '(hh, mm, ss, us, _) ← parse_hms hms sign;
      '(th, tm, ts, tus, more) ← parse_hms tz NUL;
      let sg := if Ascii.eqb sign "-" then -1 else 1 in
      if (more : bool) then None
      else Some ((hh, mm, ss, us), Some (sg * (th * 3600 + tm * 60 + ts), sg * tus))
  end.

(** [YYYY-MM-DD]. *)
Definition parse_isoformat_date (s : string) : option (Z * Z * Z * string) :=
  '(y, r) ← parse_digits 4 s;
  r ← strip_char "-" r;
  '(m, r) ← parse_digits 2 r;
  r ← strip_char "-" r;
  '(d, r) ← parse_digits 2 r;
  Some (y, m, d, r).

Definition offset_limit_msg : string :=
  "offset must be a timedelta strictly between -timedelta(hours=24) and timedelta(hours=24).".

(** [datetime.fromisoformat(s)]: the datetime and its UTC offset, if the
    string gives one. *)
Definition fromisoformat (s : string) : exc + (datetime * option (Z * Z)) :=
  let invalid := inl (ValueError ("Invalid isoformat string: '" +:+ s +:+ "'")) in
  match parse_isoformat_date s with
  | None => invalid
  | Some (y, m, d, r) =>
      let time := match r with
                  | EmptyString => Some ((0, 0, 0, 0), None)
                  | String _ t => parse_isoformat_time t
                  end in
      match time with
      | None => invalid
      | Some ((hh, mm, ss, us), tz) =>
          match tz with
          | Some (off, offus) =>
              if negb ((off =? 0) && (offus =? 0)) &&
                 negb (Z.abs (off * 1000000 + offus) <? 86400 * 1000000)
              then inl (ValueError offset_limit_msg)
              else dt ← check_fields y m d hh mm ss us; inr (dt, tz)
          | None => dt ← check_fields y m d hh mm ss us; inr (dt, None)
          end
      end
  end.

(** ** Datetime arithmetic

    [dt + timedelta] (and [dt - timedelta]) carries the fields into the
    next larger unit and raises [OverflowError] outside year 1..9999;
    its result is the datetime whose count of microseconds since
    0001-01-01 (day 1) is the sum. *)
Definition US_PER_S : Z := 1000000.
Definition US_PER_DAY : Z := 86400 * US_PER_S.
Definition to_us (dt : datetime) : Z :=
  (ymd2ord (year dt) (month dt) (day dt) * 86400 + hour dt * 3600 + minute dt * 60 + second dt)
  * US_PER_S + microsecond dt.
Definition from_us (x : Z) : exc + datetime :=
  let days := x / US_PER_DAY in
  let rem := x mod US_PER_DAY in
  if (0 <? days) && (days <=? MAXORDINAL) then
    let '(y, m, d) := ord2ymd days in
    let secs := rem / US_PER_S in
    inr (mkdt y m d (secs / 3600) ((secs mod 3600) / 60) (secs mod 60) (rem mod US_PER_S))
  else inl (OverflowError "date value out of range").

(** ** Counting days one by one

    The reference [_ymd2ord] is measured against: the days of every year
    before [y], then of every month of [y] before [m], then [d]. *)
Fixpoint days_of_years (k : nat) : Z :=
  match k with
  | O => 0
  | S k' => days_of_years k' + (if is_leap (Z.of_nat k) then 366 else 365)
  end.

Fixpoint days_of_months (y : Z) (k : nat) : Z :=
  match k with
  | O => 0
  | S k' => days_of_months y k' + days_in_month y (Z.of_nat k)
  end.

Definition ref_ordinal (y m d : Z) : Z :=
  days_of_years (Z.to_nat (y - 1)) + days_of_months y (Z.to_nat (m - 1)) + d.

(** ** Exhaustive checks over one 400-year cycle *)

Fixpoint all_in (f : Z -> bool) (k : nat) (start : Z) : bool :=
  match k with O => true | S k' => f start && all_in f k' (start + 1) end.

Definition date_rt (y m d : Z) : bool :=
  let '(y', m', d') := ord2ymd (ymd2ord y m d) in (y' =? y) && (m' =? m) && (d' =? d).

Definition ord_rt (n : Z) : bool :=
  (n <=? 0) || (146097 <? n) ||
  (let '(y, m, d) := ord2ymd n in
   (ymd2ord y m d =? n) && (1 <=? m) && (m <=? 12) && (1 <=? d) && (d <=? days_in_month y m)).

(** * Lemmas *)

(** Reduces the parser's glue, leaving printing and digit parsing folded
    for the lemmas below. *)
Ltac dt_red := cbn -[pad parse_digits check_fields frac].

Lemma digit_val_char d : 0 <= d <= 9 -> digit_val (digit_char d) = Some d.
Proof.
  intros Hd. assert (d = 0 \/ d = 1 \/ d = 2 \/ d = 3 \/ d = 4 \/ d = 5 \/ d = 6 \/
                     d = 7 \/ d = 8 \/ d = 9) as Hc by lia.
  by repeat destruct Hc as [-> | Hc]; [..|subst].
Qed.

Lemma parse_digits_acc_pad w acc z rest :
  0 <= z ->
  parse_digits_acc w acc (pad w z +:+ rest) = Some (acc * 10 ^ Z.of_nat w + z mod 10 ^ Z.of_nat w, rest).
Proof.
  revert acc. induction w as [|w IH]; intros acc Hz.
  - simpl. rewrite Z.mod_1_r. f_equal. f_equal. lia.
  - cbn [pad parse_digits_acc String.append].
    pose proof (Z.mod_pos_bound (z / 10 ^ Z.of_nat w) 10 ltac:(lia)) as Hb.
    rewrite digit_val_char by lia. cbn [mbind option_bind]. rewrite IH by done.
    do 2 f_equal. rewrite Nat2Z.inj_succ, Z.pow_succ_r by lia.
    rewrite (Z.mul_comm 10 (10 ^ _)), Z.rem_mul_r by (try apply Z.pow_nonzero; lia).
    ring.
Qed.

(** Printing [w] digits and parsing them back gives the number. *)
Lemma parse_digits_pad w z rest :
  0 <= z < 10 ^ Z.of_nat w -> parse_digits w (pad w z +:+ rest) = Some (z, rest).
Proof.
  intros Hz. unfold parse_digits. rewrite parse_digits_acc_pad by lia.
  rewrite Z.mod_small by lia. done.
Qed.

Lemma digit_char_not d c :
  (forall k, 48 <= k <= 57 -> nat_of_ascii c <> k)%nat -> digit_char (d mod 10) <> c.
Proof.
  intros Hc E. pose proof (Z.mod_pos_bound d 10 ltac:(lia)) as Hb.
  apply (Hc (48 + Z.to_nat (d mod 10))%nat); [lia|].
  rewrite <- E. unfold digit_char. rewrite nat_ascii_embedding; lia.
Qed.

Lemma str_has_pad c w z :
  (forall k, 48 <= k <= 57 -> nat_of_ascii c <> k)%nat -> str_has c (pad w z) = false.
Proof.
  intros Hc. induction w as [|w IH]; [done|]. cbn [pad str_has].
  rewrite IH, orb_false_r. apply Ascii.eqb_neq. by apply digit_char_not.
Qed.

Lemma split_tz_no_sign t :
  str_has "+" t = false -> str_has "-" t = false -> split_tz t = (t, None).
Proof.
  induction t as [|c t IH]; [done|]. cbn [str_has split_tz].
  intros [Hp Hp']%orb_false_iff [Hm Hm']%orb_false_iff. rewrite Hp, Hm. simpl.
  by rewrite IH.
Qed.

Lemma check_fields_valid dt :
  valid dt = true ->
  check_fields (year dt) (month dt) (day dt) (hour dt) (minute dt) (second dt) (microsecond dt)
  = inr dt.
Proof.
  destruct dt as [y m d hh mm ss us]. unfold valid, check_fields. simpl.
  intros Hv. repeat (apply andb_prop in Hv as [Hv ?]). rewrite ?Hv.
  repeat match goal with H : _ = true |- _ => rewrite H; clear H end. done.
Qed.

Lemma days_in_month_le y m : days_in_month y m <= 31.
Proof. unfold days_in_month, days_in_month_tbl. repeat case_match; lia. Qed.

Lemma valid_bounds dt : valid dt = true ->
  0 <= year dt < 10 ^ 4 /\ 0 <= month dt < 10 ^ 2 /\ 0 <= day dt < 10 ^ 2 /\
  0 <= hour dt < 10 ^ 2 /\ 0 <= minute dt < 10 ^ 2 /\ 0 <= second dt < 10 ^ 2 /\
  0 <= microsecond dt < 10 ^ 6.
Proof.
  pose proof (days_in_month_le (year dt) (month dt)).
  unfold valid, MINYEAR, MAXYEAR. intros Hv.
  repeat (apply andb_prop in Hv as [Hv ?]). rewrite ?Z.leb_le in *. lia.
Qed.

Lemma pad_not_nil w z : pad (S w) z <> "".
Proof. done. Qed.

Lemma hms_loop_colon k z X term vals :
  0 <= z < 10 ^ 2 -> X <> "" ->
  hms_loop (S k) (pad 2 z +:+ String ":" X) term vals = hms_loop k X term (vals ++ [z]).
Proof.
  intros Hz HX. cbn [hms_loop]. rewrite parse_digits_pad by done. simpl.
  destruct X; [done|]. reflexivity.
Qed.

Lemma hms_loop_last k z term vals :
  0 <= z < 10 ^ 2 ->
  hms_loop (S k) (pad 2 z) term vals = Some (vals ++ [z], HmsDone (negb (Ascii.eqb term NUL))).
Proof.
  intros Hz. cbn [hms_loop]. rewrite <- (sapp_nil_r (pad 2 z)).
  by rewrite parse_digits_pad.
Qed.

Lemma hms_loop_dot k z F term vals :
  0 <= z < 10 ^ 2 -> F <> "" ->
  hms_loop (S k) (pad 2 z +:+ String "." F) term vals = Some (vals ++ [z], HmsFrac F).
Proof.
  intros Hz HF. cbn [hms_loop]. rewrite parse_digits_pad by done. simpl.
  destruct F; [done|]. reflexivity.
Qed.

Lemma digits_not_sign c :
  c = "+"%char \/ c = "-"%char -> (forall k, 48 <= k <= 57 -> nat_of_ascii c <> k)%nat.
Proof.
  intros [-> | ->] k Hk;
    [change (nat_of_ascii "+") with 43%nat | change (nat_of_ascii "-") with 45%nat]; lia.
Qed.

Lemma parse_time_iso hh mm ss us :
  0 <= hh < 10 ^ 2 -> 0 <= mm < 10 ^ 2 -> 0 <= ss < 10 ^ 2 -> 0 <= us < 10 ^ 6 ->
  parse_isoformat_time (pad 2 hh +:+ String ":" (pad 2 mm +:+ String ":" (pad 2 ss +:+ frac us)))
  = Some ((hh, mm, ss, us), None).
Proof.
  intros Hh Hm Hs Hus. unfold parse_isoformat_time.
  assert (Hsign : forall c, c = "+"%char \/ c = "-"%char ->
    str_has c (pad 2 hh +:+ String ":" (pad 2 mm +:+ String ":" (pad 2 ss +:+ frac us))) = false).
  { intros c Hc. pose proof (digits_not_sign c Hc) as Hd. unfold frac.
    destruct Hc as [-> | ->]; destruct (us =? 0);
      repeat (rewrite ?str_has_app; cbn [str_has]; rewrite ?str_has_pad by done);
      reflexivity. }
  rewrite split_tz_no_sign by auto. unfold parse_hms.
  rewrite hms_loop_colon, hms_loop_colon by (done || apply pad_not_nil || (unfold frac; destruct (us =? 0); done)).
  unfold frac. destruct (Z.eqb_spec us 0) as [->|Hne].
  - rewrite sapp_nil_r, hms_loop_last by done. done.
  - rewrite hms_loop_dot by done. cbn -[parse_digits pad].
    rewrite <- (sapp_nil_r (pad 6 us)), parse_digits_pad by done. done.
Qed.

(** Parsing what [isoformat] prints gives back the same naive datetime,
    for every datetime the constructor accepts. *)
Lemma fromisoformat_isoformat dt :
  valid dt = true -> fromisoformat (isoformat dt) = inr (dt, None).
Proof.
  intros Hv. pose proof (valid_bounds dt Hv) as (Hy & Hm & Hd & Hh & Hmi & Hs & Hus).
  unfold fromisoformat, isoformat, parse_isoformat_date.
  rewrite parse_digits_pad by done. dt_red.
  rewrite parse_digits_pad by done. dt_red.
  rewrite parse_digits_pad by done. dt_red.
  rewrite parse_time_iso by done. dt_red.
  by rewrite check_fields_valid.
Qed.

(** ** The calendar: 400-year periodicity and the exhaustive checks *)

Lemma div_eucl_eq a b : Z.div_eucl a b = (a / b, a mod b).
Proof. unfold Z.div, Z.modulo. by destruct (Z.div_eucl a b). Qed.

Lemma is_leap_period y k : is_leap (y + 400 * k) = is_leap y.
Proof.
  unfold is_leap.
  replace (y + 400 * k) with (y + (100 * k) * 4) by lia. rewrite Z.mod_add by lia.
  replace (y + 100 * k * 4) with (y + (4 * k) * 100) by lia. rewrite Z.mod_add by lia.
  replace (y + 4 * k * 100) with (y + k * 400) by lia. rewrite Z.mod_add by lia. done.
Qed.

Lemma days_in_month_period y k m : days_in_month (y + 400 * k) m = days_in_month y m.
Proof. unfold days_in_month. by rewrite is_leap_period. Qed.

Lemma ymd2ord_period y m d k : ymd2ord (y + 400 * k) m d = ymd2ord y m d + 146097 * k.
Proof.
  unfold ymd2ord, days_before_month, days_before_year. rewrite is_leap_period.
  replace (y + 400 * k - 1) with ((y - 1) + (100 * k) * 4) by lia. rewrite Z.div_add by lia.
  replace ((y - 1) + (100 * k) * 4) with ((y - 1) + (4 * k) * 100) by lia. rewrite Z.div_add by lia.
  replace ((y - 1) + (4 * k) * 100) with ((y - 1) + k * 400) by lia. rewrite Z.div_add by lia.
  lia.
Qed.

Lemma ord2ymd_period n k :
  ord2ymd (n + 146097 * k) = let '(y, m, d) := ord2ymd n in (y + 400 * k, m, d).
Proof.
  unfold ord2ymd. rewrite !(div_eucl_eq (_ - 1) 146097).
  replace (n + 146097 * k - 1) with ((n - 1) + k * 146097) by lia.
  rewrite Z.div_add, Z.mod_add by lia.
  repeat case_match; simplify_eq; f_equal; try f_equal; lia.
Qed.

Lemma all_in_spec f k start :
  all_in f k start = true -> forall i, start <= i < start + Z.of_nat k -> f i = true.
Proof.
  revert start. induction k as [|k IH]; simpl; intros start Hall i Hi; [lia|].
  apply andb_prop in Hall as [Hs Hk].
  destruct (Z.eq_dec i start) as [->|]; [done|]. apply (IH (start + 1)); [done|lia].
Qed.

Lemma cycle_dates_ok :
  all_in (fun y => all_in (fun m => all_in (fun d => date_rt y m d)
                                            (Z.to_nat (days_in_month y m)) 1) 12 1) 400 1 = true.
Proof. vm_compute. reflexivity. Qed.

Lemma cycle_ords_ok : all_in (fun q => all_in (fun r => ord_rt (q * 1000 + r)) 1000 0) 147 0 = true.
Proof. vm_compute. reflexivity. Qed.

Lemma ord2ymd_ymd2ord y m d :
  1 <= m <= 12 -> 1 <= d <= days_in_month y m -> ord2ymd (ymd2ord y m d) = (y, m, d).
Proof.
  intros Hm Hd.
  set (q := (y - 1) / 400). set (r := (y - 1) mod 400 + 1).
  assert (Hy : y = r + 400 * q) by (unfold q, r; pose proof (Z.div_mod (y - 1) 400); lia).
  assert (Hr : 1 <= r <= 400) by (unfold r; pose proof (Z.mod_pos_bound (y - 1) 400); lia).
  clearbody q r. rewrite Hy in Hd |- *. rewrite days_in_month_period in Hd.
  rewrite ymd2ord_period, ord2ymd_period.
  pose proof (all_in_spec _ _ _ cycle_dates_ok r ltac:(simpl; lia)) as H1. cbv beta in H1.
  pose proof (all_in_spec _ _ _ H1 m ltac:(simpl; lia)) as H2. cbv beta in H2.
  pose proof (all_in_spec _ _ _ H2 d ltac:(rewrite Z2Nat.id; lia)) as H3.
  unfold date_rt in H3. destruct (ord2ymd (ymd2ord r m d)) as [[y' m'] d'].
  apply andb_prop in H3 as [H3 Hd']. apply andb_prop in H3 as [Hy' Hm'].
  apply Z.eqb_eq in Hy', Hm', Hd'. by subst.
Qed.

Lemma ymd2ord_ord2ymd n :
  let '(y, m, d) := ord2ymd n in
  ymd2ord y m d = n /\ 1 <= m <= 12 /\ 1 <= d <= days_in_month y m.
Proof.
  set (q := (n - 1) / 146097). set (r := (n - 1) mod 146097 + 1).
  assert (Hn : n = r + 146097 * q) by (unfold q, r; pose proof (Z.div_mod (n - 1) 146097); lia).
  assert (Hr : 1 <= r <= 146097) by (unfold r; pose proof (Z.mod_pos_bound (n - 1) 146097); lia).
  clearbody q r. rewrite Hn, ord2ymd_period.
  pose proof (all_in_spec _ _ _ cycle_ords_ok (r / 1000) ltac:(simpl; split; [apply Z.div_pos|apply Z.div_lt_upper_bound]; lia)) as H1.
  cbv beta in H1.
  pose proof (all_in_spec _ _ _ H1 (r mod 1000) ltac:(simpl; pose proof (Z.mod_pos_bound r 1000); lia)) as H2.
  rewrite (Z.mul_comm (r / 1000)), <- Z.div_mod in H2 by lia.
  unfold ord_rt in H2. rewrite (proj2 (Z.leb_gt r 0)), (proj2 (Z.ltb_ge 146097 r)) in H2 by lia.
  simpl in H2. destruct (ord2ymd r) as [[y m] d].
  repeat (apply andb_prop in H2 as [H2 ?]). rewrite Z.eqb_eq in H2. rewrite ?Z.leb_le in *.
  rewrite ymd2ord_period, days_in_month_period. lia.
Qed.

Lemma days_before_year_mono y1 y2 : y1 <= y2 -> days_before_year y1 <= days_before_year y2.
Proof.
  unfold days_before_year. intros Hy.
  pose proof (Z.div_le_mono (y1 - 1) (y2 - 1) 4 ltac:(lia) ltac:(lia)).
  pose proof (Z.div_le_mono (y1 - 1) (y2 - 1) 400 ltac:(lia) ltac:(lia)).
  pose proof (Z.div_mod (y1 - 1) 100 ltac:(lia)). pose proof (Z.mod_pos_bound (y1 - 1) 100 ltac:(lia)).
  pose proof (Z.div_mod (y2 - 1) 100 ltac:(lia)). pose proof (Z.mod_pos_bound (y2 - 1) 100 ltac:(lia)).
  lia.
Qed.

Lemma month_days_bounds y m :
  1 <= m <= 12 ->
  0 <= days_before_month y m /\ 28 <= days_in_month y m /\
  days_before_month y m + days_in_month y m <= 365 + (if is_leap y then 1 else 0).
Proof.
  intros Hm. unfold days_before_month, days_in_month.
  assert (m = 1 \/ m = 2 \/ m = 3 \/ m = 4 \/ m = 5 \/ m = 6 \/ m = 7 \/ m = 8 \/ m = 9 \/
          m = 10 \/ m = 11 \/ m = 12) as Hc by lia.
  repeat destruct Hc as [-> | Hc]; try (subst; destruct (is_leap y); simpl; lia).
Qed.

Lemma ymd2ord_range y m d :
  1 <= m <= 12 -> 1 <= d <= days_in_month y m ->
  (1 <= ymd2ord y m d <= MAXORDINAL <-> MINYEAR <= y <= MAXYEAR).
Proof.
  intros Hm Hd. pose proof (month_days_bounds y m Hm) as Hb.
  assert (E0 : days_before_year 0 = -366) by reflexivity.
  assert (E1 : days_before_year 1 = 0) by reflexivity.
  assert (E9 : days_before_year 9999 = 3651694) by reflexivity.
  assert (E8 : days_before_year 9998 = 3651329) by reflexivity.
  assert (E10 : days_before_year 10000 = 3652059) by reflexivity.
  unfold ymd2ord, MAXORDINAL, MINYEAR, MAXYEAR. split.
  - intros Hr. split.
    + destruct (Z.le_gt_cases 1 y) as [|Hy]; [done|].
      pose proof (days_before_year_mono y 0 ltac:(lia)). destruct (is_leap y); lia.
    + destruct (Z.le_gt_cases y 9999) as [|Hy]; [done|].
      pose proof (days_before_year_mono 10000 y ltac:(lia)). lia.
  - intros Hy. split.
    + pose proof (days_before_year_mono 1 y ltac:(lia)). lia.
    + destruct (Z.eq_dec y 9999) as [->|].
      * change (is_leap 9999) with false in Hb. lia.
      * pose proof (days_before_year_mono y 9998 ltac:(lia)). destruct (is_leap y); lia.
Qed.

Lemma divmod_eq x c q r : 0 <= r < c -> x = q * c + r -> x / c = q /\ x mod c = r.
Proof.
  intros Hr ->. rewrite Z.add_comm, Z.div_add, Z.mod_add, Z.div_small, Z.mod_small by lia.
  done.
Qed.

Lemma valid_iff dt :
  valid dt = true <->
  MINYEAR <= year dt <= MAXYEAR /\ 1 <= month dt <= 12 /\
  1 <= day dt <= days_in_month (year dt) (month dt) /\ 0 <= hour dt <= 23 /\
  0 <= minute dt <= 59 /\ 0 <= second dt <= 59 /\ 0 <= microsecond dt <= 999999.
Proof. unfold valid. rewrite !andb_true_iff, !Z.leb_le. tauto. Qed.

Lemma from_us_to_us dt : valid dt = true -> from_us (to_us dt) = inr dt.
Proof.
  intros Hv. apply valid_iff in Hv as (Hy & Hm & Hd & Hh & Hmi & Hs & Hus).
  destruct dt as [y m d hh mm ss us]; simpl in *.
  pose proof (proj2 (ymd2ord_range y m d Hm Hd) Hy) as Ho.
  unfold from_us, to_us. cbn [year month day hour minute second microsecond].
  set (o := ymd2ord y m d) in *. set (w := (hh * 3600 + mm * 60 + ss) * US_PER_S + us).
  replace ((o * 86400 + hh * 3600 + mm * 60 + ss) * US_PER_S + us) with (w + o * US_PER_DAY)
    by (unfold w, US_PER_DAY; ring).
  assert (Hw : 0 <= w < US_PER_DAY) by (unfold w, US_PER_DAY, US_PER_S; lia).
  rewrite Z.div_add, Z.mod_add, Z.div_small, Z.mod_small by (unfold US_PER_DAY, US_PER_S in *; lia).
  rewrite (proj2 (Z.ltb_lt 0 (0 + o))), (proj2 (Z.leb_le (0 + o) MAXORDINAL)) by lia.
  rewrite Z.add_0_l. simpl. unfold o. rewrite ord2ymd_ymd2ord by done.
  destruct (divmod_eq w US_PER_S (hh * 3600 + mm * 60 + ss) us) as [-> ->];
    [unfold US_PER_S; lia | unfold w; ring |].
  destruct (divmod_eq (hh * 3600 + mm * 60 + ss) 3600 hh (mm * 60 + ss)) as [-> ->]; [lia|ring|].
  destruct (divmod_eq (mm * 60 + ss) 60 mm ss) as [-> _]; [lia|ring|].
  destruct (divmod_eq (hh * 3600 + mm * 60 + ss) 60 (hh * 60 + mm) ss) as [_ ->]; [lia|ring|].
  done.
Qed.

Lemma to_us_from_us x dt : from_us x = inr dt -> valid dt = true /\ to_us dt = x.
Proof.
  unfold from_us. set (days := x / US_PER_DAY). set (rem := x mod US_PER_DAY).
  pose proof (ymd2ord_ord2ymd days) as Hrt.
  destruct ((0 <? days) && (days <=? MAXORDINAL)) eqn:Hb; [|done].
  apply andb_prop in Hb as [Hb1 Hb2]. apply Z.ltb_lt in Hb1. apply Z.leb_le in Hb2.
  destruct (ord2ymd days) as [[y m] d]. destruct Hrt as (Ho & Hm & Hd). intros [= <-].
  assert (Hx : x = days * US_PER_DAY + rem /\ 0 <= rem < US_PER_DAY).
  { unfold days, rem, US_PER_DAY, US_PER_S.
    pose proof (Z.div_mod x (86400 * 1000000) ltac:(lia)).
    pose proof (Z.mod_pos_bound x (86400 * 1000000) ltac:(lia)). lia. }
  set (sec := rem / US_PER_S). set (us := rem mod US_PER_S).
  assert (Hr : rem = sec * US_PER_S + us /\ 0 <= us < US_PER_S /\ 0 <= sec < 86400).
  { unfold sec, us, US_PER_S in *. unfold US_PER_DAY, US_PER_S in Hx.
    pose proof (Z.div_mod rem 1000000 ltac:(lia)).
    pose proof (Z.mod_pos_bound rem 1000000 ltac:(lia)).
    split; [lia|]. split; [lia|]. split; [apply Z.div_pos; lia|].
    apply Z.div_lt_upper_bound; lia. }
  clearbody sec us.
  pose proof (Z.div_mod sec 3600 ltac:(lia)). pose proof (Z.mod_pos_bound sec 3600 ltac:(lia)).
  pose proof (Z.div_mod (sec mod 3600) 60 ltac:(lia)).
  pose proof (Z.mod_pos_bound (sec mod 3600) 60 ltac:(lia)).
  assert (Hss : sec mod 60 = (sec mod 3600) mod 60).
  { rewrite H at 1. replace (3600 * (sec / 3600) + sec mod 3600)
      with (sec mod 3600 + (sec / 3600 * 60) * 60) by ring. by rewrite Z.mod_add. }
  assert (Hh : 0 <= sec / 3600 < 24).
  { split; [apply Z.div_pos; lia|]. apply Z.div_lt_upper_bound; lia. }
  assert (Hmi : 0 <= (sec mod 3600) / 60 < 60).
  { split; [apply Z.div_pos; lia|]. apply Z.div_lt_upper_bound; lia. }
  split.
  - apply valid_iff. simpl. rewrite <- (ymd2ord_range y m d) by done. rewrite Ho.
    unfold US_PER_S in *. rewrite Hss. lia.
  - unfold to_us. simpl. rewrite Ho, Hss. unfold US_PER_DAY, US_PER_S in *. lia.
Qed.

Lemma check_fields_inr y m d hh mm ss us dt :
  check_fields y m d hh mm ss us = inr dt -> valid dt = true.
Proof.
  unfold check_fields.
  repeat match goal with
  | |- context [if negb ?b then _ else _] => destruct b eqn:?; [cbn [negb]|done]
  end.
  intros [= <-]. unfold valid; cbn [year month day hour minute second microsecond].
  repeat match goal with H : _ && _ = true |- _ => apply andb_prop in H as [? ?] end.
  repeat match goal with H : _ = true |- _ => rewrite H; clear H end. done.
Qed.

(** Every datetime [fromisoformat] returns is one the constructor
    accepts. *)
Lemma fromisoformat_valid s dt tz : fromisoformat s = inr (dt, tz) -> valid dt = true.
Proof.
  unfold fromisoformat. repeat case_match; try done; intros Hr; sum_inv Hr;
    injection Hr as <- _; by eapply check_fields_inr.
Qed.

(** [from_us] succeeds exactly on the microseconds of years 1..9999. *)
Lemma from_us_range x :
  (US_PER_DAY <= x < (MAXORDINAL + 1) * US_PER_DAY -> exists dt, from_us x = inr dt) /\
  (~ (US_PER_DAY <= x < (MAXORDINAL + 1) * US_PER_DAY) ->
     from_us x = inl (OverflowError "date value out of range")).
Proof.
  unfold from_us.
  pose proof (Z.div_mod x US_PER_DAY ltac:(done)). pose proof (Z.mod_pos_bound x US_PER_DAY ltac:(done)).
  unfold US_PER_DAY, US_PER_S, MAXORDINAL in *.
  destruct ((0 <? x / (86400 * 1000000)) && (x / (86400 * 1000000) <=? 3652059)) eqn:E.
  - apply andb_true_iff in E as [E1 E2]. apply Z.ltb_lt in E1. apply Z.leb_le in E2.
    split; [|lia]. intros _. destruct (ord2ymd _) as [[y m] d]. by eexists.
  - split; [|done]. intros Hx. exfalso.
    apply andb_false_iff in E as [E|E]; [apply Z.ltb_ge in E|apply Z.leb_gt in E]; lia.
Qed.

(** ** Properties *)

(** [_ymd2ord] is a bijection from the dates of
    years 1..9999 onto the ordinals 1..[MAXORDINAL], and [_ord2ymd] is
    its inverse. *)
Lemma ordinal_bijection :
  (forall y m d, MINYEAR <= y <= MAXYEAR -> 1 <= m <= 12 -> 1 <= d <= days_in_month y m ->
     1 <= ymd2ord y m d <= MAXORDINAL /\ ord2ymd (ymd2ord y m d) = (y, m, d)) /\
  (forall n, 1 <= n <= MAXORDINAL ->
     exists y m d, MINYEAR <= y <= MAXYEAR /\ 1 <= m <= 12 /\ 1 <= d <= days_in_month y m /\
       ord2ymd n = (y, m, d) /\ ymd2ord y m d = n).
Proof.
  split.
  - intros y m d Hy Hm Hd. split; [by apply ymd2ord_range|by apply ord2ymd_ymd2ord].
  - intros n Hn. pose proof (ymd2ord_ord2ymd n) as Hrt.
    destruct (ord2ymd n) as [[y m] d] eqn:E. destruct Hrt as (Ho & Hm & Hd).
    exists y, m, d. split; [|done]. apply (ymd2ord_range y m d Hm Hd). by rewrite Ho.
Qed.

(** ** The closed formula of [_ymd2ord] *)

Lemma div_succ k c :
  0 <= k -> 0 < c -> (k + 1) / c = k / c + (if (k + 1) mod c =? 0 then 1 else 0).
Proof.
  intros Hk Hc. pose proof (Z.div_mod k c ltac:(lia)). pose proof (Z.mod_pos_bound k c Hc).
  destruct (Z.eq_dec (k mod c) (c - 1)) as [E|E].
  - destruct (divmod_eq (k + 1) c (k / c + 1) 0) as [-> ->]; [lia|lia|done].
  - destruct (divmod_eq (k + 1) c (k / c) (k mod c + 1)) as [-> ->]; [lia|lia|].
    rewrite (proj2 (Z.eqb_neq _ _)) by lia. lia.
Qed.

Lemma mod_0_factor a b y : 0 < a -> 0 < b -> y mod (a * b) = 0 -> y mod a = 0.
Proof.
  intros Ha Hb H. apply Z.mod_divide in H; [|lia]. apply Z.mod_divide; [lia|].
  eapply Z.divide_trans; [apply Z.divide_factor_l|exact H].
Qed.

(** A year more adds its 365 or 366 days. *)
Lemma days_before_year_succ y :
  1 <= y -> days_before_year (y + 1) = days_before_year y + (if is_leap y then 366 else 365).
Proof.
  intros Hy. unfold days_before_year, is_leap.
  replace (y + 1 - 1) with (y - 1 + 1) by lia.
  rewrite !(div_succ (y - 1)) by lia. replace (y - 1 + 1) with y by lia.
  assert (y mod 100 = 0 -> y mod 4 = 0) by (apply (mod_0_factor 4 25 y); lia).
  assert (y mod 400 = 0 -> y mod 100 = 0) by (apply (mod_0_factor 100 4 y); lia).
  destruct (Z.eqb_spec (y mod 4) 0), (Z.eqb_spec (y mod 100) 0), (Z.eqb_spec (y mod 400) 0);
    simpl; lia.
Qed.

Lemma days_before_year_ref k : days_before_year (Z.of_nat k + 1) = days_of_years k.
Proof.
  induction k as [|k IH]; [reflexivity|]. cbn [days_of_years].
  replace (Z.of_nat (S k) + 1) with ((Z.of_nat k + 1) + 1) by lia.
  rewrite days_before_year_succ, IH by lia. by replace (Z.of_nat k + 1) with (Z.of_nat (S k)) by lia.
Qed.

Lemma days_before_month_ref y m :
  1 <= m <= 12 -> days_before_month y m = days_of_months y (Z.to_nat (m - 1)).
Proof.
  intros Hm. unfold days_before_month, days_of_months, days_in_month.
  assert (m = 1 \/ m = 2 \/ m = 3 \/ m = 4 \/ m = 5 \/ m = 6 \/ m = 7 \/ m = 8 \/
          m = 9 \/ m = 10 \/ m = 11 \/ m = 12) as Hcases by lia.
  repeat destruct Hcases as [->|Hcases]; try subst m; simpl; destruct (is_leap y); reflexivity.
Qed.

(** CPython's closed formula for the ordinal of a date ([_ymd2ord]:
    [y'*365 + y'//4 - y'//100 + y'//400] plus the days before the month,
    with [y' = y - 1]) counts the days one by one: the days of every
    year before [y], of every month of [y] before [m], and [d]. *)
Lemma ymd2ord_counts y m d :
  1 <= y -> 1 <= m <= 12 -> ymd2ord y m d = ref_ordinal y m d.
Proof.
  intros Hy Hm. unfold ymd2ord, ref_ordinal.
  rewrite <- days_before_year_ref, Z2Nat.id, days_before_month_ref by lia.
  by replace (y - 1 + 1) with y by lia.
Qed.

End DateTime.
