(* ===== verification/Flux.v ===== *)
(** * Flux filter clauses: [createFluxFilters] (get-paros-data.py, 78-99)

    The script turns a comma-separated list given on the command line
    into one stage of a Flux pipeline,
    [|> filter(fn: (r) => r["col"] == "v1" or r["col"] == "v2")].
    This file models the function, gives the clause a meaning (a reader
    of the clause text that follows Flux's string literals, escapes and
    interpolation included, and an evaluator of the parsed predicate on
    a row), and proves that the stage keeps exactly the rows whose
    column holds one of the listed values, as long as no value contains
    a double quote, a backslash or a dollar sign; a value with a double
    quote is shown to add predicates of its own. *)

From Stdlib Require Import ZArith Lia Ascii String.
From stdpp Require Import base list strings sets.
From S2P Require Import Prelude.

Module Flux.

(** ** The code *)

(** [f'r["{col_name}"] == "{i}"'] (line 90). *)
Definition pred_open : string := "r[" +:+ str1 dq.
Definition pred_eq : string := "] == " +:+ str1 dq.
Definition flux_pred (col_name i : string) : string :=
  pred_open +:+ col_name +:+ String dq (pred_eq +:+ i +:+ str1 dq).

Definition filter_prefix : string := "|> filter(fn: (r) => ".

(** Lines 78-99.  [None] is the argument left out ([in_str is None]). *)
Definition createFluxFilters (col_name : string) (in_str : option string) : string :=
  match in_str with
  | None => ""
  | Some s =>
      let in_list := if str_has comma s then py_split comma s else [s] in
      let filter_list := map (flux_pred col_name) in_list in
      let filter_list_str := py_join " or " filter_list in
      if Nat.ltb 0 (length filter_list)
      then filter_prefix +:+ filter_list_str +:+ ")"
      else ""
  end.

(** ** What a filter clause means

    Flux reads [r["c"] == "v"] as "column [c] of row [r] is the string
    [v]" and [or] as disjunction.  [parse_filter_line] reads back the
    clauses of the shape [createFluxFilters] prints, as the list of
    (column, value) equalities of the disjunction. *)

(** The backslash and the other characters a Flux string literal
    treats specially. *)
Definition bs : ascii := "092"%char.
Definition dollar : ascii := "$"%char.

(** The character a backslash escape stands for: [n], [r] and [t] for
    newline, carriage return and tab, and a backslash, a double quote or
    a dollar for itself; any other escape is a syntax error. *)
Definition flux_escape (c : ascii) : option ascii :=
  if Ascii.eqb c "n" then Some nl
  else if Ascii.eqb c "r" then Some "013"%char
  else if Ascii.eqb c "t" then Some tab
  else if Ascii.eqb c bs then Some bs
  else if Ascii.eqb c dq then Some dq
  else if Ascii.eqb c dollar then Some dollar
  else None.

Definition hex_val (c : ascii) : option nat :=
  let n := nat_of_ascii c in
  if (48 <=? n) && (n <=? 57) then Some (n - 48)
  else if (97 <=? n) && (n <=? 102) then Some (n - 87)
  else if (65 <=? n) && (n <=? 70) then Some (n - 55)
  else None.

(** The rest of a Flux string literal after its opening quote: its
    value and what follows the closing quote.  [\xHH] is a byte; a
    [${...}] interpolation is an expression, whose value this reading
    does not compute ([None]); an unterminated literal or a bad escape
    is a syntax error ([None]). *)
Fixpoint take_quoted (s : string) : option (string * string) :=
  match s with
  | EmptyString => None
  | String c s' =>
      if Ascii.eqb c dq then Some (EmptyString, s')
      else if Ascii.eqb c bs then
        match s' with
        | EmptyString => None
        | String e r =>
            if Ascii.eqb e "x" then
              match r with
              | String h1 (String h2 r') =>
                  d1 ← hex_val h1; d2 ← hex_val h2;
                  '(v, rest) ← take_quoted r'; Some (String (ascii_of_nat (16 * d1 + d2)) v, rest)
              | _ => None
              end
            else b ← flux_escape e; '(v, rest) ← take_quoted r; Some (String b v, rest)
        end
      else if Ascii.eqb c dollar then
        match s' with
        | String "{" _ => None
        | _ => '(v, rest) ← take_quoted s'; Some (String c v, rest)
        end
      else '(v, rest) ← take_quoted s'; Some (String c v, rest)
  end.

Definition parse_pred (s : string) : option ((string * string) * string) :=
  s1 ← strip_prefix pred_open s;
  '(col, s2) ← take_quoted s1;
  s3 ← strip_prefix pred_eq s2;
  '(v, s4) ← take_quoted s3;
  Some ((col, v), s4).

(** A disjunction of predicates; [fuel] bounds the number of predicates
    and the length of the text is always enough. *)
Fixpoint parse_disj (fuel : nat) (s : string)
  : option (list (string * string) * string) :=
  match fuel with
  | 0 => None
  | S f =>
      '(p, rest) ← parse_pred s;
      match strip_prefix " or " rest with
      | Some rest' => '(ps, r) ← parse_disj f rest'; Some (p :: ps, r)
      | None => Some ([p], rest)
      end
  end.

Definition parse_filter_line (line : string) : option (list (string * string)) :=
  s1 ← strip_prefix filter_prefix line;
  '(ps, r) ← parse_disj (String.length s1) s1;
  if String.eqb r ")" then Some ps else None.

(** A row exposes its tag columns by name. *)
Definition row := string -> option string.

Definition eval_preds (ps : list (string * string)) (r : row) : bool :=
  existsb (fun p => bool_decide (r p.1 = Some p.2)) ps.

(** A pipeline stage built from a clause: the empty clause is no stage
    (every row passes); otherwise the parsed predicate decides. *)
Definition stage_accepts (line : string) (r : row) : option bool :=
  if String.eqb line "" then Some true
  else ps ← parse_filter_line line; Some (eval_preds ps r).

(** ** The contract: keep the rows whose column is one of the listed
    values, every row when no list was given. *)
Definition selects (sel : option (list string)) (v : option string) : bool :=
  match sel, v with
  | None, _ => true
  | Some vs, Some x => bool_decide (x ∈ vs)
  | Some _, None => false
  end.

(** Values a Flux string literal reads verbatim: no double quote, no
    backslash and no [$]. *)
Definition flux_plain (s : string) : Prop :=
  str_has dq s = false /\ str_has bs s = false /\ str_has dollar s = false.

(** A value that closes the literal and adds a predicate of its own, as
    the shell passes [--sensor-id 'P1" or r["_measurement"] == "box7']
    for [a = P1], [c2 = _measurement], [b = box7]. *)
Definition injected (a c2 b : string) : string :=
  a +:+ String dq (" or " +:+ pred_open +:+ c2 +:+ String dq (pred_eq +:+ b)).

Definition injected_row : row :=
  fun c => if String.eqb c "_measurement" then Some "box7" else Some "X".

(** ** Lemmas *)

(** Computes the models' glue while leaving the parser's steps and the
    clause's fixed pieces folded, so that the lemmas below rewrite them. *)
Ltac flux_red := unfold str1; cbn -[take_quoted strip_prefix pred_open pred_eq].

(** A plain value followed by a quote is read as itself. *)
Lemma take_quoted_app t s :
  flux_plain t -> take_quoted (t +:+ String dq s) = Some (t, s).
Proof.
  induction t as [|a t IH]; cbn [String.append take_quoted]; [by rewrite Ascii.eqb_refl|].
  unfold flux_plain. cbn [str_has]. intros (Hd & Hb & Hs).
  apply orb_false_iff in Hd as [Hd Hd'], Hb as [Hb Hb'], Hs as [Hs Hs'].
  rewrite Hd, Hb, Hs, IH by done. done.
Qed.

Lemma parse_pred_app c v s :
  flux_plain c -> flux_plain v ->
  parse_pred (flux_pred c v +:+ s) = Some ((c, v), s).
Proof.
  intros Hc Hv. unfold parse_pred, flux_pred. rewrite !sapp_assoc. flux_red.
  rewrite strip_prefix_app; flux_red.
  rewrite (take_quoted_app c) by done; flux_red.
  rewrite sapp_assoc, strip_prefix_app; flux_red.
  rewrite sapp_assoc; flux_red. by rewrite (take_quoted_app v).
Qed.

(** A disjunction of predicates on plain columns and values parses back
    to its predicates, given one unit of fuel per predicate. *)
Lemma parse_disj_join (ps : list (string * string)) fuel :
  ps <> [] -> length ps <= fuel -> Forall (fun p => flux_plain p.1 /\ flux_plain p.2) ps ->
  parse_disj fuel (py_join " or " ((fun p => flux_pred p.1 p.2) <$> ps) +:+ ")") = Some (ps, ")").
Proof.
  revert fuel. induction ps as [|[c v] ps IH]; intros fuel Hnil Hlen Hl; [done|].
  inversion Hl as [|? ? [Hc Hv] Hl']; subst.
  destruct fuel as [|fuel]; simpl in Hlen; [lia|].
  destruct ps as [|q ps].
  - cbn [parse_disj String.concat fmap list_fmap fst snd]. by rewrite parse_pred_app.
  - change (py_join " or " ((fun p => flux_pred p.1 p.2) <$> (c, v) :: q :: ps))
      with (flux_pred c v +:+ " or " +:+ py_join " or " ((fun p => flux_pred p.1 p.2) <$> q :: ps)).
    rewrite sapp_assoc. cbn [parse_disj].
    rewrite parse_pred_app by done. cbn -[parse_disj flux_pred String.concat fmap].
    rewrite (IH fuel) by (done || simpl in *; lia). done.
Qed.

Lemma flux_pred_nonempty c v : 1 <= String.length (flux_pred c v).
Proof. simpl. lia. Qed.

Lemma join_length_ge (ps : list (string * string)) :
  length ps <= String.length (py_join " or " ((fun p => flux_pred p.1 p.2) <$> ps) +:+ ")").
Proof.
  rewrite slength_app.
  cut (length ps <= String.length (py_join " or " ((fun p => flux_pred p.1 p.2) <$> ps))); [lia|].
  induction ps as [|[c v] ps IH]; [simpl; lia|].
  pose proof (flux_pred_nonempty c v).
  destruct ps as [|q ps]; [simpl in *; lia|].
  change (py_join " or " ((fun p => flux_pred p.1 p.2) <$> (c, v) :: q :: ps))
    with (flux_pred c v +:+ " or " +:+ py_join " or " ((fun p => flux_pred p.1 p.2) <$> q :: ps)).
  rewrite !slength_app. simpl length in *. lia.
Qed.

Lemma flux_preds_pair col l :
  (fun p => flux_pred p.1 p.2) <$> map (pair col) l = map (flux_pred col) l.
Proof.
  induction l as [|x l IH]; [done|].
  change (map (pair col) (x :: l)) with ((col, x) :: map (pair col) l).
  rewrite fmap_cons, IH. reflexivity.
Qed.

(** [parse_filter_line] reads a stage of plain predicates back. *)
Lemma parse_filter_line_preds (ps : list (string * string)) :
  ps <> [] -> Forall (fun p => flux_plain p.1 /\ flux_plain p.2) ps ->
  parse_filter_line (filter_prefix +:+ py_join " or " ((fun p => flux_pred p.1 p.2) <$> ps) +:+ ")")
  = Some ps.
Proof.
  intros Hnil Hps. unfold parse_filter_line.
  rewrite strip_prefix_app. cbn -[parse_disj String.concat fmap flux_pred].
  by rewrite parse_disj_join by (done || apply join_length_ge).
Qed.

(** The branch on [',' in in_str] (lines 82-86) is [split(',')]. *)
Lemma in_list_split s :
  (if str_has comma s then py_split comma s else [s]) = py_split comma s.
Proof.
  destruct (str_has comma s) eqn:E; [done|]. by rewrite py_split_no_sep.
Qed.

Lemma createFluxFilters_Some_eq col s :
  createFluxFilters col (Some s)
  = filter_prefix +:+ py_join " or " (map (flux_pred col) (py_split comma s)) +:+ ")".
Proof.
  unfold createFluxFilters. rewrite in_list_split.
  destruct (py_split comma s) eqn:E; [by apply py_split_not_nil in E|]. done.
Qed.

Lemma flux_plain_split s : flux_plain s -> Forall flux_plain (py_split comma s).
Proof.
  intros (Hd & Hb & Hs). apply (py_split_no _ comma) in Hd, Hb, Hs.
  apply Forall_forall. intros x Hx.
  by split_and!; [eapply (Forall_forall _ _) in Hd|eapply (Forall_forall _ _) in Hb
                 |eapply (Forall_forall _ _) in Hs].
Qed.

Lemma parse_createFluxFilters col s :
  flux_plain col -> flux_plain s ->
  parse_filter_line (createFluxFilters col (Some s))
  = Some (map (pair col) (py_split comma s)).
Proof.
  intros Hc Hs. rewrite createFluxFilters_Some_eq.
  replace (map (flux_pred col) (py_split comma s))
    with ((fun p => flux_pred p.1 p.2) <$> map (pair col) (py_split comma s))
    by apply flux_preds_pair.
  apply parse_filter_line_preds.
  - destruct (py_split comma s) eqn:E; [by apply py_split_not_nil in E|done].
  - apply List.Forall_map. eapply Forall_impl; [by apply flux_plain_split|]. done.
Qed.

Lemma eval_preds_pair col l (r : row) :
  eval_preds (map (pair col) l) r = selects (Some l) (r col).
Proof.
  unfold eval_preds, selects. destruct (r col) as [x|] eqn:Hx.
  - induction l as [|v l IH]; cbn [map existsb fst snd].
    + symmetry. apply bool_decide_eq_false. set_solver.
    + rewrite Hx, IH, <- bool_decide_or. apply bool_decide_ext. set_solver.
  - induction l as [|v l IH]; cbn [map existsb fst snd]; [done|]. by rewrite Hx.
Qed.

Lemma createFluxFilters_Some_ne col s : createFluxFilters col (Some s) <> "".
Proof. rewrite createFluxFilters_Some_eq. done. Qed.

(** The stage [createFluxFilters] prints for a column keeps exactly the
    rows whose column holds one of the comma-separated values, and is no
    stage at all when the option was not given, as long as neither the
    column name nor the values contain a double quote. *)
Lemma stage_createFluxFilters (col : string) (sel : option string) (r : row) :
  flux_plain col -> from_option flux_plain True sel ->
  stage_accepts (createFluxFilters col sel) r
  = Some (selects (py_split comma <$> sel) (r col)).
Proof.
  intros Hc Hs. destruct sel as [s|]; [|done].
  unfold stage_accepts.
  rewrite (proj2 (String.eqb_neq _ _) (createFluxFilters_Some_ne col s)).
  rewrite parse_createFluxFilters by done. simpl. by rewrite eval_preds_pair.
Qed.

(** The clause of an injected value is the clause of two predicates. *)
Lemma flux_pred_injected col a c2 b :
  py_join " or " (map (flux_pred col) [injected a c2 b])
  = py_join " or " ((fun p => flux_pred p.1 p.2) <$> [(col, a); (c2, b)]).
Proof.
  cbn [map fmap list_fmap fst snd String.concat]. unfold flux_pred, injected, str1.
  rewrite !sapp_assoc. cbn [String.append]. rewrite !sapp_assoc. reflexivity.
Qed.

(** * Properties *)

(** C13 (roundtrip).  Read back, the clause for [--box-id] or
    [--sensor-id] holds one predicate per comma-separated value (one more
    than the commas of the argument), each on the given column, and the
    values joined by commas give back the argument. *)
Theorem createFluxFilters_values_roundtrip (col s : string) :
  flux_plain col -> flux_plain s ->
  exists ps, parse_filter_line (createFluxFilters col (Some s)) = Some ps /\
    Forall (fun p => p.1 = col) ps /\
    py_join "," (map snd ps) = s /\
    length ps = S (str_count comma s).
Proof.
  intros Hc Hs. exists (map (pair col) (py_split comma s)).
  rewrite parse_createFluxFilters by done. split; [done|].
  rewrite map_map, map_id, length_map, py_split_length.
  split; [by apply List.Forall_map, Forall_forall|].
  split; [apply (py_join_split comma)|done].
Qed.

Example createFluxFilters_values_roundtrip_witness :
  exists ps, parse_filter_line (createFluxFilters "_measurement" (Some "box7,box9")) = Some ps /\
    Forall (fun p => p.1 = "_measurement") ps /\
    py_join "," (map snd ps) = "box7,box9" /\
    length ps = S (str_count comma "box7,box9").
Proof. apply createFluxFilters_values_roundtrip; unfold flux_plain; split_and!; vm_compute; reflexivity. Defined.

(** C19 (functional).  The clause is empty exactly when the option was
    left out: an option given as the empty string still yields a filter
    (on the empty value). *)
Theorem createFluxFilters_empty_iff (col : string) (sel : option string) :
  createFluxFilters col sel = "" <-> sel = None.
Proof.
  split; [|by intros ->].
  destruct sel as [s|]; [|done]. by intros ?%createFluxFilters_Some_ne.
Qed.

(** C15 (safety).  Filter values are pasted into the clause without
    escaping: for any plain [a], [c2], [b] without commas, the one value
    [injected a c2 b] makes a clause that Flux reads as two predicates,
    the second on the column [c2], so the stage keeps every row whose
    [c2] is [b] although the option lists a single value, which no such
    row's column holds. *)
Theorem createFluxFilters_quote_injection col a c2 b (r : row) :
  flux_plain col -> flux_plain a -> flux_plain c2 -> flux_plain b ->
  str_has comma a = false -> str_has comma c2 = false -> str_has comma b = false ->
  py_split comma (injected a c2 b) = [injected a c2 b] /\
  parse_filter_line (createFluxFilters col (Some (injected a c2 b))) = Some [(col, a); (c2, b)] /\
  stage_accepts (createFluxFilters col (Some (injected a c2 b))) r
    = Some (bool_decide (r col = Some a) || bool_decide (r c2 = Some b)).
Proof.
  intros Hcol Ha Hc2 Hb Ca Cc Cb.
  assert (Hs : py_split comma (injected a c2 b) = [injected a c2 b]).
  { apply py_split_no_sep. unfold injected, pred_open, pred_eq.
    repeat (first [rewrite str_has_app | progress cbn [str_has]]). by rewrite Ca, Cc, Cb. }
  assert (Hp : parse_filter_line (createFluxFilters col (Some (injected a c2 b)))
               = Some [(col, a); (c2, b)]).
  { rewrite createFluxFilters_Some_eq, Hs.
    rewrite flux_pred_injected.
    apply parse_filter_line_preds; [done|]. constructor; [by split|]. constructor; [by split|]. constructor. }
  split_and!; [done|done|].
  unfold stage_accepts. rewrite (proj2 (String.eqb_neq _ _) (createFluxFilters_Some_ne col _)), Hp.
  cbn. by rewrite orb_false_r.
Qed.

Example createFluxFilters_quote_injection_witness :
  py_split comma (injected "P1" "_measurement" "box7") = [injected "P1" "_measurement" "box7"] /\
  parse_filter_line (createFluxFilters "id" (Some (injected "P1" "_measurement" "box7")))
    = Some [("id", "P1"); ("_measurement", "box7")] /\
  stage_accepts (createFluxFilters "id" (Some (injected "P1" "_measurement" "box7"))) injected_row
    = Some (bool_decide (injected_row "id" = Some "P1") ||
            bool_decide (injected_row "_measurement" = Some "box7")).
Proof.
  apply createFluxFilters_quote_injection; try (unfold flux_plain; split_and!); vm_compute; reflexivity.
Defined.

End Flux.
