(* ===== verification/Query.v ===== *)
(** * The Flux query of [main] (get-paros-data.py, 112-140)

    [main] resolves the two zones with pytz, parses the start and end
    times, moves them to naive UTC, builds the two filter clauses and
    pastes everything into a five- to seven-line Flux query.  This file
    models those lines over the definitions of [DateTime], [Pytz] and
    [Flux],
    gives the query its line structure, and proves what the query
    selects: the rows of the listed boxes and sensors (the two filter
    stages are a conjunction) in the UTC range of the local times the
    user gave. *)

From Stdlib Require Import ZArith Lia Ascii String.
From stdpp Require Import base list strings sets.
From S2P Require Import Prelude DateTime Pytz Flux.

Module Query.
Import DateTime Pytz Flux.

(** ** The command line (lines 10-29) *)

Record args := {
  start_time : string;
  end_time : string;
  output_file : string;
  box_id : option string;
  sensor_id : option string;
  bucket : string;
  input_zone : string;
  output_zone : string;
  creds : string
}.

(** The defaults argparse fills in (lines 23-26). *)
Definition default_bucket : string := "parosbox".
Definition default_zone : string := "Etc/UTC".
Definition default_creds : string := "influx-creds.pickle".

(** ** The query text (lines 129-140) *)

Definition quoted (s : string) : string := str1 dq +:+ s +:+ str1 dq.

Definition indent : string := "        ".

Definition range_prefix : string := indent +:+ "|> range(start: ".

Definition drop_line : string :=
  "|> drop(columns: [" +:+ quoted "_start" +:+ ", " +:+ quoted "_stop" +:+ "])".

Definition pivot_line : string :=
  indent +:+ "|> pivot(rowKey:[" +:+ quoted "_time" +:+ "], columnKey: [" +:+ quoted "_field"
  +:+ "], valueColumn: " +:+ quoted "_value" +:+ ")".

Definition range_line (st et : datetime) : string :=
  range_prefix +:+ isoformat st +:+ "Z, stop: " +:+ isoformat et +:+ "Z)".

(** Lines 130-140: a clause is added when it is not empty ([if
    box_filters:]), on a line of its own after a tab. *)
Definition build_query (bkt : string) (st et : datetime) (box_filters sensor_filters : string)
  : string :=
  let idb_query := "from(bucket: " +:+ quoted bkt +:+ ")" +:+ str1 nl +:+ range_line st et +:+ str1 nl in
  let idb_query := if String.eqb box_filters "" then idb_query
                   else idb_query +:+ str1 tab +:+ box_filters +:+ str1 nl in
  let idb_query := if String.eqb sensor_filters "" then idb_query
                   else idb_query +:+ str1 tab +:+ sensor_filters +:+ str1 nl in
  idb_query +:+ str1 tab +:+ drop_line +:+ str1 nl +:+ pivot_line.

(** Lines 112-127 and the query: the zones are resolved first (113-114),
    then the start time is parsed and moved to UTC (116-119), then the
    end time (120-123). *)
Definition prepare_query (pz : PytzDb) (a : args) : exc + string :=
  input_tz ← pytz_timezone pz (input_zone a);
  _ ← pytz_timezone pz (output_zone a);
  st ← fromisoformat (start_time a);
  st ← to_utc_naive input_tz st;
  et ← fromisoformat (end_time a);
  et ← to_utc_naive input_tz et;
  let box_filters := createFluxFilters "_measurement" (box_id a) in
  let sensor_filters := createFluxFilters "id" (sensor_id a) in
  inr (build_query (bucket a) st et box_filters sensor_filters).

(** ** Reading the query back *)

(** The lines of the query, as the code lays them out. *)
Definition query_lines (bkt : string) (st et : datetime) (bf sf : string) : list string :=
  ["from(bucket: " +:+ quoted bkt +:+ ")"; range_line st et] ++
  (if String.eqb bf "" then [] else [str1 tab +:+ bf]) ++
  (if String.eqb sf "" then [] else [str1 tab +:+ sf]) ++
  [str1 tab +:+ drop_line; pivot_line].




(** The UTC bounds written in a range line. *)
Definition parse_range_line (l : string) : option (datetime * datetime) :=
  r ← strip_prefix range_prefix l;
  '(s1, r) ← take_until "Z" r;
  r ← strip_prefix ", stop: " r;
  '(s2, r) ← take_until "Z" r;
  if String.eqb r ")" then
    match fromisoformat s1, fromisoformat s2 with
    | inr (d1, None), inr (d2, None) => Some (d1, d2)
    | _, _ => None
    end
  else None.


(** ** Sample runs *)

(** A zone table with UTC, the fixed zone two hours east of it, and
    Central European time with its summer time of 2021. *)
Definition sample_pz : PytzDb :=
  fun z => if String.eqb z "Etc/UTC" then Some (Fixed 0)
           else if String.eqb z "Etc/GMT-2" then Some (Fixed 7200)
           else if String.eqb z "Europe/Berlin" then Some (Dst sample_berlin) else None.


(** The same run with the two times swapped. *)
Definition reversed_args : args := {|
  start_time := "2021-03-05"; end_time := "2021-03-04T01:30:00";
  output_file := "out.csv"; box_id := None; sensor_id := None;
  bucket := default_bucket; input_zone := "Etc/GMT-2"; output_zone := default_zone;
  creds := default_creds |}.

(** The sample run with a start time that carries an offset. *)
Definition aware_args : args := {|
  start_time := "2021-03-04T01:30:00+01:00"; end_time := "2021-03-05";
  output_file := "out.csv"; box_id := Some "box7,box9"; sensor_id := Some "P1";
  bucket := default_bucket; input_zone := "Etc/GMT-2"; output_zone := default_zone;
  creds := default_creds |}.

(** A summer afternoon in Berlin. *)
Definition berlin_args : args := {|
  start_time := "2021-07-01T12:00:00"; end_time := "2021-07-01T18:00:00";
  output_file := "out.csv"; box_id := None; sensor_id := None;
  bucket := default_bucket; input_zone := "Europe/Berlin"; output_zone := default_zone;
  creds := default_creds |}.


Definition no_nl_opt (sel : option string) : Prop :=
  from_option (fun s => str_has nl s = false) True sel.

(** ** Lemmas *)

Lemma build_query_lines bkt st et bf sf :
  build_query bkt st et bf sf = py_join (str1 nl) (query_lines bkt st et bf sf).
Proof.
  unfold build_query, query_lines.
  by destruct (String.eqb bf ""), (String.eqb sf ""); cbn [app String.concat];
    rewrite ?sapp_assoc.
Qed.

(** [isoformat] prints digits and the separators [-], [T], [:], [.]. *)
Lemma str_has_isoformat c dt :
  (forall k, 48 <= k <= 57 -> nat_of_ascii c <> k)%nat ->
  Ascii.eqb "-" c = false -> Ascii.eqb "T" c = false ->
  Ascii.eqb ":" c = false -> Ascii.eqb "." c = false ->
  str_has c (isoformat dt) = false.
Proof.
  intros Hd H1 H2 H3 H4. unfold isoformat, frac. destruct (_ =? 0)%Z;
    repeat (rewrite ?str_has_app; cbn [str_has]; rewrite ?str_has_pad by done);
    by rewrite ?H1, ?H2, ?H3, ?H4.
Qed.

Lemma isoformat_no_nl dt : str_has nl (isoformat dt) = false.
Proof. apply str_has_isoformat; try done. intros k Hk. change (nat_of_ascii nl) with 10%nat. lia. Qed.

Lemma isoformat_no_Z dt : str_has "Z" (isoformat dt) = false.
Proof. apply str_has_isoformat; try done. intros k Hk. change (nat_of_ascii "Z") with 90%nat. lia. Qed.

Lemma createFluxFilters_no_nl col sel :
  str_has nl col = false -> from_option (fun s => str_has nl s = false) True sel ->
  str_has nl (createFluxFilters col sel) = false.
Proof.
  intros Hc Hs. destruct sel as [s|]; [|done]. rewrite createFluxFilters_Some_eq.
  rewrite !str_has_app. rewrite str_has_join; [done|done|].
  apply List.Forall_map. eapply Forall_impl; [by apply (py_split_no nl comma)|].
  intros x Hx. cbn beta in Hx. unfold flux_pred, str1, pred_open, pred_eq.
  repeat (rewrite ?str_has_app; cbn [str_has]). by rewrite Hc, Hx.
Qed.

(** Without a newline in the bucket or the filters, the lines of the
    query are [query_lines]. *)
Lemma build_query_split bkt st et bf sf :
  str_has nl bkt = false -> str_has nl bf = false -> str_has nl sf = false ->
  py_split nl (build_query bkt st et bf sf) = query_lines bkt st et bf sf.
Proof.
  intros Hb Hbf Hsf. rewrite build_query_lines. apply py_split_join; [by destruct bf, sf|].
  unfold query_lines, range_line.
  destruct (String.eqb bf ""), (String.eqb sf ""); cbn [app]; repeat constructor.
  all: cbn -[isoformat]; repeat (rewrite ?str_has_app, ?isoformat_no_nl; cbn [str_has]).
  all: by rewrite ?Hb, ?Hbf, ?Hsf.
Qed.






(** The steps of a successful [prepare_query]. *)
Lemma prepare_query_inr pz a q :
  prepare_query pz a = inr q ->
  exists off p1 st p2 et,
    pytz_timezone pz (input_zone a) = inr off /\
    fromisoformat (start_time a) = inr p1 /\ to_utc_naive off p1 = inr st /\
    fromisoformat (end_time a) = inr p2 /\ to_utc_naive off p2 = inr et /\
    q = build_query (bucket a) st et (createFluxFilters "_measurement" (box_id a))
                    (createFluxFilters "id" (sensor_id a)).
Proof.
  unfold prepare_query. intros H. sum_inv H. injection H as <-. naive_solver.
Qed.

Lemma query_range_line pz a q :
  prepare_query pz a = inr q ->
  str_has nl (bucket a) = false -> no_nl_opt (box_id a) -> no_nl_opt (sensor_id a) ->
  exists off p1 st p2 et,
    pytz_timezone pz (input_zone a) = inr off /\
    fromisoformat (start_time a) = inr p1 /\ to_utc_naive off p1 = inr st /\
    fromisoformat (end_time a) = inr p2 /\ to_utc_naive off p2 = inr et /\
    py_split nl q !! 1 = Some (range_line st et).
Proof.
  intros Hq Hb Hbox Hsen.
  destruct (prepare_query_inr _ _ _ Hq) as (off & p1 & st & p2 & et & H1 & H2 & H3 & H4 & H5 & ->).
  exists off, p1, st, p2, et. do 5 (split; [done|]).
  by rewrite build_query_split by (done || by apply createFluxFilters_no_nl).
Qed.

Lemma parse_range_line_range st et :
  valid st = true -> valid et = true -> parse_range_line (range_line st et) = Some (st, et).
Proof.
  intros Hs He. unfold parse_range_line.
  change (range_line st et) with
    (range_prefix +:+ isoformat st +:+ String "Z" (", stop: " +:+ isoformat et +:+ String "Z" ")")).
  rewrite strip_prefix_app. cbn [mbind option_bind].
  rewrite (take_until_app "Z" (isoformat st)) by apply isoformat_no_Z. cbn [mbind option_bind].
  rewrite strip_prefix_app. cbn [mbind option_bind].
  rewrite (take_until_app "Z" (isoformat et)) by apply isoformat_no_Z.
  cbn -[fromisoformat isoformat]. by rewrite !fromisoformat_isoformat.
Qed.

(** * Properties *)


(** C7 (roundtrip).  The second line of the query is the range line,
    and read back it gives two UTC datetimes which [--input-zone]'s clock
    shows as the start and end times the user typed, when its clock
    shows these times at all (always for a fixed offset; for a zone with
    transitions, unless a transition skips them): the round trip of
    spec 7. *)
Theorem prepare_query_range pz a q z st0 et0 :
  prepare_query pz a = inr q ->
  pytz_timezone pz (input_zone a) = inr z ->
  fromisoformat (start_time a) = inr (st0, None) ->
  fromisoformat (end_time a) = inr (et0, None) ->
  shown z st0 -> shown z et0 ->
  str_has nl (bucket a) = false -> no_nl_opt (box_id a) -> no_nl_opt (sensor_id a) ->
  exists st et,
    (py_split nl q !! 1 ≫= parse_range_line) = Some (st, et) /\
    to_local z st = inr st0 /\ to_local z et = inr et0.
Proof.
  intros Hq Hz Hs He Hss Hse Hb Hbox Hsen.
  destruct (query_range_line _ _ _ Hq Hb Hbox Hsen)
    as (z' & p1 & st & p2 & et & Hz' & Hs' & Hst & He' & Het & ->).
  rewrite Hz in Hz'. rewrite Hs in Hs'. rewrite He in He'.
  injection Hz' as <-. injection Hs' as <-. injection He' as <-.
  exists st, et. split; [|split].
  - rewrite option_bind_Some_l.
    apply parse_range_line_range; eapply to_utc_naive_valid; [apply Hst|apply Het].
  - apply (to_utc_naive_roundtrip z st0 st); [by eapply fromisoformat_valid|done|done].
  - apply (to_utc_naive_roundtrip z et0 et); [by eapply fromisoformat_valid|done|done].
Qed.

(** C25 (error).  The steps of [main] fail in the code's order: an
    unknown [--input-zone] raises before anything else, then an unknown
    [--output-zone], then a start time [fromisoformat] refuses; a start
    time that carries its own UTC offset is refused by [localize]. *)
Theorem prepare_query_errors pz a :
  (pz (input_zone a) = None ->
   prepare_query pz a = inl (UnknownTimeZoneError (input_zone a))) /\
  (is_Some (pz (input_zone a)) -> pz (output_zone a) = None ->
   prepare_query pz a = inl (UnknownTimeZoneError (output_zone a))) /\
  (forall e, is_Some (pz (input_zone a)) -> is_Some (pz (output_zone a)) ->
   fromisoformat (start_time a) = inl e -> prepare_query pz a = inl e) /\
  (forall dt tz, is_Some (pz (input_zone a)) -> is_Some (pz (output_zone a)) ->
   fromisoformat (start_time a) = inr (dt, Some tz) ->
   prepare_query pz a = inl (ValueError "Not naive datetime (tzinfo is already set)")).
Proof.
  unfold prepare_query, pytz_timezone. split_and!.
  - by intros ->.
  - by intros [? ->] ->.
  - by intros e [? ->] [? ->] ->.
  - by intros dt tz [? ->] [? ->] ->.
Qed.

(** C18 (safety).  Nothing checks that the start comes before the end,
    against the invariant [start <= end] of spec 2: for a fixed-offset
    input zone, a start typed after the end gives a query all the same,
    whose range starts after it stops. *)
Theorem prepare_query_reversed_range pz a off p1 p2 :
  pz (input_zone a) = Some (Fixed off) -> is_Some (pz (output_zone a)) ->
  fromisoformat (start_time a) = inr (p1, None) -> fromisoformat (end_time a) = inr (p2, None) ->
  (US_PER_DAY <= to_us p2 - off * US_PER_S)%Z ->
  (to_us p1 - off * US_PER_S < (MAXORDINAL + 1) * US_PER_DAY)%Z ->
  (to_us p2 < to_us p1)%Z ->
  str_has nl (bucket a) = false -> no_nl_opt (box_id a) -> no_nl_opt (sensor_id a) ->
  exists q st et, prepare_query pz a = inr q /\
    (py_split nl q !! 1 ≫= parse_range_line) = Some (st, et) /\ (to_us et < to_us st)%Z.
Proof.
  intros Hin [oz Hout] H1 H2 Hlo Hhi Hlt Hb Hbox Hsen.
  destruct (proj1 (from_us_range (to_us p1 - off * US_PER_S))) as [st Hst]; [lia|].
  destruct (proj1 (from_us_range (to_us p2 - off * US_PER_S))) as [et Het]; [lia|].
  assert (Hq : prepare_query pz a = inr (build_query (bucket a) st et
                 (createFluxFilters "_measurement" (box_id a)) (createFluxFilters "id" (sensor_id a)))).
  { unfold prepare_query, pytz_timezone. rewrite Hin, Hout, !sum_bind_inr_l, H1, sum_bind_inr_l.
    rewrite to_utc_naive_fixed, Hst, sum_bind_inr_l, H2, sum_bind_inr_l, to_utc_naive_fixed, Het.
    done. }
  destruct (query_range_line _ _ _ Hq Hb Hbox Hsen)
    as (z' & q1 & st' & q2 & et' & Hz & Hs & Hst' & He & Het' & Hl).
  unfold pytz_timezone in Hz. rewrite Hin in Hz. injection Hz as <-.
  rewrite H1 in Hs. rewrite H2 in He. injection Hs as <-. injection He as <-.
  rewrite to_utc_naive_fixed, Hst in Hst'. rewrite to_utc_naive_fixed, Het in Het'.
  injection Hst' as <-. injection Het' as <-.
  apply to_us_from_us in Hst as [Vs Es], Het as [Ve Ee].
  eexists _, st, et. split; [exact Hq|]. split; [|lia].
  rewrite Hl, option_bind_Some_l. by apply parse_range_line_range.
Qed.

(** ** Witnesses *)


Example prepare_query_range_witness :
  shown (Dst sample_berlin) (mkdt 2021 7 1 12 0 0 0) /\ shown (Dst sample_berlin) (mkdt 2021 7 1 18 0 0 0) /\
  exists st et,
    (py_split nl (build_query default_bucket (mkdt 2021 7 1 10 0 0 0) (mkdt 2021 7 1 16 0 0 0) "" "")
       !! 1 ≫= parse_range_line) = Some (st, et) /\
    to_local (Dst sample_berlin) st = inr (mkdt 2021 7 1 12 0 0 0) /\
    to_local (Dst sample_berlin) et = inr (mkdt 2021 7 1 18 0 0 0).
Proof.
  assert (H1 : shown (Dst sample_berlin) (mkdt 2021 7 1 12 0 0 0))
    by (eexists; split; [vm_compute; reflexivity|discriminate]).
  assert (H2 : shown (Dst sample_berlin) (mkdt 2021 7 1 18 0 0 0))
    by (eexists; split; [vm_compute; reflexivity|discriminate]).
  split; [exact H1|]. split; [exact H2|].
  apply (prepare_query_range sample_pz berlin_args _ (Dst sample_berlin)); try exact H1; try exact H2;
    vm_compute; reflexivity.
Defined.

Example prepare_query_errors_witness :
  is_Some (sample_pz (input_zone aware_args)) /\ is_Some (sample_pz (output_zone aware_args)) /\
  fromisoformat (start_time aware_args) = inr (mkdt 2021 3 4 1 30 0 0, Some (3600, 0)%Z) /\
  prepare_query sample_pz aware_args
    = inl (ValueError "Not naive datetime (tzinfo is already set)").
Proof.
  assert (Hi : is_Some (sample_pz (input_zone aware_args))) by (vm_compute; by eexists).
  assert (Ho : is_Some (sample_pz (output_zone aware_args))) by (vm_compute; by eexists).
  assert (Hs : fromisoformat (start_time aware_args) = inr (mkdt 2021 3 4 1 30 0 0, Some (3600, 0)%Z))
    by (vm_compute; reflexivity).
  split_and!; [exact Hi|exact Ho|exact Hs|].
  exact (proj2 (proj2 (proj2 (prepare_query_errors sample_pz aware_args))) _ _ Hi Ho Hs).
Defined.

(** The sample run with its two times swapped: 2021-03-05 00:00 and
    2021-03-04 01:30 at UTC+2. *)
Example prepare_query_reversed_range_witness :
  exists q st et, prepare_query sample_pz reversed_args = inr q /\
    (py_split nl q !! 1 ≫= parse_range_line) = Some (st, et) /\ (to_us et < to_us st)%Z.
Proof.
  apply (prepare_query_reversed_range sample_pz reversed_args 7200
           (mkdt 2021 3 5 0 0 0 0) (mkdt 2021 3 4 1 30 0 0));
    first [reflexivity | by eexists | vm_compute; first [reflexivity | discriminate | exact I]].
Defined.

End Query.
