(* ===== verification/Cli.v ===== *)
(** * The command line of the query tool

    [cliArguments] (get-paros-data.py, 10-29) registers three positional
    arguments and six options on an [argparse.ArgumentParser] and calls
    [parse_args()].  This file models that call on the argument vector,
    following CPython's [argparse] ([_parse_known_args],
    [_parse_optional], [_get_option_tuples], [consume_optional],
    [consume_positionals]) for this parser: every token is first
    classified (an option by its exact name, by [name=value], or by a
    unique prefix; an ambiguous prefix is an error before anything is
    consumed; a negative number, a lone [-] or a token with a space is an
    argument; the first [--] makes every later token an argument), then
    the tokens are consumed in order: an option takes its [=value] or the
    next argument, [-h] ends the run, positionals fill [start_time],
    [end_time], [output_file], and the rest are left over.  The run
    ends with a namespace, with the help (exit 0) or with a usage error
    (exit 2).  The texts of the help and of the usage message are not
    modelled, only which error is reported. *)

From Stdlib Require Import ZArith String Ascii Wf_nat.
From stdpp Require Import base list strings sets.
From S2P Require Import Prelude Query.

Module Cli.
Import Query.

(** ** The parser of lines 15-26 *)

(** Where an option stores its value ([dest]); [-h/--help] is added by
    [ArgumentParser] itself. *)
Inductive dest := DHelp | DBox | DSensor | DBucket | DInZone | DOutZone | DCreds.

#[export] Instance dest_eq_dec : EqDecision dest.
Proof. solve_decision. Defined.

(** The option strings in the order they are registered. *)
Definition option_strings : list (string * dest) :=
  [("-h", DHelp); ("--help", DHelp); ("--box-id", DBox); ("--sensor-id", DSensor);
   ("--bucket", DBucket); ("--input-zone", DInZone); ("--output-zone", DOutZone);
   ("--creds", DCreds)].

(** The positionals, in the order of lines 18-20. *)
Definition positional_names : list string := ["start_time"; "end_time"; "output_file"].

(** The namespace before any argument is seen: [None] for the options
    without default, the defaults of lines 23-26 for the others. *)
Definition defaults (st et out : string) : args := {|
  start_time := st; end_time := et; output_file := out;
  box_id := None; sensor_id := None; bucket := default_bucket;
  input_zone := default_zone; output_zone := default_zone; creds := default_creds |}.

(** [setattr(namespace, dest, value)]. *)
Definition set_dest (d : dest) (v : string) (a : args) : args :=
  match d with
  | DHelp => a
  | DBox => {| start_time := start_time a; end_time := end_time a; output_file := output_file a;
               box_id := Some v; sensor_id := sensor_id a; bucket := bucket a;
               input_zone := input_zone a; output_zone := output_zone a; creds := creds a |}
  | DSensor => {| start_time := start_time a; end_time := end_time a; output_file := output_file a;
                  box_id := box_id a; sensor_id := Some v; bucket := bucket a;
                  input_zone := input_zone a; output_zone := output_zone a; creds := creds a |}
  | DBucket => {| start_time := start_time a; end_time := end_time a; output_file := output_file a;
                  box_id := box_id a; sensor_id := sensor_id a; bucket := v;
                  input_zone := input_zone a; output_zone := output_zone a; creds := creds a |}
  | DInZone => {| start_time := start_time a; end_time := end_time a; output_file := output_file a;
                  box_id := box_id a; sensor_id := sensor_id a; bucket := bucket a;
                  input_zone := v; output_zone := output_zone a; creds := creds a |}
  | DOutZone => {| start_time := start_time a; end_time := end_time a; output_file := output_file a;
                   box_id := box_id a; sensor_id := sensor_id a; bucket := bucket a;
                   input_zone := input_zone a; output_zone := v; creds := creds a |}
  | DCreds => {| start_time := start_time a; end_time := end_time a; output_file := output_file a;
                 box_id := box_id a; sensor_id := sensor_id a; bucket := bucket a;
                 input_zone := input_zone a; output_zone := output_zone a; creds := v |}
  end.

(** [setattr(namespace, name, value)] for a positional. *)
Definition set_positional (name v : string) (a : args) : args :=
  if String.eqb name "start_time" then
    {| start_time := v; end_time := end_time a; output_file := output_file a;
       box_id := box_id a; sensor_id := sensor_id a; bucket := bucket a;
       input_zone := input_zone a; output_zone := output_zone a; creds := creds a |}
  else if String.eqb name "end_time" then
    {| start_time := start_time a; end_time := v; output_file := output_file a;
       box_id := box_id a; sensor_id := sensor_id a; bucket := bucket a;
       input_zone := input_zone a; output_zone := output_zone a; creds := creds a |}
  else if String.eqb name "output_file" then
    {| start_time := start_time a; end_time := end_time a; output_file := v;
       box_id := box_id a; sensor_id := sensor_id a; bucket := bucket a;
       input_zone := input_zone a; output_zone := output_zone a; creds := creds a |}
  else a.

(** [getattr(namespace, dest)] of an option. *)
Definition get_dest (d : dest) (a : args) : option string :=
  match d with
  | DHelp => None
  | DBox => box_id a
  | DSensor => sensor_id a
  | DBucket => Some (bucket a)
  | DInZone => Some (input_zone a)
  | DOutZone => Some (output_zone a)
  | DCreds => Some (creds a)
  end.

(** The positionals consumed, stored in the order they were registered
    ([consume_positionals] once all three are there). *)
Definition set_positionals (pos : list string) (a : args) : args :=
  if length pos =? 3
  then foldl (fun a nv => set_positional nv.1 nv.2 a) a (zip positional_names pos)
  else a.

(** ** Classifying a token ([_parse_optional]) *)

(** What [parse_args] reports before exiting with status 2. *)
Inductive usage_error :=
  | Ambiguous (arg : string) (matches : list string)
  | ExpectedOne (d : dest)
  | IgnoredExplicit (explicit : string)
  | Required (names : list string)
  | Unrecognized (extras : list string).

#[export] Instance usage_error_eq_dec : EqDecision usage_error.
Proof. solve_decision. Defined.

(** A token of the vector: an argument (['A']), the separator [--]
    (['-']), a registered option with its option string and its
    [=value] if any, or an unknown option (['O'] without action). *)
Inductive tok :=
  | TArg (s : string)
  | TSep
  | TOpt (o : string) (d : dest) (explicit : option string)
  | TUnknown (s : string).

#[export] Instance tok_eq_dec : EqDecision tok.
Proof. solve_decision. Defined.

Definition is_digit (c : ascii) : bool :=
  (Ascii.nat_of_ascii "0" <=? Ascii.nat_of_ascii c) && (Ascii.nat_of_ascii c <=? Ascii.nat_of_ascii "9").

Fixpoint all_digits (s : string) : bool :=
  match s with
  | EmptyString => true
  | String c s' => is_digit c && all_digits s'
  end.

(** [_negative_number_matcher]: [^-\d+$|^-\d*\.\d+$]. *)
Definition neg_number (s : string) : bool :=
  match s with
  | String "-" r =>
      (negb (String.eqb r "") && all_digits r) ||
      match take_until "." r with
      | Some (i, f) => all_digits i && negb (String.eqb f "") && all_digits f
      | None => false
      end
  | _ => false
  end.

(** The registered action of an option string. *)
Definition lookup_option (o : string) : option dest :=
  snd <$> head (filter (fun od => od.1 = o) option_strings).

(** [_get_option_tuples]: a token starting with [--] matches every
    option string it is a prefix of (the part before [=] if any); a
    token starting with one [-] matches the option named by its first
    two characters, the rest of the token being its explicit value. *)
Definition option_tuples (s : string) : list (string * dest * option string) :=
  match s with
  | String "-" (String "-" _) =>
      let '(p, e) := match take_until "=" s with
                     | Some (p, e) => (p, Some e)
                     | None => (s, None)
                     end in
      (fun od => (od.1, od.2, e)) <$> filter (fun od => String.prefix p od.1 = true) option_strings
  | String "-" (String c rest) =>
      concat ((fun od =>
                 if String.eqb od.1 (String "-" (String c EmptyString)) then [(od.1, od.2, Some rest)]
                 else if String.prefix s od.1 then [(od.1, od.2, None)] else []) <$> option_strings)
  | _ => []
  end.

(** What [_parse_optional] makes of a token with no exact match. *)
Definition classify_tuples (s : string) : usage_error + tok :=
  match option_tuples s with
  | [] => if neg_number s || str_has " " s then inr (TArg s) else inr (TUnknown s)
  | [(o, d, e)] => inr (TOpt o d e)
  | ms => inl (Ambiguous s ((fun m => m.1.1) <$> ms))
  end.

(** [_parse_optional]: not starting with [-] or a lone [-] is an
    argument; an exact option string; [name=value] with an exact name;
    then the tuples above. *)
Definition parse_optional (s : string) : usage_error + tok :=
  match s with
  | String "-" r =>
      match lookup_option s with
      | Some d => inr (TOpt s d None)
      | None =>
          if String.eqb r "" then inr (TArg s) else
          match take_until "=" s with
          | Some (p, e) =>
              match lookup_option p with
              | Some d => inr (TOpt p d (Some e))
              | None => classify_tuples s
              end
          | None => classify_tuples s
          end
      end
  | _ => inr (TArg s)
  end.

(** The first pass of [_parse_known_args]: every token is classified
    before any is consumed, and after the first [--] every token is an
    argument. *)
Fixpoint classify (l : list string) : usage_error + list tok :=
  match l with
  | [] => inr []
  | s :: l' =>
      if String.eqb s "--" then inr (TSep :: (TArg <$> l'))
      else t ← parse_optional s; ts ← classify l'; inr (t :: ts)
  end.

(** ** Consuming the tokens *)

Inductive cli_result := Parsed (a : args) | HelpShown | UsageError (e : usage_error).

(** An option string with a single leading dash. *)
Definition short_option (o : string) : bool :=
  match o with
  | String "-" (String c _) => negb (Ascii.eqb c "-")
  | _ => false
  end.

(** [-hh...]: the explicit value of [-h] read as more single-letter
    options ([consume_optional]); the letters must all be [h], and the
    rest from the first other letter is reported as ignored. *)
Fixpoint help_cluster (e : string) : option string :=
  match e with
  | String "h" EmptyString => None
  | String "h" e' => help_cluster e'
  | _ => Some e
  end.

(** After the last token: the missing positionals are reported first,
    then the tokens nothing consumed. *)
Definition finish (pos extras : list string) (a : args) : cli_result :=
  if length pos <? 3 then UsageError (Required (drop (length pos) positional_names))
  else match extras with
       | [] => Parsed (set_positionals pos a)
       | _ => UsageError (Unrecognized extras)
       end.

(** The loop of [_parse_known_args] over the classified tokens.  An
    argument fills the next positional or is left over; the separator is
    dropped when the positional group before or after it takes it (the
    pattern [-*A-*] of [consume_positionals]) and is left over otherwise;
    an unknown option is left over; [-h] prints the help and exits; an
    option takes its [=value] or the next token, which must be an
    argument.  [prev] tells that the previous token filled a positional. *)
Fixpoint consume (ts : list tok) (prev : bool) (pos extras : list string) (a : args)
  : cli_result :=
  match ts with
  | [] => finish pos extras a
  | TArg s :: ts' =>
      if length pos <? 3 then consume ts' true (pos ++ [s]) extras a
      else consume ts' false pos (extras ++ [s]) a
  | TSep :: ts' =>
      if prev || (negb (bool_decide (ts' = [])) && (length pos <? 3))
      then consume ts' false pos extras a
      else consume ts' false pos (extras ++ ["--"]) a
  | TUnknown s :: ts' => consume ts' false pos (extras ++ [s]) a
  | TOpt o DHelp None :: _ => HelpShown
  | TOpt o DHelp (Some e) :: _ =>
      if short_option o then
        match help_cluster e with
        | None => HelpShown
        | Some r => UsageError (IgnoredExplicit r)
        end
      else UsageError (IgnoredExplicit e)
  | TOpt o d (Some v) :: ts' => consume ts' false pos extras (set_dest d v a)
  | TOpt o d None :: TArg v :: ts' => consume ts' false pos extras (set_dest d v a)
  | TOpt o d None :: _ => UsageError (ExpectedOne d)
  end.

(** [parser.parse_args()] on [sys.argv[1:]]. *)
Definition parse_args (argv : list string) : cli_result :=
  match classify argv with
  | inl e => UsageError e
  | inr ts => consume ts false [] [] (defaults "" "" "")
  end.

(** [cliArguments()]: the namespace, or the exit of [parse_args]: the
    help action writes the help text to standard output ([print_help])
    and exits with 0; a usage error writes the usage and the message to
    standard error, which this model does not keep, and exits with 2.
    [help] is the text [format_help()] gives, which depends on the
    width of the terminal. *)
Definition cliArguments {S} `{Stdout S} (help : string) (argv : list string) : PyM S args :=
  match parse_args argv with
  | Parsed a => ret a
  | HelpShown => bind (print help) (fun _ => exit 0)
  | UsageError _ => exit 2
  end.

(** ** Writing a namespace back as a command line *)

(** [f"{o}={v}"]. *)
Definition opt_eq (o v : string) : string := o +:+ String "=" v.

(** Every option of a namespace in the [--name=value] form, an option
    that is [None] left out. *)
Definition opt_argv (a : args) : list string :=
  (match box_id a with Some v => [opt_eq "--box-id" v] | None => [] end) ++
  (match sensor_id a with Some v => [opt_eq "--sensor-id" v] | None => [] end) ++
  [opt_eq "--bucket" (bucket a); opt_eq "--input-zone" (input_zone a);
   opt_eq "--output-zone" (output_zone a); opt_eq "--creds" (creds a)].

(** The options, then [--] and the three positionals. *)
Definition to_argv (a : args) : list string :=
  opt_argv a ++ "--" :: [start_time a; end_time a; output_file a].

(** A token that [_parse_optional] takes for an argument whatever the
    parser: it does not start with [-]. *)
Definition plain (s : string) : bool :=
  match s with String "-" _ => false | _ => true end.

(** Each prefix of at least three characters of a long option string
    that is a prefix of no other option string selects the option: the
    finite check behind [parse_optional_prefix]. *)
Definition prefix_ok (o : string) (d : dest) (n : nat) : bool :=
  let p := substring 0 n o in
  negb (forallb (fun od => negb (String.prefix p od.1) || String.eqb od.1 o) option_strings)
  || bool_decide (parse_optional p = inr (TOpt o d None)).

Definition prefixes_ok : bool :=
  forallb (fun od => forallb (prefix_ok od.1 od.2) (seq 3 (String.length od.1 - 2))) option_strings.

#[global] Arguments opt_eq : simpl never.

(** * Lemmas *)

Lemma option_string_shape o d :
  (o, d) ∈ option_strings -> (exists o', o = String "-" o') /\ str_has "=" o = false.
Proof.
  rewrite list_elem_of_In. simpl.
  intros H; repeat destruct H as [H|H]; try (injection H as <- <-; split; [eexists|]; reflexivity).
  done.
Qed.

Lemma lookup_option_Some o d : lookup_option o = Some d -> (o, d) ∈ option_strings.
Proof.
  unfold lookup_option. destruct (filter _ _) as [|[o' d'] l] eqn:E; [done|].
  intros [= ->]. assert (Hin : (o', d) ∈ filter (fun od => od.1 = o) option_strings)
    by (rewrite E; left).
  apply list_elem_of_filter in Hin as [Ho Hin]. simpl in Ho. by subst.
Qed.

Lemma lookup_option_no_eq s d : lookup_option s = Some d -> str_has "=" s = false.
Proof. intros H. by apply lookup_option_Some, option_string_shape in H as [_ ?]. Qed.

Lemma str_has_opt_eq o v : str_has "=" (opt_eq o v) = true.
Proof. unfold opt_eq. rewrite str_has_app. simpl. by rewrite orb_true_r. Qed.

(** A [name=value] token of a registered option is that option with its
    value, whatever the value. *)
Lemma parse_optional_explicit o d v :
  lookup_option o = Some d -> parse_optional (opt_eq o v) = inr (TOpt o d (Some v)).
Proof.
  intros Ho. pose proof (lookup_option_Some _ _ Ho) as ([o' ->] & Hno)%option_string_shape.
  assert (Hl : lookup_option (opt_eq (String "-" o') v) = None).
  { destruct (lookup_option (opt_eq (String "-" o') v)) as [d'|] eqn:E; [|done].
    apply lookup_option_no_eq in E. pose proof (str_has_opt_eq (String "-" o') v). congruence. }
  change (opt_eq (String "-" o') v) with (String "-" (o' +:+ String "=" v)) in Hl |- *.
  cbn [parse_optional]. rewrite Hl.
  replace (String.eqb (o' +:+ String "=" v) "") with false by (by destruct o').
  change (String "-" (o' +:+ String "=" v)) with (String "-" o' +:+ String "=" v).
  rewrite take_until_app by done. by rewrite Ho.
Qed.
Lemma prefix_length p o : String.prefix p o = true -> String.length p <= String.length o.
Proof.
  revert p. induction o as [|b o IH]; intros [|a p]; simpl; try (done || lia).
  destruct (Ascii.ascii_dec a b); [|done]. intros H. apply IH in H. lia.
Qed.

Lemma parse_optional_not_sep s t : parse_optional s = inr t -> t <> TSep.
Proof. unfold parse_optional, classify_tuples. repeat case_match; intros [= <-]; done. Qed.

Lemma parse_optional_plain s : plain s = true -> parse_optional s = inr (TArg s).
Proof. destruct s as [|[[] [] [] [] [] [] [] []] r]; done. Qed.

Lemma plain_not_sep s : plain s = true -> String.eqb s "--" = false.
Proof. destruct s as [|[[] [] [] [] [] [] [] []] r]; done. Qed.

Lemma classify_explicit_cons o d v l :
  lookup_option o = Some d ->
  classify (opt_eq o v :: l) = (ts ← classify l; inr (TOpt o d (Some v) :: ts)).
Proof.
  intros Ho. cbn [classify]. rewrite (parse_optional_explicit o d v Ho).
  replace (String.eqb (opt_eq o v) "--") with false; [done|].
  symmetry. apply String.eqb_neq. intros E. pose proof (str_has_opt_eq o v). by rewrite E in *.
Qed.

Lemma classify_app l1 l2 :
  "--" ∉ l1 -> classify (l1 ++ l2) = (ts1 ← classify l1; ts2 ← classify l2; inr (ts1 ++ ts2)).
Proof.
  induction l1 as [|s l1 IH]; intros Hs; simpl; [by destruct (classify l2)|].
  apply not_elem_of_cons in Hs as [Hs Hl]. rewrite (proj2 (String.eqb_neq s "--")) by congruence.
  destruct (parse_optional s); [done|]. simpl. rewrite IH by done.
  destruct (classify l1); [done|]. simpl. by destruct (classify l2).
Qed.

Lemma classify_no_sep l ts : "--" ∉ l -> classify l = inr ts -> TSep ∉ ts.
Proof.
  revert ts. induction l as [|s l IH]; intros ts Hs; simpl; [intros [= <-]; set_solver|].
  apply not_elem_of_cons in Hs as [Hs Hl]. rewrite (proj2 (String.eqb_neq s "--")) by congruence.
  destruct (parse_optional s) as [|t] eqn:Ht; [done|]. simpl.
  destruct (classify l) as [|ts'] eqn:E; [done|]. intros [= <-].
  apply parse_optional_not_sep in Ht. apply not_elem_of_cons. split; [done|]. by apply IH.
Qed.

Lemma consume_explicit o d v ts p pos ex a :
  d <> DHelp -> consume (TOpt o d (Some v) :: ts) p pos ex a = consume ts false pos ex (set_dest d v a).
Proof. by destruct d. Qed.

Lemma set_positionals_set_dest pos d v a :
  set_positionals pos (set_dest d v a) = set_dest d v (set_positionals pos a).
Proof. destruct pos as [|? [|? [|? [|]]]]; destruct d; reflexivity. Qed.

Lemma finish_set_dest pos ex a r d v :
  finish pos ex a = Parsed r -> finish pos ex (set_dest d v a) = Parsed (set_dest d v r).
Proof.
  unfold finish. destruct (_ <? 3); [done|]. destruct ex; [|done].
  intros [= <-]. by rewrite set_positionals_set_dest.
Qed.

(** [setattr] of an option sets that option and nothing else. *)
Lemma get_set_dest d v a :
  d <> DHelp ->
  get_dest d (set_dest d v a) = Some v /\
  (forall d', d' <> d -> get_dest d' (set_dest d v a) = get_dest d' a) /\
  start_time (set_dest d v a) = start_time a /\ end_time (set_dest d v a) = end_time a /\
  output_file (set_dest d v a) = output_file a.
Proof. intros Hd. split_and!; [by destruct d| |by destruct d..]. intros d' Hd'. by destruct d, d'. Qed.

(** An option appended to tokens that parse, with no separator among
    them, is consumed last and overrides the namespace. *)
Lemma consume_snoc_explicit ts p pos ex a r o d v :
  d <> DHelp -> TSep ∉ ts -> consume ts p pos ex a = Parsed r ->
  consume (ts ++ [TOpt o d (Some v)]) p pos ex a = Parsed (set_dest d v r).
Proof.
  intros Hd. revert p pos ex a.
  induction ts as [ts IH] using (well_founded_induction (Wf_nat.well_founded_ltof _ (@length tok))).
  unfold Wf_nat.ltof in IH.
  intros p pos ex a Hs H.
  destruct ts as [|[s| |o' d' [e|]|s] ts]; cbn [app] in *.
  - rewrite consume_explicit by done. by apply finish_set_dest.
  - simpl in *. destruct (length pos <? 3); apply IH; simpl; auto with lia; set_solver.
  - set_solver.
  - destruct d'; simpl in *; try (repeat case_match; congruence);
      apply IH; simpl; auto with lia; set_solver.
  - destruct d'; simpl in *; try done; (destruct ts as [|[v'| | |] ts]; [done| |done..]);
      simpl in *; apply IH; simpl; auto with lia; set_solver.
  - simpl in *. apply IH; simpl; auto with lia; set_solver.
Qed.

(** ** What [cliArguments] promises *)

(** The command line written from any namespace (each option as
    [--name=value], then [--] and the three positionals) parses back to
    that namespace, whatever characters the values hold. *)
Lemma parse_args_to_argv a : parse_args (to_argv a) = Parsed a.
Proof.
  destruct a as [st et out [box|] [sen|] bkt iz oz cr];
    unfold parse_args, to_argv, opt_argv; cbn [box_id sensor_id bucket input_zone output_zone
      creds start_time end_time output_file app];
    erewrite !classify_explicit_cons by reflexivity; reflexivity.
Qed.

(** C33 (functional).  Three plain positionals and no option give the
    namespace of lines 18-26: the positionals in the order they were
    registered, no box or sensor filter, bucket ["parosbox"], both zones
    ["Etc/UTC"], credentials in ["influx-creds.pickle"]. *)
Theorem parse_args_defaults st et out :
  plain st = true -> plain et = true -> plain out = true ->
  parse_args [st; et; out] = Parsed {|
    start_time := st; end_time := et; output_file := out;
    box_id := None; sensor_id := None; bucket := "parosbox";
    input_zone := "Etc/UTC"; output_zone := "Etc/UTC"; creds := "influx-creds.pickle" |}.
Proof.
  intros Hs He Ho. unfold parse_args. cbn [classify].
  rewrite !plain_not_sep, !parse_optional_plain by done. reflexivity.
Qed.

(** C34 (functional).  An option given again at the end of a command line
    that parses (with no [--] in it) replaces the earlier value: the
    option holds the new value, every other option and the positionals
    keep theirs. *)
Theorem parse_args_last_wins argv o d v a :
  lookup_option o = Some d -> d <> DHelp -> "--" ∉ argv -> parse_args argv = Parsed a ->
  exists a', parse_args (argv ++ [opt_eq o v]) = Parsed a' /\ get_dest d a' = Some v /\
    (forall d', d' <> d -> get_dest d' a' = get_dest d' a) /\
    start_time a' = start_time a /\ end_time a' = end_time a /\ output_file a' = output_file a.
Proof.
  intros Ho Hd Hs. unfold parse_args. rewrite classify_app by done.
  destruct (classify argv) as [e|ts] eqn:E; [done|]. intros H.
  rewrite (classify_explicit_cons o d v [] Ho). simpl.
  exists (set_dest d v a). split.
  - apply consume_snoc_explicit; [done| |done]. by eapply classify_no_sep.
  - apply get_set_dest, Hd.
Qed.

(** C35 (functional).  A prefix of at least three characters of an option
    string that is a prefix of no other option string selects that
    option ([allow_abbrev], on by default): [--buck] is [--bucket]. *)
Theorem parse_optional_prefix p o d :
  (o, d) ∈ option_strings -> String.prefix p o = true -> 3 <= String.length p ->
  (forall o' d', (o', d') ∈ option_strings -> String.prefix p o' = true -> o' = o) ->
  parse_optional p = inr (TOpt o d None).
Proof.
  intros Hod Hp Hn Hu. pose proof (prefix_length _ _ Hp) as Hl.
  assert (Hok : prefixes_ok = true) by reflexivity.
  unfold prefixes_ok in Hok. rewrite forallb_forall in Hok.
  specialize (Hok (o, d) (proj1 (list_elem_of_In _ _) Hod)). simpl in Hok.
  rewrite forallb_forall in Hok.
  specialize (Hok (String.length p)). unfold prefix_ok in Hok.
  apply prefix_correct in Hp. rewrite Hp in Hok.
  assert (Hin : In (String.length p) (seq 3 (String.length o - 2)))
    by (apply list_elem_of_In, elem_of_seq; lia).
  apply Hok, orb_true_iff in Hin as [Hf|Hd].
  - exfalso. apply negb_true_iff, not_true_iff_false in Hf. apply Hf, forallb_forall.
    intros [o' d'] Hin%list_elem_of_In. simpl.
    destruct (String.prefix p o') eqn:E; simpl; [|done]. apply String.eqb_eq. by eapply Hu.
  - by apply bool_decide_eq_true_1 in Hd.
Qed.

(** Every token is classified before any is consumed, so an ambiguous
    abbreviation ([--b]: [--box-id] or [--bucket]) is the error reported
    even when [-h] or a missing positional comes first. *)
Lemma parse_args_ambiguous l1 l2 ts :
  "--" ∉ l1 -> classify l1 = inr ts ->
  parse_args (l1 ++ "--b" :: l2) = UsageError (Ambiguous "--b" ["--box-id"; "--bucket"]).
Proof. intros Hs Hc. unfold parse_args. rewrite classify_app, Hc by done. reflexivity. Qed.

(** ** Witnesses *)

Example parse_args_defaults_witness :
  plain "2021-03-04" = true /\ plain "2021-03-05" = true /\ plain "out.csv" = true /\
  parse_args ["2021-03-04"; "2021-03-05"; "out.csv"] = Parsed {|
    start_time := "2021-03-04"; end_time := "2021-03-05"; output_file := "out.csv";
    box_id := None; sensor_id := None; bucket := "parosbox";
    input_zone := "Etc/UTC"; output_zone := "Etc/UTC"; creds := "influx-creds.pickle" |}.
Proof.
  split; [reflexivity|]. split; [reflexivity|]. split; [reflexivity|].
  apply parse_args_defaults; reflexivity.
Defined.

Example parse_args_last_wins_witness :
  lookup_option "--bucket" = Some DBucket /\ DBucket <> DHelp /\
  ("--" ∉ ["a"; "b"; "c"; "--bucket"; "x"]) /\
  parse_args ["a"; "b"; "c"; "--bucket"; "x"] = Parsed (set_dest DBucket "x" (defaults "a" "b" "c")) /\
  exists a', parse_args (["a"; "b"; "c"; "--bucket"; "x"] ++ [opt_eq "--bucket" "y"]) = Parsed a' /\
    get_dest DBucket a' = Some "y" /\
    (forall d', d' <> DBucket -> get_dest d' a' = get_dest d' (set_dest DBucket "x" (defaults "a" "b" "c"))) /\
    start_time a' = "a" /\ end_time a' = "b" /\ output_file a' = "c".
Proof.
  split; [reflexivity|]. split; [done|]. split; [by compute_done|]. split; [reflexivity|].
  apply parse_args_last_wins; [reflexivity|done|by compute_done|reflexivity].
Defined.

Example parse_optional_prefix_witness :
  ("--bucket", DBucket) ∈ option_strings /\ String.prefix "--buck" "--bucket" = true /\
  3 <= String.length "--buck" /\
  (forall o' d', (o', d') ∈ option_strings -> String.prefix "--buck" o' = true -> o' = "--bucket") /\
  parse_optional "--buck" = inr (TOpt "--bucket" DBucket None).
Proof.
  assert (Hu : forall o' d', (o', d') ∈ option_strings ->
                String.prefix "--buck" o' = true -> o' = "--bucket").
  { intros o' d' H%list_elem_of_In Hp. simpl in H.
    repeat destruct H as [H|H]; try (injection H as <- <-); done. }
  assert (Hin : ("--bucket", DBucket) ∈ option_strings) by (apply list_elem_of_In; simpl; tauto).
  split; [done|]. split; [reflexivity|]. split; [simpl; lia|]. split; [done|].
  apply parse_optional_prefix; [done|reflexivity|simpl; lia|done].
Defined.

End Cli.
