(* ===== verification/Frame.v ===== *)
(** * The pandas data frames the script handles

    [query_data_frame] hands the script pandas DataFrames; the script
    reads a cell with [df[c].iloc[0]], removes columns with [drop],
    renames one with [rename], replaces one with [df[c] = ...], and
    converts a timestamp column with the [.dt] accessor.  This file
    models a frame as its ordered list of named columns, the operations
    the script calls with the exceptions pandas raises, and the
    well-formedness invariant (distinct column names, one row count)
    that every operation keeps. *)

From Stdlib Require Import ZArith Lia Ascii String QArith.
From stdpp Require Import base list strings sets.
From S2P Require Import Prelude Binary64.

(** The time-zone database, as pandas and pytz see it: for a zone name,
    the UTC offset in seconds at each UTC instant (in seconds since the
    epoch); [None] for an unknown name. *)
Definition TzDb := string -> option (Z -> Z).

Module Frame.
Import Binary64.

(** ** Cells and frames *)

(** A cell: a string (tags, [result]), an integer ([table]), a float
    (measured fields and the converted time: a double, held as its exact
    rational value), a timestamp ([_time]) or a
    missing value.  A timestamp is nanoseconds since 1970-01-01: an
    instant when it carries a zone, a wall-clock reading when naive. *)
Inductive cell :=
  | VStr (s : string)
  | VInt (z : Z)
  | VFloat (q : Q)
  | VTime (ns : Z) (tz : option string)
  | VNull.

#[export] Instance Q_eq_dec : EqDecision Q.
Proof. intros [a b] [c d]. solve_decision. Defined.
#[export] Instance cell_eq_dec : EqDecision cell.
Proof. solve_decision. Defined.

(** A frame is its list of (column name, column values), in column
    order. *)
Abbreviation frame := (list (string * list cell)).

Definition columns (df : frame) : list string := fst <$> df.

(** [c in df]. *)
Definition has_col (df : frame) (c : string) : bool := bool_decide (c ∈ columns df).

(** [df[c]]: the column, or [KeyError]. *)
Fixpoint col_get (df : frame) (c : string) : exc + list cell :=
  match df with
  | [] => inl (KeyError [c])
  | (n, v) :: df' => if String.eqb n c then inr v else col_get df' c
  end.

(** [s.iloc[0]]. *)
Definition iloc0 (s : list cell) : exc + cell :=
  match s with
  | [] => inl (IndexError "single positional indexer is out-of-bounds")
  | x :: _ => inr x
  end.

(** [df.drop(columns=labels)]: [KeyError] naming every label that is not
    a column, otherwise the frame without those columns. *)
Definition drop (df : frame) (labels : list string) : exc + frame :=
  match filter (fun l => l ∉ columns df) labels with
  | [] => inr (filter (fun cv => cv.1 ∉ labels) df)
  | missing => inl (KeyError missing)
  end.

(** [df.rename(columns={old: new})]: a label that is not a column is
    ignored. *)
Definition rename (df : frame) (old new : string) : frame :=
  (fun cv => (if String.eqb cv.1 old then new else cv.1, cv.2)) <$> df.

(** [df[c] = v]: replaces the column in place, or appends it. *)
Definition set_col (df : frame) (c : string) (v : list cell) : frame :=
  if has_col df c
  then (fun cv => if String.eqb cv.1 c then (c, v) else cv) <$> df
  else df ++ [(c, v)].

(** ** The [.dt] accessor and timestamp arithmetic *)

(** A column the [.dt] accessor accepts: timestamps, all naive or all in
    one zone. *)
Fixpoint dt_times (tz : option string) (s : list cell) : option (list Z) :=
  match s with
  | [] => Some []
  | VTime n tz' :: s' =>
      if decide (tz' = tz) then ns ← dt_times tz s'; Some (n :: ns) else None
  | _ :: _ => None
  end.

Definition dt_values (s : list cell) : exc + (option string * list Z) :=
  let err := inl (AttributeError "Can only use .dt accessor with datetimelike values") in
  match s with
  | VTime _ tz :: _ =>
      match dt_times tz s with Some ns => inr (tz, ns) | None => err end
  | _ => err
  end.

(** The wall-clock reading of instant [n] in a zone with offsets [off]. *)
Definition local_ns (off : Z -> Z) (n : Z) : Z := (n + off (n / ns_per_s) * ns_per_s)%Z.

(** [s.dt.tz_convert(tz)]: the zone name is resolved first, then naive
    columns are refused; the instants do not change. *)
Definition tz_convert (db : TzDb) (tz : string) (s : list cell) : exc + list cell :=
  '(otz, ns) ← dt_values s;
  match db tz, otz return exc + list cell with
  | None, _ => inl (UnknownTimeZoneError tz)
  | Some _, None =>
      inl (TypeError "Cannot convert tz-naive timestamps, use tz_localize to localize")
  | Some _, Some _ => inr ((fun n => VTime n (Some tz)) <$> ns)
  end.

(** [s.dt.tz_localize(None)]: an aware column becomes the naive
    wall-clock readings of its zone; a naive one is unchanged. *)
Definition tz_localize_none (db : TzDb) (s : list cell) : exc + list cell :=
  '(otz, ns) ← dt_values s;
  match otz return exc + list cell with
  | None => inr s
  | Some tz =>
      match db tz return exc + list cell with
      | None => inl (UnknownTimeZoneError tz)
      | Some off => inr ((fun n => VTime (local_ns off n) None) <$> ns)
      end
  end.

(** [(s - pd.Timestamp("1970-01-01")) / pd.Timedelta('1s')]: naive
    timestamps become float seconds since the epoch, each the double
    numpy computes ([Binary64.td_seconds]). *)
Definition unix_seconds (s : list cell) : exc + list cell :=
  '(otz, ns) ← dt_values s;
  match otz return exc + list cell with
  | None => inr ((fun n => VFloat (td_seconds n)) <$> ns)
  | Some _ => inl (TypeError "Cannot subtract tz-naive and tz-aware datetime-like objects")
  end.

(** ** Well-formedness: distinct column names, [n] rows in every
    column *)
Definition wf (n : nat) (df : frame) : Prop :=
  NoDup (columns df) /\ Forall (fun cv => length cv.2 = n) df.

#[export] Instance wf_dec n df : Decision (wf n df).
Proof. unfold wf. apply _. Defined.

(** ** Lemmas *)

Lemma col_get_elem df c v : col_get df c = inr v -> (c, v) ∈ df.
Proof.
  induction df as [|[n w] df IH]; simpl; [done|].
  destruct (String.eqb_spec n c) as [->|]; [intros [= ->]; set_solver|].
  intros ?%IH. set_solver.
Qed.

Lemma col_get_missing df c : c ∉ columns df -> col_get df c = inl (KeyError [c]).
Proof.
  induction df as [|[n w] df IH]; simpl; [done|]. intros Hc.
  destruct (String.eqb_spec n c) as [->|]; [set_solver|]. apply IH. set_solver.
Qed.

Lemma col_get_present df c : c ∈ columns df -> exists v, col_get df c = inr v.
Proof.
  induction df as [|[n w] df IH]; simpl; [set_solver|]. intros Hc.
  destruct (String.eqb_spec n c) as [->|]; [eauto|]. apply IH. set_solver.
Qed.

Lemma col_get_length n df c v : wf n df -> col_get df c = inr v -> length v = n.
Proof.
  intros [_ Hl] ?%col_get_elem. by eapply (Forall_forall _ df) in Hl; [|done].
Qed.

Lemma columns_filter (labels : list string) (df : frame) :
  columns (filter (fun cv => cv.1 ∉ labels) df) = filter (fun c => c ∉ labels) (columns df).
Proof.
  induction df as [|[n w] df IH]; [done|]. unfold columns in *.
  rewrite filter_cons, fmap_cons, filter_cons. simpl.
  case_decide; [by rewrite fmap_cons, IH|done].
Qed.

(** [drop] succeeds exactly when every label is a column. *)
Lemma drop_inr df labels df' :
  drop df labels = inr df' <->
  Forall (fun l => l ∈ columns df) labels /\ df' = filter (fun cv => cv.1 ∉ labels) df.
Proof.
  unfold drop. destruct (filter (fun l => l ∉ columns df) labels) as [|m ms] eqn:E.
  - split; [intros [= <-]; split; [|done]|intros [_ ->]; done].
    apply Forall_forall. intros l Hl. destruct (decide (l ∈ columns df)); [done|].
    assert (l ∈ filter (fun l => l ∉ columns df) labels) by (apply list_elem_of_filter; done).
    rewrite E in H. set_solver.
  - split; [done|]. intros [Hall _].
    assert (m ∈ filter (fun l => l ∉ columns df) labels) as Hm by (rewrite E; set_solver).
    apply list_elem_of_filter in Hm as [Hm Hin]. by eapply Forall_forall in Hall; [|done].
Qed.

Lemma drop_present df labels :
  Forall (fun l => l ∈ columns df) labels ->
  drop df labels = inr (filter (fun cv => cv.1 ∉ labels) df).
Proof. intros H. by apply drop_inr. Qed.

Lemma drop_columns df labels df' :
  drop df labels = inr df' -> columns df' = filter (fun c => c ∉ labels) (columns df).
Proof. intros [_ ->]%drop_inr. apply columns_filter. Qed.

Lemma wf_filter n (labels : list string) df :
  wf n df -> wf n (filter (fun cv => cv.1 ∉ labels) df).
Proof.
  intros [Hnd Hl]. split.
  - rewrite columns_filter. by apply NoDup_filter.
  - apply Forall_forall. intros x [_ Hx]%list_elem_of_filter.
    by eapply Forall_forall in Hl.
Qed.

Lemma drop_wf n df labels df' : wf n df -> drop df labels = inr df' -> wf n df'.
Proof. intros Hwf [_ ->]%drop_inr. by apply wf_filter. Qed.

Lemma rename_columns df old new :
  columns (rename df old new) = (fun c => if String.eqb c old then new else c) <$> columns df.
Proof. unfold columns, rename. by rewrite <- !list_fmap_compose. Qed.

(** Renaming to a fresh name keeps the names distinct. *)
Lemma rename_wf n df old new :
  wf n df -> new ∉ columns df -> wf n (rename df old new).
Proof.
  intros [Hnd Hl] Hnew. split.
  - rewrite rename_columns. apply NoDup_fmap_2_strong; [|done].
    intros x y Hx Hy.
    destruct (String.eqb_spec x old), (String.eqb_spec y old); congruence.
  - apply Forall_fmap. eapply Forall_impl; [done|]. by intros [].
Qed.

Lemma set_col_columns df c v :
  has_col df c = true -> columns (set_col df c v) = columns df.
Proof.
  intros Hc. unfold set_col. rewrite Hc. unfold columns.
  rewrite <- list_fmap_compose. apply list_fmap_ext. intros _ [n w] _. simpl.
  by destruct (String.eqb_spec n c) as [->|].
Qed.

(** Replacing a column by one of the same height keeps the frame
    well formed. *)
Lemma set_col_wf n df c v :
  wf n df -> has_col df c = true -> length v = n -> wf n (set_col df c v).
Proof.
  intros [Hnd Hl] Hc Hv. split; [by rewrite set_col_columns|].
  unfold set_col. rewrite Hc. apply Forall_fmap. eapply Forall_impl; [done|].
  intros [m w] Hw. simpl. by destruct (String.eqb_spec m c).
Qed.

Lemma dt_times_length tz s ns : dt_times tz s = Some ns -> length ns = length s.
Proof.
  revert ns. induction s as [|x s IH]; simpl; intros ns; [by intros [= <-]|].
  destruct x; try done. case_decide; [|done].
  destruct (dt_times tz s) eqn:E; [|done]. intros [= <-]. simpl. by rewrite (IH l).
Qed.

Lemma dt_values_length s tz ns : dt_values s = inr (tz, ns) -> length ns = length s.
Proof.
  unfold dt_values. destruct s as [|[] s]; try done.
  destruct (dt_times _ _) eqn:E; [|done]. intros [= <- <-]. by eapply dt_times_length.
Qed.

(** The [.dt] conversions keep the height of the column. *)
Lemma dt_op_length (f : Z -> cell) s tz ns :
  dt_values s = inr (tz, ns) -> length (f <$> ns) = length s.
Proof. intros ?%dt_values_length. by rewrite length_fmap. Qed.

Lemma has_col_spec df c : has_col df c = true <-> c ∈ columns df.
Proof. apply bool_decide_eq_true. Qed.

Lemma has_col_filter (df : frame) (labels : list string) (c : string) :
  has_col (filter (fun cv => cv.1 ∉ labels) df) c = has_col df c && bool_decide (c ∉ labels).
Proof.
  unfold has_col. rewrite columns_filter, <- bool_decide_and.
  apply bool_decide_ext. rewrite list_elem_of_filter. tauto.
Qed.

(** Dropping a label that is not a column changes nothing. *)
Lemma filter_absent df c :
  has_col df c = false -> filter (fun cv => cv.1 ∉ [c]) df = df.
Proof.
  intros Hc. apply bool_decide_eq_false in Hc.
  induction df as [|[n w] df IH]; [done|]. rewrite filter_cons.
  unfold columns in Hc. rewrite fmap_cons in Hc.
  rewrite decide_True by set_solver. f_equal. apply IH. set_solver.
Qed.

Lemma col_get_filter (df : frame) (labels : list string) (c : string) :
  c ∉ labels -> col_get (filter (fun cv => cv.1 ∉ labels) df) c = col_get df c.
Proof.
  intros Hc. induction df as [|[n w] df IH]; [done|]. rewrite filter_cons. simpl.
  destruct (String.eqb_spec n c) as [->|Hne]; case_decide; simpl;
    rewrite ?String.eqb_refl; try done.
  by destruct (String.eqb_spec n c).
Qed.

(** Renaming a column to a fresh name moves [df[old]] to [df[new]]. *)
Lemma col_get_rename df old new :
  old ∈ columns df -> new ∉ columns df -> col_get (rename df old new) new = col_get df old.
Proof.
  induction df as [|[n w] df IH]; intros Hold Hnew; [set_solver|].
  unfold columns in Hold, Hnew. rewrite fmap_cons in Hold, Hnew. simpl.
  destruct (String.eqb_spec n old) as [->|]; simpl; [by rewrite String.eqb_refl|].
  destruct (String.eqb_spec n new); [set_solver|]. apply IH; set_solver.
Qed.

Lemma col_get_set_col df c v : has_col df c = true -> col_get (set_col df c v) c = inr v.
Proof.
  intros Hc. apply has_col_spec in Hc. unfold set_col.
  rewrite (proj2 (has_col_spec df c) Hc).
  induction df as [|[n w] df IH]; [set_solver|].
  unfold columns in Hc. rewrite fmap_cons in Hc. simpl.
  destruct (String.eqb_spec n c) as [->|]; simpl; [by rewrite String.eqb_refl|].
  destruct (String.eqb_spec n c); [done|]. apply IH. set_solver.
Qed.

Lemma has_col_set_col df c v : has_col (set_col df c v) c = true.
Proof.
  unfold set_col. destruct (has_col df c) eqn:E.
  - apply has_col_spec. unfold columns. rewrite <- list_fmap_compose.
    apply has_col_spec in E. apply list_elem_of_fmap in E as [[n w] [-> Hin]].
    apply list_elem_of_fmap. exists (n, w). split; [|done]. simpl.
    by rewrite String.eqb_refl.
  - apply has_col_spec. unfold columns. rewrite fmap_app. set_solver.
Qed.

Lemma set_col_set_col df c v w :
  has_col df c = true -> set_col (set_col df c v) c w = set_col df c w.
Proof.
  intros Hc. unfold set_col at 1. rewrite (proj2 (has_col_spec _ c)) by
    (rewrite set_col_columns by done; by apply has_col_spec).
  unfold set_col. rewrite Hc, <- list_fmap_compose. apply list_fmap_ext.
  intros _ [n u] _. simpl. destruct (String.eqb_spec n c) as [->|]; simpl;
    [by rewrite String.eqb_refl|by destruct (String.eqb_spec n c)].
Qed.

(** A column of a well-formed frame with rows has a first cell. *)
Lemma col_get_first n df c :
  wf n df -> 1 <= n -> c ∈ columns df -> exists x xs, col_get df c = inr (x :: xs).
Proof.
  intros Hwf Hn [v Hv]%col_get_present. pose proof (col_get_length n df c v Hwf Hv).
  destruct v as [|x xs]; [simpl in *; lia|]. eauto.
Qed.

Lemma dt_times_const tz ns : dt_times tz ((fun n => VTime n tz) <$> ns) = Some ns.
Proof.
  induction ns as [|m ns IH]; [done|]. rewrite fmap_cons. cbn [dt_times].
  rewrite decide_True by done. by rewrite IH.
Qed.

Lemma dt_values_const tz ns :
  ns <> [] -> dt_values ((fun n => VTime n tz) <$> ns) = inr (tz, ns).
Proof.
  destruct ns as [|m ns]; [done|]. intros _.
  pose proof (dt_times_const tz (m :: ns)) as E.
  unfold dt_values. rewrite fmap_cons in *. cbv beta iota. by rewrite E.
Qed.

Lemma tz_convert_aware db tz z off ns :
  ns <> [] -> db tz = Some off ->
  tz_convert db tz ((fun n => VTime n (Some z)) <$> ns) = inr ((fun n => VTime n (Some tz)) <$> ns).
Proof. intros Hns Hdb. unfold tz_convert. rewrite dt_values_const by done. simpl. by rewrite Hdb. Qed.

Lemma tz_localize_none_aware db tz off ns :
  ns <> [] -> db tz = Some off ->
  tz_localize_none db ((fun n => VTime n (Some tz)) <$> ns)
  = inr ((fun n => VTime (local_ns off n) None) <$> ns).
Proof. intros Hns Hdb. unfold tz_localize_none. rewrite dt_values_const by done. simpl. by rewrite Hdb. Qed.

Lemma unix_seconds_naive (f : Z -> Z) (ns : list Z) :
  ns <> [] ->
  unix_seconds ((fun n => VTime (f n) None) <$> ns)
  = inr ((fun n => VFloat (td_seconds (f n))) <$> ns).
Proof.
  intros Hns. unfold unix_seconds.
  replace ((fun n => VTime (f n) None) <$> ns) with ((fun m => VTime m None) <$> (f <$> ns))
    by (by rewrite <- list_fmap_compose).
  rewrite dt_values_const by (by destruct ns). simpl. by rewrite <- list_fmap_compose.
Qed.

End Frame.
