(* ===== verification/Normalize.v ===== *)
(** * Per-sensor normalisation: [processInfluxDF] (get-paros-data.py, 53-76)

    One result table of one (box, sensor) pair becomes an identifier
    ["{box}_{sensor}"] and a table of measured fields with a [time]
    column in float seconds of the output zone's wall clock (doubles, as
    numpy rounds them).  This file
    models the function step by step over the frames of [Frame], in the
    exception-and-output monad of the prelude, and proves what it returns
    on a raw table of the database, how it fails, and what it prints. *)

From Stdlib Require Import ZArith Lia Ascii String QArith.
From stdpp Require Import base list strings sets.
From S2P Require Import Prelude Binary64 Frame.

Module Normalize.
Import Binary64 Frame.

(** [f"{x}"] of a tag cell.  InfluxDB tags are strings; [str] of the
    other cell kinds never occurs in a tag column and is not modelled. *)
Definition cell_str (c : cell) : string :=
  match c with
  | VStr s => s
  | VInt z => z_to_dec z
  | _ => ""
  end.

(** [pd.Series(l).unique()]: the distinct values in order of first
    appearance. *)
Definition py_unique {A} `{EqDecision A} (l : list A) : list A :=
  fold_left (fun acc x => if decide (x ∈ acc) then acc else acc ++ [x]) l [].

Definition err_warning : string :=
  "WARNING: Some anemometer values were recorded with an error code".

Definition dropped_labels : list string := ["result"; "table"; "_measurement"; "id"].

Section Process.
Context {S : Type} `{Stdout S}.
Variable db : TzDb.
Local Open Scope py_scope.

(** Lines 53-76. *)
Definition processInfluxDF (df : frame) (output_tz : string) : PyM S (string * frame) :=
  cur_box <- lift_sum (col_get df "_measurement" ≫= iloc0) ;;
  cur_id <- lift_sum (col_get df "id" ≫= iloc0) ;;
  let id_str := cell_str cur_box +:+ "_" +:+ cell_str cur_id in
  out_df <- lift_sum (drop df dropped_labels) ;;
  out_df <- (if has_col out_df "baro_time"
             then lift_sum (drop out_df ["baro_time"]) else ret out_df) ;;
  out_df <- (if has_col out_df "err"
             then (let err_list := py_unique (list_ascii_of_string "err") in
                   (if Nat.ltb 1 (length err_list) then print err_warning else ret tt) ;;
                   lift_sum (drop out_df ["err"]))
             else ret out_df) ;;
  let out_df := rename out_df "_time" "time" in
  t <- lift_sum (col_get out_df "time" ≫= tz_convert db output_tz) ;;
  let out_df := set_col out_df "time" t in
  t <- lift_sum (col_get out_df "time" ≫= tz_localize_none db) ;;
  let out_df := set_col out_df "time" t in
  t <- lift_sum (col_get out_df "time" ≫= unix_seconds) ;;
  let out_df := set_col out_df "time" t in
  ret (id_str, out_df).

End Process.

(** ** The result on a raw table *)

(** The labels a run removes, when present. *)
Definition norm_labels : list string := dropped_labels ++ ["baro_time"; "err"].

Definition first_cell (df : frame) (c : string) : cell :=
  match col_get df c with inr (x :: _) => x | _ => VNull end.

(** The identifier built from the first row. *)
Definition id_of (df : frame) : string :=
  cell_str (first_cell df "_measurement") +:+ "_" +:+ cell_str (first_cell df "id").

(** The float seconds of the output zone's wall clock, per instant. *)
Definition unix_col (off : Z -> Z) (ns : list Z) : list cell :=
  (fun n => VFloat (td_seconds (local_ns off n))) <$> ns.

Definition normalized (df : frame) (t : list cell) : frame :=
  set_col (rename (filter (fun cv => cv.1 ∉ norm_labels) df) "_time" "time") "time" t.

(** What the database client hands the function for one (box, sensor)
    group: a well-formed table with at least one row, the bookkeeping
    columns, no column already called [time], and its [_time] column
    in one zone [z0]. *)
Record raw_table (n : nat) (df : frame) (z0 : string) (ns : list Z) : Prop := {
  raw_wf : wf n df;
  raw_rows : 1 <= n;
  raw_labels : Forall (fun l => l ∈ columns df) dropped_labels;
  raw_time_fresh : "time" ∉ columns df;
  raw_times : col_get df "_time" = inr ((fun t => VTime t (Some z0)) <$> ns)
}.

(** ** Sample data for the witnesses: a zone database with three fixed
    zones, and a one-row table as the client returns it for box [box7],
    sensor [P1], sampled at 00:00:10 UTC on 1970-01-01, whose [err]
    column holds the single value 0. *)
Definition sample_db : TzDb :=
  fun z => if String.eqb z "UTC" then Some (fun _ => 0%Z)
           else if String.eqb z "Etc/UTC" then Some (fun _ => 0%Z)
           else if String.eqb z "Etc/GMT-2" then Some (fun _ => 7200%Z)
           else None.

Definition sample_table : frame :=
  [("result", [VStr "_result"]); ("table", [VInt 0]);
   ("_time", [VTime 10000000000 (Some "UTC")]);
   ("_measurement", [VStr "box7"]); ("id", [VStr "P1"]);
   ("pressure", [VFloat 1013]); ("err", [VInt 0])].

Section Run.
Context {S : Type} `{Stdout S}.
Variable db : TzDb.

Lemma drop_if_present_run {B} (d : frame) c (k : frame -> PyM S B) s :
  bind (if has_col d c then lift_sum (drop d [c]) else ret d) k s
  = k (filter (fun cv => cv.1 ∉ [c]) d) s.
Proof.
  destruct (has_col d c) eqn:E; [|by rewrite filter_absent].
  rewrite drop_present; [done|]. apply Forall_singleton. by apply has_col_spec.
Qed.

Local Open Scope py_scope.
Lemma err_stage_run {B} (d : frame) (k : frame -> PyM S B) s :
  bind (if has_col d "err"
        then ((if Nat.ltb 1 (length (py_unique (list_ascii_of_string "err")))
               then print err_warning else ret tt) ;;
              lift_sum (drop d ["err"]))
        else ret d) k s
  = k (filter (fun cv => cv.1 ∉ ["err"]) d) (if has_col d "err" then emit err_warning s else s).
Proof.
  destruct (has_col d "err") eqn:E; [|by rewrite filter_absent].
  cbn [py_unique list_ascii_of_string fold_left]. simpl (Nat.ltb _ _).
  autorewrite with pym. rewrite drop_present; [done|].
  apply Forall_singleton. by apply has_col_spec.
Qed.

Lemma filter_norm_labels (df : frame) :
  filter (fun cv => cv.1 ∉ ["err"])
    (filter (fun cv => cv.1 ∉ ["baro_time"]) (filter (fun cv => cv.1 ∉ dropped_labels) df))
  = filter (fun cv => cv.1 ∉ norm_labels) df.
Proof.
  rewrite !list_filter_filter. apply list_filter_iff. intros [c v]. simpl.
  unfold norm_labels. set_solver.
Qed.

Lemma has_col_norm (df : frame) c :
  has_col (filter (fun cv => cv.1 ∉ ["baro_time"]) (filter (fun cv => cv.1 ∉ dropped_labels) df)) c
  = has_col df c && bool_decide (c ∉ dropped_labels) && bool_decide (c ∉ ["baro_time"]).
Proof. by rewrite !has_col_filter. Qed.

Lemma normalized_has_time n df z0 ns :
  raw_table n df z0 ns ->
  has_col (rename (filter (fun cv => cv.1 ∉ norm_labels) df) "_time" "time") "time" = true.
Proof.
  intros [Hwf Hn Hlab Hfresh Htimes].
  apply has_col_spec. rewrite rename_columns, columns_filter. apply list_elem_of_fmap.
  exists "_time". split; [done|]. apply list_elem_of_filter. split; [unfold norm_labels; set_solver|].
  apply col_get_elem in Htimes. apply list_elem_of_fmap. by exists ("_time", ((λ t : Z, VTime t (Some z0)) <$> ns)).
Qed.

Lemma processInfluxDF_run n df z0 ns out_tz off s :
  raw_table n df z0 ns -> db out_tz = Some off ->
  processInfluxDF db df out_tz s =
  (if has_col df "err" then emit err_warning s else s,
   Ok (id_of df, normalized df (unix_col off ns))).
Proof.
  intros [Hwf Hn Hlab Hfresh Htimes] Hdb.
  assert (Hin : ∀ l, l ∈ dropped_labels → l ∈ columns df) by (by apply Forall_forall).
  destruct (col_get_first n df "_measurement" Hwf Hn) as (m & ms & Hm); [apply Hin; set_solver|].
  destruct (col_get_first n df "id" Hwf Hn) as (i & ids & Hi); [apply Hin; set_solver|].
  unfold processInfluxDF. rewrite Hm, Hi. cbn [mbind sum_bind iloc0].
  autorewrite with pym. rewrite drop_present by done. autorewrite with pym.
  rewrite drop_if_present_run, err_stage_run, has_col_norm, filter_norm_labels.
  replace (has_col df "err" && _ && _) with (has_col df "err") by
    (by rewrite !bool_decide_true by set_solver; destruct (has_col df "err")).
  set (d := filter (fun cv => cv.1 ∉ norm_labels) df).
  assert (Hcols : ∀ c, c ∈ columns d ↔ c ∈ columns df ∧ c ∉ norm_labels).
  { intros c. unfold d. rewrite columns_filter, list_elem_of_filter. tauto. }
  assert (Ht : "_time" ∈ columns df).
  { apply col_get_elem in Htimes. unfold columns. apply list_elem_of_fmap. eexists; split; [|done]; done. }
  assert (Hr : has_col (rename d "_time" "time") "time" = true).
  { apply has_col_spec. rewrite rename_columns. apply list_elem_of_fmap.
    exists "_time". split; [done|]. apply Hcols. split; [done|]. unfold norm_labels. set_solver. }
  assert (Hns : ns ≠ []).
  { pose proof (col_get_length n df "_time" _ Hwf Htimes) as E. rewrite length_fmap in E.
    destruct ns; simpl in *; [lia|done]. }
  rewrite col_get_rename by (rewrite Hcols; unfold norm_labels; set_solver).
  unfold d. rewrite col_get_filter, Htimes by (unfold norm_labels; set_solver). fold d.
  cbn [mbind sum_bind]. rewrite (tz_convert_aware db out_tz z0 off) by done.
  autorewrite with pym. rewrite col_get_set_col by done. cbn [mbind sum_bind].
  rewrite (tz_localize_none_aware db out_tz off) by done.
  autorewrite with pym. rewrite col_get_set_col by (by rewrite has_col_set_col).
  cbn [mbind sum_bind]. rewrite unix_seconds_naive by done. autorewrite with pym.
  rewrite !set_col_set_col by (try rewrite has_col_set_col; done).
  unfold id_of, first_cell. rewrite Hm, Hi. done.
Qed.
Lemma length_unix_col off ns : length (unix_col off ns) = length ns.
Proof. apply length_fmap. Qed.

Lemma raw_times_length n df z0 ns : raw_table n df z0 ns -> length ns = n.
Proof.
  intros [Hwf _ _ _ Htimes]. pose proof (col_get_length n df "_time" _ Hwf Htimes) as E.
  by rewrite length_fmap in E.
Qed.

Lemma columns_normalized n df z0 ns t :
  raw_table n df z0 ns ->
  columns (normalized df t) = (fun c => if String.eqb c "_time" then "time" else c)
                                <$> filter (fun c => c ∉ norm_labels) (columns df).
Proof.
  intros Hraw. unfold normalized.
  rewrite set_col_columns by (eapply normalized_has_time; done).
  by rewrite rename_columns, columns_filter.
Qed.

(** The normalized table of a raw table is well formed, with its rows. *)
Lemma normalized_wf n df z0 ns off :
  raw_table n df z0 ns -> wf n (normalized df (unix_col off ns)).
Proof.
  intros Hraw. pose proof Hraw as [Hwf _ _ Hfresh _].
  apply set_col_wf; [|by eapply normalized_has_time|].
  - apply rename_wf; [by apply wf_filter|].
    rewrite columns_filter, list_elem_of_filter. tauto.
  - rewrite length_unix_col. by eapply raw_times_length.
Qed.

(** ** Properties *)

(** C5 (functional).  On a raw table whose first row has measurement
    [box] and sensor id [sid], the function returns the identifier
    ["{box}_{sid}"]. *)
Theorem processInfluxDF_identifier n df z0 ns out_tz off s box sid ms ids :
  raw_table n df z0 ns -> db out_tz = Some off ->
  col_get df "_measurement" = inr (VStr box :: ms) ->
  col_get df "id" = inr (VStr sid :: ids) ->
  exists s' out, processInfluxDF db df out_tz s = (s', Ok (box +:+ "_" +:+ sid, out)).
Proof.
  intros Hraw Hdb Hm Hi. rewrite (processInfluxDF_run n df z0 ns out_tz off s) by done.
  unfold id_of, first_cell. rewrite Hm, Hi. eauto.
Qed.

(** C4 (functional).  The columns of the result are those of the raw
    table without [result], [table], [_measurement], [id], [baro_time]
    and [err], in their order, with [_time] renamed [time]. *)
Theorem processInfluxDF_columns n df z0 ns out_tz off s :
  raw_table n df z0 ns -> db out_tz = Some off ->
  exists s' id out, processInfluxDF db df out_tz s = (s', Ok (id, out)) /\
    columns out = (fun c => if String.eqb c "_time" then "time" else c)
                    <$> filter (fun c => c ∉ norm_labels) (columns df).
Proof.
  intros Hraw Hdb. rewrite (processInfluxDF_run n df z0 ns out_tz off s) by done.
  do 3 eexists. split; [done|]. by eapply columns_normalized.
Qed.

(** C20 (invariant).  The result is a well-formed table with as many rows
    as the raw table: distinct column names, every column of the same
    height. *)
Theorem processInfluxDF_wf n df z0 ns out_tz off s :
  raw_table n df z0 ns -> db out_tz = Some off ->
  exists s' id out, processInfluxDF db df out_tz s = (s', Ok (id, out)) /\ wf n out.
Proof.
  intros Hraw Hdb. rewrite (processInfluxDF_run n df z0 ns out_tz off s) by done.
  do 3 eexists. split; [done|]. by eapply normalized_wf.
Qed.

(** C3 (functional).  The [time] column of the result holds, for each
    sample instant [t] (nanoseconds since the epoch), the double numpy
    computes for the seconds of the output zone's wall clock: the
    nanoseconds [t + off(t) * 10^9] rounded to a double, divided by
    [1e9] and rounded again ([Binary64.td_seconds]), in the order of the
    rows. *)
Theorem processInfluxDF_time n df z0 ns out_tz off s :
  raw_table n df z0 ns -> db out_tz = Some off ->
  exists s' id out, processInfluxDF db df out_tz s = (s', Ok (id, out)) /\
    col_get out "time" = inr ((fun t => VFloat (td_seconds (local_ns off t))) <$> ns).
Proof.
  intros Hraw Hdb. rewrite (processInfluxDF_run n df z0 ns out_tz off s) by done.
  do 3 eexists. split; [done|]. unfold normalized.
  rewrite col_get_set_col; [done|]. by eapply normalized_has_time.
Qed.

(** C6 (functional).  The run prints the error-code warning exactly when
    the table has an [err] column, whatever values the column holds:
    line 64 inspects the characters of the literal ["err"], which has
    two distinct ones, instead of the column. *)
Theorem processInfluxDF_err_warning n df z0 ns out_tz off s :
  raw_table n df z0 ns -> db out_tz = Some off ->
  exists s' r, processInfluxDF db df out_tz s = (s', Ok r) /\
    out_of s' = out_of s ++ (if has_col df "err" then [err_warning] else []).
Proof.
  intros Hraw Hdb. rewrite (processInfluxDF_run n df z0 ns out_tz off s) by done.
  do 2 eexists. split; [done|]. destruct (has_col df "err"); [apply out_of_emit|].
  by rewrite app_nil_r.
Qed.

(** C22 (error).  A table without rows makes the function raise, before
    printing anything: [IndexError] from [iloc[0]] when it has a
    [_measurement] column, [KeyError] otherwise. *)
Theorem processInfluxDF_empty df out_tz s :
  wf 0 df ->
  processInfluxDF db df out_tz s
  = (s, Raised (if has_col df "_measurement"
                then IndexError "single positional indexer is out-of-bounds"
                else KeyError ["_measurement"])).
Proof.
  intros Hwf. unfold processInfluxDF. destruct (has_col df "_measurement") eqn:E.
  - apply has_col_spec in E. destruct (col_get_present df _ E) as [v Hv].
    pose proof (col_get_length 0 df _ v Hwf Hv). destruct v; [|done].
    by rewrite Hv.
  - rewrite col_get_missing; [done|]. intros ?%has_col_spec. congruence.
Qed.

(** C23 (error).  A table with rows and both tag columns, but without
    one of the bookkeeping columns [result], [table], raises [KeyError]
    naming every missing one, before printing anything. *)
Theorem processInfluxDF_missing_label n df out_tz s :
  wf n df -> 1 <= n -> "_measurement" ∈ columns df -> "id" ∈ columns df ->
  filter (fun l => l ∉ columns df) dropped_labels <> [] ->
  processInfluxDF db df out_tz s
  = (s, Raised (KeyError (filter (fun l => l ∉ columns df) dropped_labels))).
Proof.
  intros Hwf Hn Hm Hi Hmiss.
  destruct (col_get_first n df _ Hwf Hn Hm) as (m & ms & Em).
  destruct (col_get_first n df _ Hwf Hn Hi) as (i & ids & Ei).
  unfold processInfluxDF. rewrite Em, Ei. cbn [mbind sum_bind iloc0].
  autorewrite with pym. unfold drop.
  destruct (filter (fun l => l ∉ columns df) dropped_labels); done.
Qed.

End Run.

(** ** Witnesses *)

(** Discharges [raw_table] on a concrete table by evaluation. *)
Ltac raw_table_by_eval :=
  constructor; [apply (bool_decide_unpack _); vm_compute; reflexivity | lia
               | apply (bool_decide_unpack _); vm_compute; reflexivity
               | apply (bool_decide_unpack _); vm_compute; reflexivity
               | reflexivity].

Example processInfluxDF_identifier_witness :
  exists (s' : list string) out,
    processInfluxDF sample_db sample_table "Etc/GMT-2" [] = (s', Ok ("box7" +:+ "_" +:+ "P1", out)).
Proof.
  apply (processInfluxDF_identifier sample_db 1 sample_table "UTC" [10000000000%Z]
           "Etc/GMT-2" (fun _ => 7200%Z) [] "box7" "P1" [] []);
    [raw_table_by_eval | reflexivity | reflexivity | reflexivity].
Defined.

Example processInfluxDF_columns_witness :
  exists (s' : list string) id out,
    processInfluxDF sample_db sample_table "UTC" [] = (s', Ok (id, out)) /\
    columns out = (fun c => if String.eqb c "_time" then "time" else c)
                    <$> filter (fun c => c ∉ norm_labels) (columns sample_table).
Proof.
  apply (processInfluxDF_columns sample_db 1 sample_table "UTC" [10000000000%Z] "UTC"
           (fun _ => 0%Z)); [raw_table_by_eval | reflexivity].
Defined.

Example processInfluxDF_wf_witness :
  exists (s' : list string) id out,
    processInfluxDF sample_db sample_table "UTC" [] = (s', Ok (id, out)) /\ wf 1 out.
Proof.
  apply (processInfluxDF_wf sample_db 1 sample_table "UTC" [10000000000%Z] "UTC"
           (fun _ => 0%Z)); [raw_table_by_eval | reflexivity].
Defined.

(** The sample is taken at 1970-01-01T00:00:10 UTC: with the output zone
    [Etc/UTC] its [time] is 10.0, with [Etc/GMT-2] it is 7210.0. *)
Example processInfluxDF_time_witness :
  exists (s' : list string) id out,
    processInfluxDF sample_db sample_table "Etc/UTC" [] = (s', Ok (id, out)) /\
    col_get out "time" = inr ((fun t => VFloat (td_seconds (local_ns (fun _ => 0%Z) t)))
                                <$> [10000000000%Z]).
Proof.
  apply (processInfluxDF_time sample_db 1 sample_table "UTC" [10000000000%Z] "Etc/UTC"
           (fun _ => 0%Z)); [raw_table_by_eval | reflexivity].
Defined.

(** The [err] column of the sample holds one value, 0, and the warning is
    printed all the same. *)
Example processInfluxDF_err_warning_witness :
  exists (s' : list string) r,
    processInfluxDF sample_db sample_table "UTC" [] = (s', Ok r) /\
    out_of s' = out_of [] ++ (if has_col sample_table "err" then [err_warning] else []).
Proof.
  apply (processInfluxDF_err_warning sample_db 1 sample_table "UTC" [10000000000%Z] "UTC"
           (fun _ => 0%Z)); [raw_table_by_eval | reflexivity].
Defined.

Example processInfluxDF_empty_witness :
  wf 0 ((fun cv => (cv.1, [])) <$> sample_table) /\
  processInfluxDF (S := list string) sample_db ((fun cv => (cv.1, [])) <$> sample_table) "UTC" []
  = ([], Raised (if has_col ((fun cv => (cv.1, [])) <$> sample_table) "_measurement"
                 then IndexError "single positional indexer is out-of-bounds"
                 else KeyError ["_measurement"])).
Proof.
  split; [apply (bool_decide_unpack _); vm_compute; reflexivity|].
  apply processInfluxDF_empty. apply (bool_decide_unpack _); vm_compute; reflexivity.
Defined.

Example processInfluxDF_missing_label_witness :
  let df := filter (fun cv => cv.1 ≠ "table") sample_table in
  processInfluxDF (S := list string) sample_db df "UTC" []
  = ([], Raised (KeyError (filter (fun l => l ∉ columns df) dropped_labels))).
Proof.
  apply processInfluxDF_missing_label with (n := 1);
    [apply (bool_decide_unpack _); vm_compute; reflexivity | lia
    | apply (bool_decide_unpack _); vm_compute; reflexivity
    | apply (bool_decide_unpack _); vm_compute; reflexivity | vm_compute; discriminate].
Defined.

End Normalize.
