(* ===== verification/World.v ===== *)
(** * The world the two scripts run in

    Both scripts reach the outside through a handful of calls:
    [os.path.isfile], [open] with [pickle.load] or [pickle.dump],
    [DataFrame.to_csv], [scipy.io.savemat], [input] and [print].  This
    file gives them one state: the files of the file system by path, the
    lines still to be read on standard input, and what was written to
    standard output, one entry per [print] call or [input] prompt.  The
    world implements the [Stdout] interface of the prelude, so the
    components written against it run in the world unchanged. *)

From Stdlib Require Import ZArith String.
From stdpp Require Import base list strings gmap.
From S2P Require Import Prelude Frame.

Module World.
Import Frame.

(** ** Files *)

(** What the scripts put into a file: the pickled credentials dictionary
    (influxdb-setup.py, 47-54), the pickled dictionary of tables (line
    181), the rows of a CSV file (line 170), the arrays of a MAT file
    (line 176); [BOther] is a file neither script wrote. *)
Inductive blob :=
  | BCreds (d : list (string * string))
  | BFrames (d : list (string * frame))
  | BCsv (rows : list (list cell))
  | BMat (vars : list (string * list (list cell)))
  | BOther.

Record world := mkworld {
  fs : gmap string blob;
  stdin : list string;
  stdout : list string
}.

#[export] Program Instance world_stdout : Stdout world := {
  out_of := stdout;
  emit l w := mkworld (fs w) (stdin w) (stdout w ++ [l])
}.
Next Obligation. done. Qed.

(** [os.path.isfile(p)]. *)
Definition isfile (p : string) : PyM world bool :=
  fun w => (w, Ok (bool_decide (is_Some (fs w !! p)))).

(** [open(p, "rb")] then reading: [FileNotFoundError] when missing. *)
Definition read_file (p : string) : PyM world blob :=
  fun w => match fs w !! p with
           | Some b => (w, Ok b)
           | None => (w, Raised (FileNotFoundError p))
           end.

(** [open(p, "wb")] then writing: the file is replaced as a whole. *)
Definition write_file (p : string) (b : blob) : PyM world unit :=
  modify (fun w => mkworld (<[p:=b]> (fs w)) (stdin w) (stdout w)).

(** [pickle.load] of a file that should hold a dictionary of strings.
    Only such files and the other blobs above are modelled; loading one
    of the others is reported as an unpickling failure. *)
Definition load_creds (b : blob) : exc + list (string * string) :=
  match b with
  | BCreds d => inr d
  | _ => inl (UnpicklingError "not a pickled dictionary of strings")
  end.

(** [d[k]] on a dictionary of strings. *)
Fixpoint dict_get (d : list (string * string)) (k : string) : exc + string :=
  match d with
  | [] => inl (KeyError [k])
  | (k', v) :: d' => if String.eqb k' k then inr v else dict_get d' k
  end.

(** ** Standard input *)

(** [input(prompt)]: the prompt is written, then a line is read;
    [EOFError] when the input is exhausted. *)
Definition input (prompt : string) : PyM world string :=
  fun w =>
    match stdin w with
    | [] => (mkworld (fs w) [] (stdout w ++ [prompt]), Raised EOFError)
    | l :: rest => (mkworld (fs w) rest (stdout w ++ [prompt]), Ok l)
    end.

(** The files after a loop writing [content x] to [name x] for each
    [x] of a list, in order. *)
Definition write_all {A} (name : A -> string) (content : A -> blob)
  (m : gmap string blob) (l : list A) : gmap string blob :=
  foldl (fun m x => <[name x := content x]> m) m l.

(** * Lemmas *)

Lemma isfile_run p w :
  isfile p w = (w, Ok (bool_decide (is_Some (fs w !! p)))).
Proof. done. Qed.

Lemma read_file_some p w b : fs w !! p = Some b -> read_file p w = (w, Ok b).
Proof. unfold read_file. by intros ->. Qed.

Lemma isfile_inv p w w' b : isfile p w = (w', Ok b) -> w' = w /\ b = bool_decide (is_Some (fs w !! p)).
Proof. by intros [= <- <-]. Qed.

Lemma read_file_inv p w w' b : read_file p w = (w', Ok b) -> w' = w /\ fs w !! p = Some b.
Proof. unfold read_file. destruct (fs w !! p); by intros [= <- <-]. Qed.

(** [world_steps] replaces the steps of a returning run that leave the
    world as it is by what they return. *)
Ltac world_steps :=
  repeat match goal with
  | H : isfile _ _ = (_, Ok _) |- _ => apply isfile_inv in H as [-> ?]
  | H : read_file _ _ = (_, Ok _) |- _ => apply read_file_inv in H as [-> ?]
  | H : lift_sum _ _ = (_, Ok _) |- _ => apply lift_sum_inv in H as [-> ?]
  | H : ret _ _ = (_, Ok _) |- _ => apply ret_inv in H as [-> ?]
  end.

Lemma emit_fs l (w : world) : fs (emit l w) = fs w.
Proof. done. Qed.

Lemma emit_stdin l (w : world) : stdin (emit l w) = stdin w.
Proof. done. Qed.

Lemma dict_get_app_l d1 d2 k v :
  dict_get d1 k = inr v -> dict_get (d1 ++ d2) k = inr v.
Proof.
  induction d1 as [|[k' v'] d1 IH]; [done|]. cbn. by destruct (String.eqb k' k).
Qed.

Lemma dict_get_cases d k :
  ((k ∉ d.*1) /\ dict_get d k = inl (KeyError [k])) \/ ((k ∈ d.*1) /\ (exists v, dict_get d k = inr v)).
Proof.
  induction d as [|[k' v'] d IH]; [left; split; [set_solver|done]|]. cbn.
  destruct (String.eqb_spec k' k) as [->|Hne]; [right; split; [set_solver|eauto]|].
  destruct IH as [[H1 H2]|[H1 H2]]; [left|right]; split; try done; set_solver.
Qed.

(** ** Files written in a loop *)

Section write_loop.
Context {A : Type} (name : A -> string) (content : A -> blob).

Lemma write_all_notin m l p : p ∉ name <$> l -> write_all name content m l !! p = m !! p.
Proof.
  revert m. induction l as [|x l IH]; intros m Hp; [done|]. simpl.
  rewrite fmap_cons, elem_of_cons in Hp. rewrite IH by tauto.
  apply lookup_insert_ne. naive_solver.
Qed.

Lemma write_all_in m l x :
  NoDup (name <$> l) -> x ∈ l -> write_all name content m l !! name x = Some (content x).
Proof.
  revert m. induction l as [|y l IH]; intros m Hnd Hx; [set_solver|]. simpl.
  rewrite fmap_cons in Hnd. apply NoDup_cons in Hnd as [Hy Hnd].
  apply elem_of_cons in Hx as [->|Hx].
  - rewrite write_all_notin by done. apply lookup_insert_eq.
  - by apply IH.
Qed.
End write_loop.

End World.
