(* ===== verification/Creds.v ===== *)
(** * The credentials file: influxdb-setup.py and [loadInfluxClient]

    The setup tool asks for the URL, organisation and token of the
    database, offering the values of an existing credentials file as
    defaults, and writes the three into [influx-creds.pickle];
    [loadInfluxClient] (get-paros-data.py, 31-51) reads them back, and
    exits with status 1 when the file is missing.  This file models both
    in the world of [World], the three prompt loops with the lines of
    standard input they consume, and proves that the loops terminate,
    what they return, and that what the tool writes the loader reads. *)

From Stdlib Require Import ZArith Lia String.
From stdpp Require Import base list strings gmap.
From S2P Require Import Prelude World.

Module Creds.
Import World.
Local Open Scope py_scope.

(** ** Loading (get-paros-data.py, 31-51) *)

(** The keyword arguments of [InfluxDBClient] (lines 39-44). *)
Record client := mkclient {
  url : string;
  token : string;
  org : string;
  timeout : Z
}.

Definition not_found_msg : string :=
  "InfluxDB credentials file not found. Run influxdb-setup.py to generate one.".

(** The keys are read in the order of the keyword arguments. *)
Definition loadInfluxClient (pickle_path : string) : PyM world client :=
  present <- isfile pickle_path ;;
  if present then
    b <- read_file pickle_path ;;
    influx_dict <- lift_sum (load_creds b) ;;
    u <- lift_sum (dict_get influx_dict "idb_url") ;;
    t <- lift_sum (dict_get influx_dict "idb_token") ;;
    o <- lift_sum (dict_get influx_dict "idb_org") ;;
    ret (mkclient u t o 100000000)
  else
    print not_found_msg ;; exit 1.

(** ** The setup tool (influxdb-setup.py) *)

Definition creds_file : string := "influx-creds.pickle".

Definition prompt (label cur : string) : string :=
  "Enter InfluxDB " +:+ label +:+ " [" +:+ cur +:+ "]: ".

Definition missing_msg (label : string) : string :=
  "InfluxDB " +:+ label +:+ " must be specified".

Definition saved_msg : string :=
  "Saved file " +:+ creds_file +:+
  " successfully. Re-run this script anytime you need to update it".

(** One of the loops of lines 20-45:
    [while not v: v = input(...); if not v: (if not cur: print(...) else: v = cur)].
    Every round reads a line or raises [EOFError], so [ask] gives the
    loop one round more than there are lines left. *)
Fixpoint ask_loop (fuel : nat) (label cur : string) : PyM world string :=
  match fuel with
  | O => raise EOFError
  | S fuel' =>
      v <- input (prompt label cur) ;;
      if String.eqb v "" then
        if String.eqb cur "" then print (missing_msg label) ;; ask_loop fuel' label cur
        else ret cur
      else ret v
  end.

Definition ask (label cur : string) : PyM world string :=
  fun w => ask_loop (S (length (stdin w))) label cur w.

(** Lines 12-18: the defaults, read from an existing file. *)
Definition read_defaults : PyM world (string * string * string) :=
  present <- isfile creds_file ;;
  if present then
    b <- read_file creds_file ;;
    existing_dict <- lift_sum (load_creds b) ;;
    u <- lift_sum (dict_get existing_dict "idb_url") ;;
    o <- lift_sum (dict_get existing_dict "idb_org") ;;
    t <- lift_sum (dict_get existing_dict "idb_token") ;;
    ret (u, o, t)
  else ret ("", "", "").

Definition output_dict (u o t : string) : list (string * string) :=
  [("idb_url", u); ("idb_org", o); ("idb_token", t)].

(** [main] of influxdb-setup.py (lines 4-55). *)
Definition setup_main : PyM world unit :=
  cur <- read_defaults ;;
  let '(cu, co, ct) := cur in
  u <- ask "URL" cu ;;
  o <- ask "Org" co ;;
  t <- ask "Token" ct ;;
  write_file creds_file (BCreds (output_dict u o t)) ;;
  print saved_msg.

(** ** Sample worlds *)

Definition empty_world (lines : list string) : world := mkworld ∅ lines [].

(** A first setup: an empty URL and an empty token are refused once. *)
Definition setup_input : list string := [""; "http://localhost:8086"; "paros"; ""; "tok"].

(** A credentials file written by hand, without the organisation. *)
Definition partial_creds : list (string * string) :=
  [("idb_url", "http://localhost:8086"); ("idb_token", "tok")].

Definition partial_world : world :=
  mkworld {[ "influx-creds.pickle" := BCreds partial_creds ]} setup_input [].

(** What the prompt loop writes for [k] empty lines before it gets an
    answer, with no default to fall back on. *)
Definition asked (label : string) (k : nat) : list string :=
  concat (repeat [prompt label ""; missing_msg label] k) ++ [prompt label ""].

(** * Lemmas *)

Lemma ask_loop_S fuel label cur :
  ask_loop (S fuel) label cur
  = (v <- input (prompt label cur) ;;
     if String.eqb v "" then
       if String.eqb cur "" then print (missing_msg label) ;; ask_loop fuel label cur
       else ret cur
     else ret v).
Proof. done. Qed.

(** With a default, one line is read: the answer, or the default for an
    empty line. *)
Lemma ask_loop_default fuel label cur w l rest :
  cur <> "" -> stdin w = l :: rest ->
  ask_loop (S fuel) label cur w
  = (mkworld (fs w) rest (stdout w ++ [prompt label cur]),
     Ok (if String.eqb l "" then cur else l)).
Proof.
  intros Hc Hin. rewrite ask_loop_S. unfold bind, input. rewrite Hin.
  destruct (String.eqb_spec l ""); [|done].
  by rewrite (proj2 (String.eqb_neq _ _) Hc).
Qed.

Lemma world_eta w : mkworld (fs w) (stdin w) (stdout w) = w.
Proof. by destruct w. Qed.

(** Without a default, each empty line is refused with a message and the
    loop goes round again. *)
Lemma ask_loop_skip fuel label w k rest :
  k < fuel -> stdin w = repeat "" k ++ rest ->
  ask_loop fuel label "" w
  = ask_loop (fuel - k) label ""
      (mkworld (fs w) rest (stdout w ++ concat (repeat [prompt label ""; missing_msg label] k))).
Proof.
  revert fuel w. induction k as [|k IH]; intros [|fuel] w Hk Hin; try lia.
  - cbn [repeat concat app] in *. by rewrite app_nil_r, <- Hin, world_eta.
  - rewrite ask_loop_S. unfold bind at 1, input. rewrite Hin. cbn [repeat app].
    rewrite String.eqb_refl. cbn -[ask_loop].
    rewrite (IH fuel) by (simpl; lia || done). cbn [stdout fs Nat.sub].
    by rewrite <- !app_assoc.
Qed.

Lemma ask_loop_answer fuel label cur w v rest :
  v <> "" -> stdin w = v :: rest ->
  ask_loop (S fuel) label cur w
  = (mkworld (fs w) rest (stdout w ++ [prompt label cur]), Ok v).
Proof.
  intros Hv Hin. rewrite ask_loop_S. unfold bind, input. rewrite Hin.
  by rewrite (proj2 (String.eqb_neq _ _) Hv).
Qed.

Lemma ask_loop_eof fuel label cur w :
  stdin w = [] ->
  ask_loop (S fuel) label cur w
  = (mkworld (fs w) [] (stdout w ++ [prompt label cur]), Raised EOFError).
Proof. intros Hin. rewrite ask_loop_S. unfold bind, input. by rewrite Hin. Qed.

Lemma ask_loop_Ok_nonempty fuel label cur w w' v :
  ask_loop fuel label cur w = (w', Ok v) -> v <> "".
Proof.
  revert w. induction fuel as [|fuel IH]; intros w; [done|].
  rewrite ask_loop_S. unfold bind at 1, input.
  destruct (stdin w) as [|l rest]; [done|].
  destruct (String.eqb_spec l "") as [->|Hl]; [|by intros [= _ <-]].
  destruct (String.eqb_spec cur "") as [->|Hc]; [|by intros [= _ <-]].
  apply IH.
Qed.

Lemma ask_loop_fs fuel label cur w w' r :
  ask_loop fuel label cur w = (w', r) -> fs w' = fs w.
Proof.
  revert w. induction fuel as [|fuel IH]; intros w; [by intros [= <- _]|].
  rewrite ask_loop_S. unfold bind at 1, input.
  destruct (stdin w) as [|l rest]; [by intros [= <- _]|].
  destruct (String.eqb l ""), (String.eqb cur ""); try by intros [= <- _].
  intros H%IH. done.
Qed.

Lemma read_defaults_world w w' d : read_defaults w = (w', Ok d) -> w' = w.
Proof.
  unfold read_defaults. intros H. pym_inv H. world_steps.
  destruct a; [pym_inv H|]; by world_steps.
Qed.

Lemma dict_get_output_dict u o t :
  dict_get (output_dict u o t) "idb_url" = inr u /\
  dict_get (output_dict u o t) "idb_org" = inr o /\
  dict_get (output_dict u o t) "idb_token" = inr t.
Proof. done. Qed.

Lemma load_written p w u o t :
  fs w !! p = Some (BCreds (output_dict u o t)) ->
  loadInfluxClient p w = (w, Ok (mkclient u t o 100000000)).
Proof.
  intros Hf. unfold loadInfluxClient. unfold bind at 1. rewrite isfile_run, Hf. simpl.
  unfold bind. rewrite (read_file_some _ _ _ Hf). done.
Qed.

Lemma read_defaults_missing w d k ks :
  fs w !! creds_file = Some (BCreds d) ->
  filter (fun k => k ∉ d.*1) ["idb_url"; "idb_org"; "idb_token"] = k :: ks ->
  read_defaults w = (w, Raised (KeyError [k])).
Proof.
  intros Hf Hk. unfold read_defaults, bind at 1. rewrite isfile_run, Hf.
  cbn -[read_file dict_get]. unfold bind at 1. rewrite (read_file_some _ _ _ Hf).
  cbn -[dict_get].
  destruct (dict_get_cases d "idb_url") as [[Hu ->]|[Hu [vu ->]]];
    [rewrite filter_cons_True in Hk by done; by simplify_eq|
     rewrite filter_cons_False in Hk by naive_solver; cbn -[dict_get]].
  destruct (dict_get_cases d "idb_org") as [[Ho ->]|[Ho [vo ->]]];
    [rewrite filter_cons_True in Hk by done; by simplify_eq|
     rewrite filter_cons_False in Hk by naive_solver; cbn -[dict_get]].
  destruct (dict_get_cases d "idb_token") as [[Ht ->]|[Ht [vt ->]]];
    [rewrite filter_cons_True in Hk by done; by simplify_eq|
     by rewrite filter_cons_False in Hk by naive_solver].
Qed.

(** When the credentials file is missing, [loadInfluxClient] prints the
    instruction to run the setup tool and exits with status 1, raising
    nothing. *)
Lemma loadInfluxClient_missing p w :
  fs w !! p = None ->
  loadInfluxClient p w = (emit not_found_msg w, Exited 1%Z).
Proof. intros Hp. unfold loadInfluxClient, bind at 1. by rewrite isfile_run, Hp. Qed.

(** * Properties *)

(** C10 (roundtrip).  A run of the setup tool that ends normally replaces
    [influx-creds.pickle] as a whole by a dictionary of the three
    non-empty answers, leaves every other file as it was, and
    [loadInfluxClient] then builds its client from exactly these
    answers. *)
Theorem setup_then_load w w' :
  setup_main w = (w', Ok tt) ->
  exists u o t,
    fs w' = <[creds_file := BCreds (output_dict u o t)]> (fs w) /\
    u <> "" /\ o <> "" /\ t <> "" /\
    loadInfluxClient creds_file w' = (w', Ok (mkclient u t o 100000000)).
Proof.
  intros H. unfold setup_main in H. pym_inv H. apply read_defaults_world in Ha as ->.
  destruct a as [[cu co] ct]. pym_inv H.
  unfold ask in Ha, Ha0, Ha1.
  pose proof (ask_loop_fs _ _ _ _ _ _ Ha) as F0.
  pose proof (ask_loop_fs _ _ _ _ _ _ Ha0) as F1.
  pose proof (ask_loop_fs _ _ _ _ _ _ Ha1) as F2.
  unfold write_file, modify in Ha2. injection Ha2 as <- _.
  unfold print, modify in H. injection H as <-.
  exists a, a0, a1. cbn [fs emit world_stdout]. rewrite F2, F1, F0.
  split; [done|]. split_and!; try by eapply ask_loop_Ok_nonempty.
  apply load_written. cbn [fs emit world_stdout]. apply lookup_insert_eq.
Qed.

(** C26 (liveness).  Without a default, the prompt loop refuses every
    empty line with the message of its label and returns the first
    non-empty line, having consumed exactly the lines up to it. *)
Theorem ask_no_default label w k v rest :
  v <> "" -> stdin w = repeat "" k ++ v :: rest ->
  ask label "" w = (mkworld (fs w) rest (stdout w ++ asked label k), Ok v).
Proof.
  intros Hv Hin. unfold ask. rewrite Hin, length_app, repeat_length.
  rewrite (ask_loop_skip _ _ _ k (v :: rest)) by (done || lia).
  replace (S (k + length (v :: rest)) - k) with (S (length (v :: rest))) by lia.
  rewrite (ask_loop_answer _ _ _ _ v rest) by done. cbn [fs stdout].
  unfold asked. by rewrite app_assoc.
Qed.

(** C27 (functional).  With a default from the existing file, the loop
    reads exactly one line and returns it, or the default when the line
    is empty; it raises [EOFError] when no line is left. *)
Theorem ask_default label cur w :
  cur <> "" ->
  ask label cur w
  = match stdin w with
    | [] => (mkworld (fs w) [] (stdout w ++ [prompt label cur]), Raised EOFError)
    | l :: rest => (mkworld (fs w) rest (stdout w ++ [prompt label cur]),
                    Ok (if String.eqb l "" then cur else l))
    end.
Proof.
  intros Hc. unfold ask. destruct (stdin w) as [|l rest] eqn:Hin.
  - by apply ask_loop_eof.
  - by apply ask_loop_default.
Qed.

(** C28 (termination).  The loop needs no more rounds than there are lines
    left: any number of rounds beyond that gives the same run, so the
    [while] loop of the tool ends, by an answer or by [EOFError]. *)
Theorem ask_loop_enough fuel1 fuel2 label cur w :
  length (stdin w) < fuel1 -> length (stdin w) < fuel2 ->
  ask_loop fuel1 label cur w = ask_loop fuel2 label cur w.
Proof.
  revert fuel2 w. induction fuel1 as [|f1 IH]; intros [|f2] w H1 H2; try lia.
  rewrite !ask_loop_S. unfold bind at 1 3, input.
  destruct (stdin w) as [|l rest] eqn:Hin; [done|].
  destruct (String.eqb l ""), (String.eqb cur ""); try done.
  unfold bind. cbn -[ask_loop]. apply IH; simpl in *; lia.
Qed.

(** C29 (error).  An existing credentials file that lacks one of the
    three keys makes the setup tool raise [KeyError] for the first
    missing one (in the order url, org, token) before it asks anything:
    the defaults are not filled in key by key. *)
Theorem setup_main_missing_key w d k ks :
  fs w !! creds_file = Some (BCreds d) ->
  filter (fun k => k ∉ d.*1) ["idb_url"; "idb_org"; "idb_token"] = k :: ks ->
  setup_main w = (w, Raised (KeyError [k])).
Proof.
  intros Hf Hk. unfold setup_main, bind at 1. by rewrite (read_defaults_missing w d k ks).
Qed.

(** ** Witnesses *)

Example setup_then_load_witness :
  (setup_main (empty_world setup_input)).2 = Ok tt /\
  exists u o t,
    fs (setup_main (empty_world setup_input)).1
      = <[creds_file := BCreds (output_dict u o t)]> (fs (empty_world setup_input)) /\
    u <> "" /\ o <> "" /\ t <> "" /\
    loadInfluxClient creds_file (setup_main (empty_world setup_input)).1
      = ((setup_main (empty_world setup_input)).1, Ok (mkclient u t o 100000000)).
Proof.
  assert (E : setup_main (empty_world setup_input)
              = ((setup_main (empty_world setup_input)).1, Ok tt)) by (vm_compute; reflexivity).
  split; [by rewrite E|]. exact (setup_then_load _ _ E).
Defined.

Example ask_no_default_witness :
  "x" <> "" /\ stdin (empty_world [""; ""; "x"; "y"]) = repeat "" 2 ++ "x" :: ["y"] /\
  ask "URL" "" (empty_world [""; ""; "x"; "y"])
  = (mkworld ∅ ["y"] ([] ++ asked "URL" 2), Ok "x").
Proof.
  assert (Hv : "x" <> "") by done.
  assert (Hin : stdin (empty_world [""; ""; "x"; "y"]) = repeat "" 2 ++ "x" :: ["y"]) by reflexivity.
  split_and!; [exact Hv|exact Hin|]. exact (ask_no_default "URL" _ 2 "x" ["y"] Hv Hin).
Defined.

Example ask_default_witness :
  "paros" <> "" /\
  ask "Org" "paros" (empty_world [""])
  = (mkworld ∅ [] ([] ++ [prompt "Org" "paros"]), Ok "paros").
Proof.
  assert (Hc : "paros" <> "") by done. split; [exact Hc|].
  rewrite (ask_default "Org" "paros" (empty_world [""]) Hc). reflexivity.
Defined.

Example ask_loop_enough_witness :
  length (stdin (empty_world [""; "a"])) < 3 /\ length (stdin (empty_world [""; "a"])) < 10 /\
  ask_loop 3 "URL" "" (empty_world [""; "a"]) = ask_loop 10 "URL" "" (empty_world [""; "a"]).
Proof.
  assert (H1 : length (stdin (empty_world [""; "a"])) < 3) by (simpl; lia).
  assert (H2 : length (stdin (empty_world [""; "a"])) < 10) by (simpl; lia).
  split_and!; [exact H1|exact H2|]. exact (ask_loop_enough 3 10 "URL" "" _ H1 H2).
Defined.

Example setup_main_missing_key_witness :
  fs partial_world !! creds_file = Some (BCreds partial_creds) /\
  filter (fun k => k ∉ partial_creds.*1) ["idb_url"; "idb_org"; "idb_token"] = ["idb_org"] /\
  setup_main partial_world = (partial_world, Raised (KeyError ["idb_org"])).
Proof.
  assert (Hf : fs partial_world !! creds_file = Some (BCreds partial_creds)) by reflexivity.
  assert (Hk : filter (fun k => k ∉ partial_creds.*1) ["idb_url"; "idb_org"; "idb_token"]
               = ["idb_org"]) by reflexivity.
  split_and!; [exact Hf|exact Hk|]. exact (setup_main_missing_key _ _ _ [] Hf Hk).
Defined.

End Creds.
