(* ===== verification/Split.v ===== *)
(** * Splitting the query result (get-paros-data.py, 145-152)

    [query_data_frame] returns one DataFrame, or a list of them when the
    response holds tables of different shapes.  The script flattens a
    list by [groupby('table')] of each element (keys in ascending order,
    rows of a group in their order), and keeps a single DataFrame whole.
    This file models rows and row selection on the column frames of
    [Frame], the grouping and the split, and proves that a list result
    is cut into non-empty groups, each of one table index, whose rows
    are exactly the rows of the response. *)

From Stdlib Require Import ZArith Lia String.
From stdpp Require Import base list strings sets sorting.
From S2P Require Import Prelude Frame.

Module Split.
Import Frame.

(** What [query_data_frame] returns. *)
Inductive query_result :=
  | QFrame (df : frame)
  | QList (dfs : list frame).

(** ** Rows *)

(** The row count of a frame, read off its first column. *)
Definition nrows (df : frame) : nat :=
  match df with [] => 0 | (_, v) :: _ => length v end.

(** Row [i]: the cells of every column at position [i]. *)
Definition row_at (df : frame) (i : nat) : list cell := omap (fun cv => cv.2 !! i) df.

Definition frame_rows (df : frame) : list (list cell) := row_at df <$> seq 0 (nrows df).

(** [df.iloc[idx]]: the rows at the given positions, in that order. *)
Definition take_rows (idx : list nat) (df : frame) : frame :=
  (fun cv => (cv.1, omap (fun i => cv.2 !! i) idx)) <$> df.

(** ** [groupby('table')] *)

(** The [table] column the Influx client returns holds int64 values;
    a column of other cells is outside this model. *)
Fixpoint int_cells (s : list cell) : option (list Z) :=
  match s with
  | [] => Some []
  | VInt z :: s' => zs ← int_cells s'; Some (z :: zs)
  | _ :: _ => None
  end.

(** The group keys, sorted as [groupby] sorts them by default. *)
Definition group_keys (keys : list Z) : list Z := merge_sort Z.le (remove_dups keys).

(** The positions of the rows of key [k]. *)
Definition group_rows (keys : list Z) (k : Z) : list nat :=
  filter (fun i => keys !! i = Some k) (seq 0 (length keys)).

Definition groupby_table (df : frame) : exc + list frame :=
  col ← col_get df "table";
  match int_cells col with
  | None => inl (TypeError "table column is not int64")
  | Some keys => inr ((fun k => take_rows (group_rows keys k) df) <$> group_keys keys)
  end.

(** Lines 147-152. *)
Definition split_result (res : query_result) : exc + list frame :=
  match res with
  | QList rs => gs ← map_sum groupby_table rs; inr (concat gs)
  | QFrame df => inr [df]
  end.

(** ** A sample response *)

(** One table of two sensors, in table order 1, 0, 1. *)
Definition sample_response : list frame :=
  [[("result", [VStr "_result"; VStr "_result"; VStr "_result"]);
    ("table", [VInt 1; VInt 0; VInt 1]);
    ("_measurement", [VStr "box9"; VStr "box7"; VStr "box9"]);
    ("id", [VStr "P1"; VStr "P1"; VStr "P1"]);
    ("_value", [VInt 5; VInt 6; VInt 7])]].

(** * Lemmas *)

(** ** Selecting positions of a list *)

Lemma omap_lookup_length {A} (l : list A) idx :
  Forall (fun i => i < length l) idx -> length (omap (fun i => l !! i) idx) = length idx.
Proof.
  induction 1 as [|i idx Hi _ IH]; [done|]. cbn [omap list_omap].
  destruct (lookup_lt_is_Some_2 l i Hi) as [x ->]. simpl. by rewrite IH.
Qed.

Lemma omap_lookup_lookup {A} (l : list A) idx j i :
  Forall (fun i => i < length l) idx -> idx !! j = Some i ->
  omap (fun i => l !! i) idx !! j = l !! i.
Proof.
  intros Hv. revert j. induction Hv as [|i' idx Hi _ IH]; intros j; [done|].
  cbn [omap list_omap]. destruct (lookup_lt_is_Some_2 l i' Hi) as [x Hx]. rewrite Hx.
  destruct j as [|j]; simpl; [by intros [= <-]|]. apply IH.
Qed.

(** ** [take_rows] *)

Definition valid_idx (n : nat) (idx : list nat) : Prop := Forall (fun i => i < n) idx.

Lemma columns_take_rows idx df : columns (take_rows idx df) = columns df.
Proof. unfold columns, take_rows. rewrite <- list_fmap_compose. done. Qed.

Lemma take_rows_wf n idx df :
  wf n df -> valid_idx n idx -> wf (length idx) (take_rows idx df).
Proof.
  intros [Hnd Hl] Hv. split; [by rewrite columns_take_rows|].
  apply Forall_fmap, (Forall_impl _ _ _ Hl). intros [c v] Hcv; simpl in *.
  apply omap_lookup_length. subst. done.
Qed.

Lemma nrows_wf n df : wf n df -> df <> [] -> nrows df = n.
Proof. intros [_ Hl] Hne. destruct df as [|[c v] df]; [done|]. by inversion Hl. Qed.

Lemma col_get_take_rows idx df c v :
  col_get df c = inr v -> col_get (take_rows idx df) c = inr (omap (fun i => v !! i) idx).
Proof.
  induction df as [|[c' w] df IH]; [done|]. cbn.
  destruct (String.eqb c' c); [by intros [= ->]|]. apply IH.
Qed.

Lemma row_take_rows n idx df j i :
  wf n df -> valid_idx n idx -> idx !! j = Some i -> row_at (take_rows idx df) j = row_at df i.
Proof.
  intros [_ Hl] Hv Hj. unfold row_at, take_rows. induction Hl as [|[c v] df Hcv _ IH]; [done|].
  cbn [fmap list_fmap omap list_omap fst snd] in *. simpl in Hcv. subst.
  rewrite (omap_lookup_lookup v idx j i) by done. by rewrite IH.
Qed.

Lemma fmap_seq_idx {B} (f : nat -> B) (g : nat -> B) idx :
  (forall j i, idx !! j = Some i -> f j = g i) -> f <$> seq 0 (length idx) = g <$> idx.
Proof.
  intros Hfg. apply list_eq. intros j. rewrite !list_lookup_fmap.
  destruct (idx !! j) as [i|] eqn:Hj.
  - rewrite lookup_seq_lt by (by eapply lookup_lt_Some). simpl. f_equal. by apply Hfg.
  - rewrite lookup_seq_ge; [done|]. by apply lookup_ge_None.
Qed.

(** The rows of a selection are the selected rows. *)
Lemma frame_rows_take_rows n idx df :
  wf n df -> df <> [] -> valid_idx n idx -> frame_rows (take_rows idx df) = row_at df <$> idx.
Proof.
  intros Hwf Hne Hv. unfold frame_rows.
  rewrite (nrows_wf (length idx)); [|by eapply take_rows_wf|by destruct df].
  apply fmap_seq_idx. intros j i Hj. by eapply row_take_rows.
Qed.

(** ** The integer keys *)

Lemma int_cells_lookup col keys :
  int_cells col = Some keys ->
  length keys = length col /\ forall i k, keys !! i = Some k <-> col !! i = Some (VInt k).
Proof.
  revert keys. induction col as [|c col IH]; intros keys; simpl; [intros [= <-]; done|].
  destruct c as [| z | | |]; try done. destruct (int_cells col) as [zs|] eqn:E; [|done].
  intros [= <-]. destruct (IH zs eq_refl) as [Hlen Hk]. split; [simpl; lia|].
  intros [|i] k; simpl; [naive_solver|apply Hk].
Qed.

(** ** Grouping positions by key *)

Lemma filter_or_perm {A} (P Q : A -> Prop) `{forall x, Decision (P x), forall x, Decision (Q x)}
  (l : list A) :
  (forall x, P x -> Q x -> False) ->
  filter (fun x => P x \/ Q x) l ≡ₚ filter P l ++ filter Q l.
Proof.
  intros Hdis. induction l as [|x l IH]; [done|]. rewrite !filter_cons.
  destruct (decide (P x)), (decide (Q x)); try naive_solver.
  - rewrite decide_True by auto. simpl. by rewrite IH.
  - rewrite decide_True by auto. rewrite IH. apply Permutation_middle.
  - rewrite decide_False by naive_solver. done.
Qed.

(** Grouping the elements of a list by a key of theirs, over distinct
    keys, keeps each element whose key is among them exactly once. *)
Lemma filter_concat_partition {A} (f : A -> option Z) (ks : list Z) (l : list A) :
  NoDup ks ->
  concat ((fun k => filter (fun x => f x = Some k) l) <$> ks)
  ≡ₚ filter (fun x => f x ∈ (Some <$> ks)) l.
Proof.
  induction 1 as [|k ks Hk Hnd IH].
  - simpl. rewrite filter_all_False; [done|]. apply Forall_forall. set_solver.
  - rewrite fmap_cons. cbn [concat]. rewrite IH, <- filter_or_perm.
    + apply reflexive_eq, list_filter_iff. intros x. rewrite fmap_cons, elem_of_cons. tauto.
    + intros x Hx (k' & Hk' & Hin)%list_elem_of_fmap. rewrite Hx in Hk'.
      injection Hk' as ->. exact (Hk Hin).
Qed.

Lemma group_keys_spec keys :
  NoDup (group_keys keys) /\ Sorted Z.le (group_keys keys) /\
  forall k, k ∈ group_keys keys <-> k ∈ keys.
Proof.
  unfold group_keys. split_and!.
  - rewrite merge_sort_Permutation. apply NoDup_remove_dups.
  - apply Sorted_merge_sort. intros x y. lia.
  - intros k. rewrite merge_sort_Permutation. apply elem_of_remove_dups.
Qed.

(** The groups of all the keys cover every position once. *)
Lemma group_rows_partition keys :
  concat (group_rows keys <$> group_keys keys) ≡ₚ seq 0 (length keys).
Proof.
  destruct (group_keys_spec keys) as (Hnd & _ & Hin). unfold group_rows.
  rewrite (filter_concat_partition (fun i => keys !! i)) by done.
  apply reflexive_eq, filter_all_True. apply Forall_forall.
  intros i (_ & Hi)%elem_of_seq. destruct (lookup_lt_is_Some_2 keys i) as [k Hk]; [lia|].
  rewrite Hk. apply list_elem_of_fmap_2, Hin. by eapply list_elem_of_lookup_2.
Qed.

Lemma fmap_concat_fmap {A B C} (f : B -> C) (g : A -> list B) (l : list A) :
  concat ((fun x => f <$> g x) <$> l) = f <$> concat (g <$> l).
Proof. induction l as [|x l IH]; [done|]. rewrite !fmap_cons. cbn [concat]. by rewrite fmap_app, IH. Qed.

Lemma omap_lookup_const {A} (l : list A) idx x :
  Forall (fun i => l !! i = Some x) idx -> omap (fun i => l !! i) idx = replicate (length idx) x.
Proof. induction 1 as [|i idx Hi _ IH]; [done|]. cbn [omap list_omap]. by rewrite Hi, IH. Qed.

Lemma group_rows_valid keys k : valid_idx (length keys) (group_rows keys k).
Proof.
  apply Forall_forall. intros i [_ Hi]%list_elem_of_filter. apply elem_of_seq in Hi. lia.
Qed.

Lemma group_rows_nonempty keys k : k ∈ keys -> 1 <= length (group_rows keys k).
Proof.
  intros (i & Hi)%list_elem_of_lookup.
  assert (i ∈ group_rows keys k) as Hin.
  { apply list_elem_of_filter. split; [done|]. apply elem_of_seq.
    apply lookup_lt_Some in Hi. lia. }
  destruct (group_rows keys k); [set_solver|simpl; lia].
Qed.

Lemma groupby_table_inr df gs :
  groupby_table df = inr gs ->
  exists col keys, col_get df "table" = inr col /\ int_cells col = Some keys /\
    gs = (fun k => take_rows (group_rows keys k) df) <$> group_keys keys.
Proof.
  unfold groupby_table, mbind, sum_bind. destruct (col_get df "table") as [e|col]; [done|].
  destruct (int_cells col) as [keys|] eqn:E; [|done]. intros [= <-]. eauto.
Qed.

Lemma col_get_nonempty df c v : col_get df c = inr v -> df <> [].
Proof. by destruct df. Qed.

Lemma length_row n df i :
  wf n df -> i < n -> length (row_at df i) = length (columns df).
Proof.
  intros [_ Hl] Hi. unfold row_at, columns. rewrite length_fmap.
  induction Hl as [|[c v] df Hcv _ IH]; [done|]. cbn [omap list_omap snd] in *.
  destruct (lookup_lt_is_Some_2 v i) as [x ->]; [lia|]. simpl. by rewrite IH.
Qed.

(** The rows of a well-formed table: as many as it has rows, each as
    long as it has columns. *)
Lemma frame_rows_shape n df :
  wf n df -> df <> [] ->
  length (frame_rows df) = n /\ Forall (fun r => length r = length (columns df)) (frame_rows df).
Proof.
  intros Hwf Hne. unfold frame_rows. rewrite (nrows_wf n) by done.
  rewrite length_fmap, length_seq. split; [done|].
  apply Forall_fmap, Forall_forall. intros i Hi%elem_of_seq. eapply length_row; [done|lia].
Qed.

(** [groupby('table')] loses and duplicates no row: the
    rows of the groups, taken in order, are a permutation of the rows of
    the table. *)
Lemma groupby_table_rows n df gs :
  wf n df -> groupby_table df = inr gs ->
  concat (frame_rows <$> gs) ≡ₚ frame_rows df.
Proof.
  intros Hwf (col & keys & Hcol & Hint & ->)%groupby_table_inr.
  destruct (int_cells_lookup _ _ Hint) as [Hlen _].
  pose proof (col_get_length _ _ _ _ Hwf Hcol) as Hn.
  pose proof (col_get_nonempty _ _ _ Hcol) as Hne.
  rewrite <- list_fmap_compose.
  rewrite (list_fmap_ext _ (fun k => row_at df <$> group_rows keys k)).
  2:{ intros _ k _. simpl. eapply frame_rows_take_rows; [done|done|].
      rewrite <- Hn, <- Hlen. apply group_rows_valid. }
  rewrite fmap_concat_fmap, group_rows_partition.
  unfold frame_rows. by rewrite (nrows_wf n), <- Hn, <- Hlen.
Qed.

(** Every group is a well-formed table with the columns of
    the response and at least one row, all of one [table] index; the
    indices come in ascending order, each once.  So [processInfluxDF] is
    never handed an empty group from a list result. *)
Lemma groupby_table_groups n df gs :
  wf n df -> groupby_table df = inr gs ->
  exists ks, Sorted Z.le ks /\ NoDup ks /\
    Forall2 (fun k g => 1 <= nrows g /\ columns g = columns df /\ wf (nrows g) g /\
                        col_get g "table" = inr (replicate (nrows g) (VInt k))) ks gs.
Proof.
  intros Hwf (col & keys & Hcol & Hint & ->)%groupby_table_inr.
  destruct (int_cells_lookup _ _ Hint) as [Hlen Hkeys].
  pose proof (col_get_length _ _ _ _ Hwf Hcol) as Hn.
  pose proof (col_get_nonempty _ _ _ Hcol) as Hne.
  destruct (group_keys_spec keys) as (Hnd & Hsort & Hin).
  exists (group_keys keys). split_and!; [done|done|].
  apply Forall2_fmap_r, Forall_Forall2_diag, Forall_forall. intros k Hk.
  assert (Hv : valid_idx n (group_rows keys k)).
  { rewrite <- Hn, <- Hlen. apply group_rows_valid. }
  pose proof (take_rows_wf _ _ _ Hwf Hv) as Hwf'.
  unfold compose. rewrite (nrows_wf _ _ Hwf') by (by destruct df).
  split_and!; [by apply group_rows_nonempty, Hin|apply columns_take_rows|done|].
  rewrite (col_get_take_rows _ _ _ _ Hcol). f_equal. apply omap_lookup_const.
  apply Forall_forall. intros i [Hi _]%list_elem_of_filter. by apply Hkeys.
Qed.

Lemma split_result_list_inv rs gs :
  split_result (QList rs) = inr gs ->
  exists gss, Forall2 (fun r g => groupby_table r = inr g) rs gss /\ gs = concat gss.
Proof.
  unfold split_result, mbind, sum_bind. destruct (map_sum groupby_table rs) as [e|gss] eqn:E;
    [done|]. intros [= <-]. exists gss. split; [by apply map_sum_inr|done].
Qed.

(** * Properties *)

(** C8 (invariant).  When the response is a list of tables, the split
    loses and duplicates no row: the rows of the groups, in order, are a
    permutation of the rows of the tables of the response. *)
Theorem split_result_rows rs gs :
  Forall (fun r => exists n, wf n r) rs -> split_result (QList rs) = inr gs ->
  concat (frame_rows <$> gs) ≡ₚ concat (frame_rows <$> rs).
Proof.
  intros Hwf (gss & Hg & ->)%split_result_list_inv.
  induction Hg as [|r g rs gss Hr _ IH]; [done|]. inversion Hwf as [|? ? [n Hn] Hwf']; subst.
  rewrite concat_cons, fmap_app, concat_app, fmap_cons, concat_cons.
  rewrite (groupby_table_rows n r g) by done. by rewrite IH.
Qed.

(** C9 (safety).  When the response is a list of tables, every table the
    split hands on has at least one row and a single [table] index, and
    the columns of the table it comes from. *)
Theorem split_result_groups rs gs :
  Forall (fun r => exists n, wf n r) rs -> split_result (QList rs) = inr gs ->
  Forall (fun g => 1 <= nrows g /\ wf (nrows g) g /\
                   exists k, col_get g "table" = inr (replicate (nrows g) (VInt k))) gs.
Proof.
  intros Hwf (gss & Hg & ->)%split_result_list_inv.
  induction Hg as [|r g rs gss Hr _ IH]; [constructor|]. inversion Hwf as [|? ? [n Hn] Hwf']; subst.
  rewrite concat_cons. apply Forall_app. split; [|by apply IH].
  destruct (groupby_table_groups n r g Hn Hr) as (ks & _ & _ & Hks).
  eapply Forall2_Forall_r; [exact Hks|]. apply Forall_forall.
  intros k _ x (Hk & _ & Hw & Ht). eauto.
Qed.

(** ** Witnesses *)

Lemma sample_response_wf : Forall (fun r => exists n, wf n r) sample_response.
Proof. repeat constructor. exists 3. apply (@bool_decide_eq_true_1 _ (wf_dec 3 _)). vm_compute. reflexivity. Qed.

Example split_result_rows_witness :
  Forall (fun r => exists n, wf n r) sample_response /\
  exists gs, split_result (QList sample_response) = inr gs /\
    concat (frame_rows <$> gs) ≡ₚ concat (frame_rows <$> sample_response).
Proof.
  split; [exact sample_response_wf|]. eexists. split; [reflexivity|].
  apply (split_result_rows _ _ sample_response_wf). reflexivity.
Defined.

Example split_result_groups_witness :
  Forall (fun r => exists n, wf n r) sample_response /\
  exists gs, split_result (QList sample_response) = inr gs /\ length gs = 2 /\
    Forall (fun g => 1 <= nrows g /\ wf (nrows g) g /\
                     exists k, col_get g "table" = inr (replicate (nrows g) (VInt k))) gs.
Proof.
  split; [exact sample_response_wf|]. eexists. split; [reflexivity|]. split; [reflexivity|].
  apply (split_result_groups _ _ sample_response_wf). reflexivity.
Defined.

End Split.
