(* ===== verification/Exporter.v ===== *)
(** * Writing the output (get-paros-data.py, 164-182)

    [main] splits the output path with [os.path.splitext] and dispatches
    on the extension: [.csv] writes one headerless, indexless file per
    identifier, [.mat] one MAT file with one array per identifier,
    [.pickle] one pickle of the whole dictionary; any other extension
    writes nothing.  This file models [splitext] (posixpath), the three
    writers in the world of [World], and proves where each table lands,
    the shape of the MAT arrays, and that an unknown extension leaves the
    world as it was. *)

From Stdlib Require Import ZArith Lia Ascii String.
From stdpp Require Import base list strings gmap sets.
From S2P Require Import Prelude Frame World Split.

Module Exporter.
Import Frame World Split.
Local Open Scope py_scope.

(** ** [os.path.splitext] *)

(** [s.rfind(c)]: the last position of [c]. *)
Fixpoint rfind_from (c : ascii) (s : string) (i : nat) : option nat :=
  match s with
  | EmptyString => None
  | String a s' =>
      match rfind_from c s' (S i) with
      | Some j => Some j
      | None => if Ascii.eqb a c then Some i else None
      end
  end.

Definition rfind (c : ascii) (s : string) : option nat := rfind_from c s 0.

Definition is_dot (c : ascii) : bool := Ascii.eqb c ".".

(** [genericpath._splitext(p, '/', None, '.')]: the extension starts at
    the last dot when that dot is in the last path component and is not
    one of the dots that begin it. *)
Definition splitext (p : string) : string * string :=
  let filename_start := match rfind "/" p with Some s => S s | None => 0 end in
  match rfind "." p with
  | Some d =>
      if Nat.leb filename_start d &&
         negb (forallb is_dot (list_ascii_of_string
                                 (substring filename_start (d - filename_start) p)))
      then (substring 0 d p, substring d (String.length p - d) p)
      else (p, "")
  | None => (p, "")
  end.

(** The last path component of [b] has a character that is not a dot. *)
Definition has_stem (b : string) : bool :=
  let filename_start := match rfind "/" b with Some s => S s | None => 0 end in
  negb (forallb is_dot (list_ascii_of_string
                          (substring filename_start (String.length b - filename_start) b))).

(** ** The three writers *)

Definition csv_name (output_name cur_name : string) : string :=
  output_name +:+ "_" +:+ cur_name +:+ ".csv".

Definition csv_saved_msg (output_filename : string) : string :=
  "Saved file " +:+ output_filename +:+ " successfully.".

(** Lines 168-171: [cur_df.to_csv(output_filename, header=False,
    index=False)] writes the rows of the table. *)
Definition save_csv (output_name : string) (kv : string * frame) : PyM world unit :=
  let output_filename := csv_name output_name kv.1 in
  write_file output_filename (BCsv (frame_rows kv.2)) ;;
  print (csv_saved_msg output_filename).

(** Line 173: [{key: df.values for key, df in out_df.items()}]. *)
Definition mat_dict (out_df : list (string * frame)) : list (string * list (list cell)) :=
  (fun kv => (kv.1, frame_rows kv.2)) <$> out_df.

Definition mat_msg (output_filename : string) : string :=
  "Saved file " +:+ output_filename +:+ " successfully. Load in matlab.".

Definition pickle_msg (output_filename : string) : string :=
  str1 nl +:+ "Saved file " +:+ output_filename +:+
  " successfully. Serialized as a dictionary of dataframes.".

(** Lines 165-182. *)
Definition export (out_df : list (string * frame)) (output_file : string) : PyM world unit :=
  let '(output_name, output_type) := splitext output_file in
  if String.eqb output_type ".csv" then
    for_ (save_csv output_name) out_df
  else if String.eqb output_type ".mat" then
    let output_filename := output_name +:+ ".mat" in
    write_file output_filename (BMat (mat_dict out_df)) ;;
    print (mat_msg output_filename)
  else if String.eqb output_type ".pickle" then
    let output_filename := output_name +:+ ".pickle" in
    write_file output_filename (BFrames out_df) ;;
    print (pickle_msg output_filename)
  else ret tt.

(** ** A sample dictionary *)

Definition sample_out : list (string * frame) :=
  [("box7_P1", [("time", [VInt 10; VInt 11]); ("pressure", [VInt 1013; VInt 1012])]);
   ("box9_P1", [("time", [VInt 10]); ("pressure", [VInt 1009])])].

Definition sample_world : world := mkworld ∅ [] [].

(** * Lemmas *)

(** ** [rfind] and [splitext] *)

Lemma rfind_from_app c (s t : string) i :
  rfind_from c (s +:+ t) i
  = match rfind_from c t (i + String.length s) with
    | Some j => Some j
    | None => rfind_from c s i
    end.
Proof.
  revert i. induction s as [|a s IH]; intros i; simpl.
  - rewrite Nat.add_0_r. by destruct (rfind_from c t i).
  - rewrite IH. replace (S i + String.length s) with (i + S (String.length s)) by lia.
    by destruct (rfind_from c t _).
Qed.

Lemma rfind_from_none c (t : string) i : str_has c t = false -> rfind_from c t i = None.
Proof.
  revert i. induction t as [|a t IH]; intros i; simpl; [done|].
  intros [Ha Ht]%orb_false_iff. by rewrite IH, Ha.
Qed.

Lemma rfind_from_bound c (s : string) i j :
  rfind_from c s i = Some j -> i <= j < i + String.length s.
Proof.
  revert i. induction s as [|a s IH]; intros i; simpl; [done|].
  destruct (rfind_from c s (S i)) as [j'|] eqn:E.
  - intros [= <-]. apply IH in E. lia.
  - destruct (Ascii.eqb a c); [intros [= <-]; lia|done].
Qed.

(** The name and the extension put together give the path back. *)
Lemma splitext_join p : (splitext p).1 +:+ (splitext p).2 = p.
Proof.
  unfold splitext. destruct (rfind "." p) as [d|] eqn:Hd; [|apply sapp_nil_r].
  destruct (_ && _); [|apply sapp_nil_r]. simpl.
  apply rfind_from_bound in Hd. apply substring_split. lia.
Qed.

(** A path made of a name with a stem and a one-dot extension splits
    into the two. *)
Lemma splitext_app b e :
  has_stem b = true -> str_has "." e = false -> str_has "/" e = false ->
  splitext (b +:+ String "." e) = (b, String "." e).
Proof.
  intros Hstem Hdot Hsl. unfold splitext, rfind.
  rewrite !rfind_from_app. rewrite (rfind_from_none "/" (String "." e)) by done.
  cbn [rfind_from]. rewrite rfind_from_none by done. rewrite Ascii.eqb_refl. simpl.
  unfold has_stem, rfind in Hstem.
  destruct (rfind_from "/" b 0) as [sl|] eqn:Hsl'.
  - apply rfind_from_bound in Hsl'.
    assert (Hle : Nat.leb (S sl) (String.length b) = true) by (apply Nat.leb_le; lia).
    rewrite Hle, substring_app_l, Hstem by lia. simpl.
    by rewrite substring_app_l, substring_full, substring_suffix by lia.
  - rewrite Nat.sub_0_r in Hstem. rewrite substring_app_l, Nat.sub_0_r, Hstem by lia. simpl.
    by rewrite substring_app_l, substring_full, substring_suffix by lia.
Qed.

(** ** The writers *)

#[export] Instance csv_name_inj b : Inj (=) (=) (csv_name b).
Proof.
  intros k1 k2 H. unfold csv_name in H. apply sapp_cancel_l in H.
  injection H as H. by apply sapp_cancel_r in H.
Qed.

Lemma for_save_csv b out w :
  for_ (save_csv b) out w
  = (mkworld (write_all (fun kv => csv_name b kv.1) (fun kv => BCsv (frame_rows kv.2)) (fs w) out)
             (stdin w) (stdout w ++ ((fun kv => csv_saved_msg (csv_name b kv.1)) <$> out)), Ok tt).
Proof.
  revert w. induction out as [|kv out IH]; intros w; cbn [for_].
  - cbn. rewrite app_nil_r. by destruct w.
  - unfold bind at 1. cbn. rewrite IH. cbn. by rewrite <- app_assoc.
Qed.

Lemma export_csv_eq out b w :
  has_stem b = true ->
  export out (b +:+ ".csv") w = for_ (save_csv b) out w.
Proof. intros Hb. unfold export. by rewrite (splitext_app b "csv") by done. Qed.

(** * Properties *)

(** C11 (functional).  For an output path [b.csv] whose name has a stem,
    every table of the dictionary is written, without header or index,
    to its own file [b_<identifier>.csv]; no other file changes; and one
    confirmation per file is printed, in the order of the dictionary. *)
Theorem export_csv out b w :
  has_stem b = true -> NoDup out.*1 ->
  exists w', export out (b +:+ ".csv") w = (w', Ok tt) /\
    (forall k df, (k, df) ∈ out -> fs w' !! csv_name b k = Some (BCsv (frame_rows df))) /\
    (forall p, p ∉ csv_name b <$> out.*1 -> fs w' !! p = fs w !! p) /\
    stdout w' = stdout w ++ ((fun kv => csv_saved_msg (csv_name b kv.1)) <$> out).
Proof.
  intros Hb Hnd. rewrite export_csv_eq, for_save_csv by done.
  assert (Hf : (fun kv : string * frame => csv_name b kv.1) <$> out = csv_name b <$> out.*1)
    by (by rewrite <- list_fmap_compose).
  eexists. split; [done|]. cbn [fs stdout]. split_and!; [|intros p Hp|done].
  - intros k df Hin. apply (write_all_in (fun kv => csv_name b kv.1) (fun kv => BCsv (frame_rows kv.2))
      (fs w) out (k, df)); [|done].
    rewrite Hf. apply NoDup_fmap_2; [apply csv_name_inj|done].
  - apply write_all_notin. by rewrite Hf.
Qed.

(** C12 (functional).  For an output path [b.mat], one file [b.mat] is
    written, holding an array per identifier, in the order of the
    dictionary, whose shape is the row count by the column count of its
    table. *)
Theorem export_mat out b w :
  has_stem b = true -> Forall (fun kv => exists n, wf n kv.2 /\ kv.2 <> []) out ->
  exists m, export out (b +:+ ".mat") w
            = (mkworld (<[b +:+ ".mat" := BMat m]> (fs w)) (stdin w)
                       (stdout w ++ [mat_msg (b +:+ ".mat")]), Ok tt) /\
    m.*1 = out.*1 /\
    Forall2 (fun kv arr => length arr.2 = nrows kv.2 /\
                           Forall (fun r => length r = length (columns kv.2)) arr.2) out m.
Proof.
  intros Hb Hwf. exists (mat_dict out). unfold export.
  rewrite (splitext_app b "mat") by done. split; [done|]. split.
  - unfold mat_dict. rewrite <- list_fmap_compose. done.
  - apply Forall2_fmap_r, Forall_Forall2_diag, (Forall_impl _ _ _ Hwf).
    intros [k df] (n & Hn & Hne). cbn [fst snd].
    destruct (frame_rows_shape n df Hn Hne) as [Hl Hr]. rewrite (nrows_wf n) by done. done.
Qed.

(** C30 (functional).  Any extension other than [.csv], [.mat] and
    [.pickle] writes nothing and prints nothing. *)
Theorem export_unknown out f b e w :
  splitext f = (b, e) -> e <> ".csv" -> e <> ".mat" -> e <> ".pickle" ->
  export out f w = (w, Ok tt).
Proof.
  intros Hs H1 H2 H3. unfold export. rewrite Hs.
  by rewrite (proj2 (String.eqb_neq _ _) H1), (proj2 (String.eqb_neq _ _) H2),
    (proj2 (String.eqb_neq _ _) H3).
Qed.

(** ** Witnesses *)

Example export_csv_witness :
  has_stem "out/data" = true /\ NoDup sample_out.*1 /\
  exists w', export sample_out ("out/data" +:+ ".csv") sample_world = (w', Ok tt) /\
    (forall k df, (k, df) ∈ sample_out ->
       fs w' !! csv_name "out/data" k = Some (BCsv (frame_rows df))) /\
    (forall p, p ∉ csv_name "out/data" <$> sample_out.*1 -> fs w' !! p = fs sample_world !! p) /\
    stdout w' = stdout sample_world ++ ((fun kv => csv_saved_msg (csv_name "out/data" kv.1)) <$> sample_out).
Proof.
  assert (Hb : has_stem "out/data" = true) by reflexivity.
  assert (Hnd : NoDup sample_out.*1)
    by (apply (bool_decide_eq_true_1 (NoDup sample_out.*1)); vm_compute; reflexivity).
  split_and!; [exact Hb|exact Hnd|]. exact (export_csv sample_out "out/data" sample_world Hb Hnd).
Defined.

Example export_mat_witness :
  has_stem "data" = true /\ Forall (fun kv => exists n, wf n kv.2 /\ kv.2 <> []) sample_out /\
  exists m, export sample_out ("data" +:+ ".mat") sample_world
            = (mkworld (<["data" +:+ ".mat" := BMat m]> (fs sample_world)) (stdin sample_world)
                       (stdout sample_world ++ [mat_msg ("data" +:+ ".mat")]), Ok tt) /\
    m.*1 = sample_out.*1 /\
    Forall2 (fun kv arr => length arr.2 = nrows kv.2 /\
                           Forall (fun r => length r = length (columns kv.2)) arr.2) sample_out m.
Proof.
  assert (Hb : has_stem "data" = true) by reflexivity.
  assert (Hwf : Forall (fun kv => exists n, wf n kv.2 /\ kv.2 <> []) sample_out).
  { repeat constructor; [exists 2|exists 1]; split; try done;
      apply (@bool_decide_eq_true_1 _ (wf_dec _ _)); vm_compute; reflexivity. }
  split_and!; [exact Hb|exact Hwf|]. exact (export_mat sample_out "data" sample_world Hb Hwf).
Defined.

(** A path that is only an extension, such as [out/.csv], has none for
    [splitext]: nothing is written. *)
Example export_unknown_witness :
  splitext "out/.csv" = ("out/.csv", "") /\
  export sample_out "out/.csv" sample_world = (sample_world, Ok tt).
Proof.
  assert (Hs : splitext "out/.csv" = ("out/.csv", "")) by reflexivity.
  split; [exact Hs|]. by apply (export_unknown sample_out "out/.csv" "out/.csv" "").
Defined.

End Exporter.
