(* ===== verification/Main.v ===== *)
(** * The query tool's [main] (get-paros-data.py, 101-182)

    [main] loads the credentials, builds the query, hands it to the
    database, splits the response into tables, normalizes each into an
    insertion-ordered dictionary keyed by ["{box}_{sensor}"], and writes
    the dictionary out.  This file models the dictionary and the loop
    that fills it, and [main] as the composition of the components of the
    other files, with the database call and the preview [print(out_df)]
    as parameters.  It proves what the dictionary holds after the loop
    (the last table of each identifier), the end-to-end behaviour of a
    run that writes CSV files, for a list response and for a single
    DataFrame, and the order in which [main] fails. *)

From Stdlib Require Import ZArith Lia Ascii String.
From stdpp Require Import base list strings gmap sets.
From S2P Require Import Prelude DateTime Pytz Flux Frame Normalize World Query Cli Creds Split Exporter.

Module Main.
Import DateTime Pytz Flux Frame Normalize World Query Cli Creds Split Exporter.
Local Open Scope py_scope.

(** ** The output dictionary (lines 155-159) *)

(** [d[k] = v] on a Python dict: a new key goes last, an existing key
    keeps its place and takes the new value. *)
Fixpoint dict_set {V} (k : string) (v : V) (d : list (string * V)) : list (string * V) :=
  match d with
  | [] => [(k, v)]
  | (k', v') :: d' => if String.eqb k' k then (k', v) :: d' else (k', v') :: dict_set k v d'
  end.

(** [d.get(k)]. *)
Fixpoint dict_lookup {V} (d : list (string * V)) (k : string) : option V :=
  match d with
  | [] => None
  | (k', v) :: d' => if String.eqb k' k then Some v else dict_lookup d' k
  end.

Section Bundle.
Context {S : Type} `{Stdout S}.
Variable db : TzDb.

(** Lines 155-159: [for df in dfs_list: cur_idstr, cur_df =
    processInfluxDF(df, output_zone); out_df[cur_idstr] = cur_df]. *)
Fixpoint process_all (dfs : list frame) (output_tz : string) (out_df : list (string * frame))
  : PyM S (list (string * frame)) :=
  match dfs with
  | [] => ret out_df
  | df :: dfs' =>
      r <- processInfluxDF db df output_tz ;;
      process_all dfs' output_tz (dict_set r.1 r.2 out_df)
  end.

End Bundle.

(** ** [main] *)

Definition running_msg : string := str1 nl +:+ "Running InfluxDB Query..." +:+ str1 nl.
Definition preview_msg : string := str1 nl +:+ "Previewing Dataframes..." +:+ str1 nl.

Section Program.
(** The zones pytz knows, the zones pandas knows, the database (what
    [query_data_frame] returns for a client and a query), and the text
    [print] shows for the dictionary. *)
Variable pz : PytzDb.
Variable db : TzDb.
Variable query_data_frame : client -> string -> query_result.
Variable show : list (string * frame) -> string.
Variable help : string.

(** Lines 107-182. *)
Definition main (a : args) : PyM world unit :=
  c <- loadInfluxClient (creds a) ;;
  q <- lift_sum (prepare_query pz a) ;;
  print running_msg ;;
  print (q +:+ str1 nl) ;;
  dfs_list <- lift_sum (split_result (query_data_frame c q)) ;;
  out_df <- process_all db dfs_list (output_zone a) [] ;;
  print preview_msg ;;
  print (show out_df) ;;
  export out_df (output_file a).

(** Lines 101-107: [main()] reads its namespace from the command line
    with [cliArguments()], then runs as above. *)
Definition main_argv (argv : list string) : PyM world unit :=
  a <- cliArguments help argv ;;
  main a.

End Program.

(** ** The normalized table of a raw one *)

(** The instants of the [_time] column. *)
Definition times_of (df : frame) : list Z :=
  match col_get df "_time" ≫= dt_values with inr (_, ns) => ns | inl _ => [] end.

Definition norm_of (off : Z -> Z) (df : frame) : frame :=
  normalized df (unix_col off (times_of df)).

(** A table as the client returns it for one group (see [raw_table]). *)
Definition raw (df : frame) : Prop := exists n z0 ns, raw_table n df z0 ns.

(** ** Sample data *)

(** A response table of two sensors, box 9's rows in table 1 and box 7's
    in table 0, each sample at 10 s or 20 s after the epoch (UTC). *)
Definition two_box_table : frame :=
  [("result", [VStr "_result"; VStr "_result"; VStr "_result"]);
   ("table", [VInt 1; VInt 0; VInt 1]);
   ("_time", [VTime 10000000000 (Some "UTC"); VTime 10000000000 (Some "UTC");
              VTime 20000000000 (Some "UTC")]);
   ("_measurement", [VStr "box9"; VStr "box7"; VStr "box9"]);
   ("id", [VStr "P1"; VStr "P1"; VStr "P1"]);
   ("pressure", [VInt 1009; VInt 1013; VInt 1008])].

(** Two tables of the same box and sensor. *)
Definition same_id_tables : list frame :=
  [take_rows [0] two_box_table; take_rows [2] two_box_table].

(** A working directory with the file the setup tool writes. *)
Definition e2e_world : world :=
  mkworld {[ "influx-creds.pickle" := BCreds (output_dict "http://localhost:8086" "paros" "tok") ]}
          [] [].

Definition e2e_args : args := {|
  start_time := "2021-03-04T01:30:00"; end_time := "2021-03-05";
  output_file := "out.csv"; box_id := Some "box7,box9"; sensor_id := Some "P1";
  bucket := default_bucket; input_zone := "Etc/GMT-2"; output_zone := default_zone;
  creds := default_creds |}.

Definition e2e_query : string :=
  build_query default_bucket (mkdt 2021 3 3 23 30 0 0) (mkdt 2021 3 4 22 0 0 0)
    (createFluxFilters "_measurement" (Some "box7,box9")) (createFluxFilters "id" (Some "P1")).

(** * Lemmas *)

(** ** The dictionary *)

Lemma dict_lookup_set {V} (d : list (string * V)) k v k' :
  dict_lookup (dict_set k v d) k' = if String.eqb k k' then Some v else dict_lookup d k'.
Proof.
  induction d as [|[k0 v0] d IH]; cbn [dict_set dict_lookup].
  - by destruct (String.eqb k k').
  - destruct (String.eqb_spec k0 k) as [->|Hne]; cbn [dict_lookup].
    + by destruct (String.eqb k k').
    + rewrite IH. destruct (String.eqb_spec k0 k') as [->|]; [|done].
      by rewrite (proj2 (String.eqb_neq _ _) (not_eq_sym Hne)).
Qed.

Lemma dict_set_keys {V} (d : list (string * V)) k v :
  (dict_set k v d).*1 = if decide (k ∈ d.*1) then d.*1 else d.*1 ++ [k].
Proof.
  induction d as [|[k0 v0] d IH]; [done|]. cbn [dict_set].
  destruct (String.eqb_spec k0 k) as [->|Hne].
  - rewrite decide_True by (rewrite fmap_cons; set_solver). done.
  - rewrite !fmap_cons, IH. cbn [fst].
    destruct (decide (k ∈ d.*1)); [rewrite decide_True by set_solver; done|].
    rewrite decide_False by set_solver. done.
Qed.

Lemma dict_set_fresh {V} (d : list (string * V)) k v :
  k ∉ d.*1 -> dict_set k v d = d ++ [(k, v)].
Proof.
  induction d as [|[k0 v0] d IH]; [done|]. rewrite fmap_cons. cbn [dict_set fst].
  intros Hk. destruct (String.eqb_spec k0 k) as [->|]; [set_solver|].
  rewrite IH by set_solver. done.
Qed.

(** Filling the dictionary from a list of distinct keys keeps the list. *)
Lemma foldl_dict_set_fresh {V} (d l : list (string * V)) :
  NoDup (d.*1 ++ l.*1) ->
  foldl (fun acc kv => dict_set kv.1 kv.2 acc) d l = d ++ l.
Proof.
  revert d. induction l as [|[k v] l IH]; intros d Hnd; simpl; [by rewrite app_nil_r|].
  rewrite fmap_cons in Hnd. cbn [fst] in Hnd.
  rewrite dict_set_fresh.
  - rewrite IH; [by rewrite <- app_assoc|]. rewrite fmap_app. cbn. by rewrite <- app_assoc.
  - apply NoDup_app in Hnd as (_ & Hdis & _). intros Hk. apply (Hdis k Hk). set_solver.
Qed.

(** ** Normalizing each group *)

Lemma times_of_raw n df z0 ns : raw_table n df z0 ns -> times_of df = ns.
Proof.
  intros Hraw. pose proof Hraw as [_ Hn _ _ Htimes]. unfold times_of. rewrite Htimes. simpl.
  rewrite dt_values_const; [done|]. intros ->. pose proof (raw_times_length _ _ _ _ Hraw).
  simpl in *. lia.
Qed.

(** The normalized table of a raw table has the raw table's rows. *)
Lemma norm_of_rows n df z0 ns off : raw_table n df z0 ns -> length (frame_rows (norm_of off df)) = n.
Proof.
  intros Hraw. unfold norm_of. rewrite (times_of_raw n df z0 ns Hraw).
  apply (frame_rows_shape n); [by eapply normalized_wf|]. intros E.
  pose proof (has_col_set_col (rename (filter (fun cv => cv.1 ∉ norm_labels) df) "_time" "time")
                "time" (unix_col off ns)) as Ht.
  unfold normalized in E. rewrite E in Ht. discriminate.
Qed.

Section RunAll.
Context {S : Type} `{Stdout S}.
Variable db : TzDb.

(** The loop only prints: any property of the state that printing
    keeps holds at its end. *)
Lemma process_all_run (P : S -> Prop) dfs out_tz off acc s :
  Forall raw dfs -> db out_tz = Some off ->
  (forall l x, P x -> P (emit l x)) -> P s ->
  exists s', process_all db dfs out_tz acc s
             = (s', Ok (foldl (fun acc kv => dict_set kv.1 kv.2 acc) acc
                              ((fun df => (id_of df, norm_of off df)) <$> dfs))) /\ P s'.
Proof.
  intros Hraw Hdb HP. revert acc s. induction Hraw as [|df dfs (n & z0 & ns & Hdf) _ IH];
    intros acc s Hs; [by eexists|].
  cbn [process_all]. unfold bind at 1.
  rewrite (processInfluxDF_run db n df z0 ns out_tz off s Hdf Hdb). cbn [fst snd].
  rewrite fmap_cons. cbn [foldl fst snd]. unfold norm_of at 1.
  rewrite (times_of_raw n df z0 ns Hdf). apply IH. destruct (has_col df "err"); auto.
Qed.

End RunAll.

(** ** The groups of raw tables are raw tables *)

Lemma omap_lookup_fmap {A B} (f : A -> B) (l : list A) (idx : list nat) :
  omap (fun i => (f <$> l) !! i) idx = f <$> omap (fun i => l !! i) idx.
Proof.
  induction idx as [|i idx IH]; [done|]. cbn [omap list_omap].
  rewrite list_lookup_fmap. destruct (l !! i); simpl; by rewrite IH.
Qed.

Lemma groupby_raw n df z0 ns gs :
  raw_table n df z0 ns -> groupby_table df = inr gs -> Forall raw gs.
Proof.
  intros Hraw (col & keys & Hcol & Hint & ->)%groupby_table_inr.
  pose proof Hraw as [Hwf _ Hlab Hfresh Htimes].
  destruct (int_cells_lookup _ _ Hint) as [Hlen _].
  pose proof (col_get_length _ _ _ _ Hwf Hcol) as Hn.
  destruct (group_keys_spec keys) as (_ & _ & Hin).
  apply Forall_fmap, Forall_forall. intros k Hk. unfold compose.
  assert (Hv : valid_idx n (group_rows keys k)).
  { rewrite <- Hn, <- Hlen. apply group_rows_valid. }
  exists (length (group_rows keys k)), z0, (omap (fun i => ns !! i) (group_rows keys k)).
  split.
  - by eapply take_rows_wf.
  - by apply group_rows_nonempty, Hin.
  - by rewrite columns_take_rows.
  - by rewrite columns_take_rows.
  - rewrite (col_get_take_rows _ _ _ _ Htimes). by rewrite omap_lookup_fmap.
Qed.

Lemma split_raw rs gs :
  Forall raw rs -> split_result (QList rs) = inr gs -> Forall raw gs.
Proof.
  intros Hraw (gss & Hg & ->)%split_result_list_inv.
  induction Hg as [|r g rs gss Hr _ IH]; [constructor|].
  inversion Hraw as [|? ? (n & z0 & ns & Hn) Hraw']; subst.
  rewrite concat_cons. apply Forall_app. split; [by eapply groupby_raw|by apply IH].
Qed.

(** ** The dictionary refines a map *)

Lemma foldl_dict_set_lookup (acc : list (string * frame)) (m : gmap string frame) l :
  (forall k, dict_lookup acc k = m !! k) ->
  forall k, dict_lookup (foldl (fun acc kv => dict_set kv.1 kv.2 acc) acc l) k
            = foldl (fun m kv => <[kv.1 := kv.2]> m) m l !! k.
Proof.
  revert acc m. induction l as [|[k v] l IH]; intros acc m Hm; [done|]. simpl.
  apply IH. intros k'. rewrite dict_lookup_set, lookup_insert.
  destruct (String.eqb_spec k k'), (decide (k = k')); naive_solver.
Qed.

Lemma foldl_dict_set_keys (acc : list (string * frame)) l :
  (foldl (fun acc kv => dict_set kv.1 kv.2 acc) acc l).*1
  = fold_left (fun ks x => if decide (x ∈ ks) then ks else ks ++ [x]) l.*1 acc.*1.
Proof.
  revert acc. induction l as [|[k v] l IH]; intros acc; [done|]. simpl.
  by rewrite IH, dict_set_keys.
Qed.

(** * Properties *)

Lemma last_cons_default {A} (x : A) l : last (x :: l) = Some (default x (last l)).
Proof. revert x. induction l as [|y l IH]; intros x; [done|]. rewrite last_cons_cons, IH. done. Qed.

(** After a run of assignments, a key holds the value of its last
    assignment, or what it held before. *)
Lemma foldl_dict_set_last {A} (key : A -> string) (val : A -> frame) (l : list A) acc k :
  dict_lookup (foldl (fun acc kv => dict_set kv.1 kv.2 acc) acc ((fun x => (key x, val x)) <$> l)) k
  = match last (filter (fun x => key x = k) l) with
    | Some x => Some (val x)
    | None => dict_lookup acc k
    end.
Proof.
  revert acc. induction l as [|x l IH]; intros acc; [done|].
  rewrite fmap_cons. cbn [foldl fst snd]. rewrite IH, filter_cons, dict_lookup_set.
  case_decide as Hk; [rewrite last_cons_default|];
    destruct (last (filter (fun x => key x = k) l)) as [y|]; cbn; try done.
  - by rewrite (proj2 (String.eqb_eq _ _) Hk).
  - by rewrite (proj2 (String.eqb_neq _ _) Hk).
Qed.

Section Runs.
Variable pz : PytzDb.
Variable db : TzDb.
Variable query_data_frame : client -> string -> query_result.
Variable show : list (string * frame) -> string.
Variable help : string.

(** End to end, for any response whose split is made of raw tables: with a credentials file written by the
    setup tool, a query [prepare_query] accepts, a response made of raw
    tables whose groups have distinct identifiers, and an output path
    [b.csv], [main] writes each group's normalized table (identifier
    ["{box}_{sensor}"], bookkeeping columns dropped, [time] in unix
    seconds of the output zone) to [b_<identifier>.csv], and no other
    file. *)
Lemma main_csv_gen a w u o t q res gs off b :
  fs w !! creds a = Some (BCreds (output_dict u o t)) ->
  prepare_query pz a = inr q ->
  query_data_frame (mkclient u t o 100000000) q = res ->
  split_result res = inr gs -> Forall raw gs ->
  db (output_zone a) = Some off -> NoDup (id_of <$> gs) ->
  output_file a = b +:+ ".csv" -> has_stem b = true ->
  exists w', main pz db query_data_frame show a w = (w', Ok tt) /\
    (forall g, g ∈ gs -> fs w' !! csv_name b (id_of g) = Some (BCsv (frame_rows (norm_of off g)))) /\
    (forall p, p ∉ csv_name b <$> (id_of <$> gs) -> fs w' !! p = fs w !! p).
Proof.
  intros Hcreds Hq Hres Hsplit Hgs Hdb Hnd Hout Hb.
  unfold main. rewrite (bind_Ok _ _ _ _ _ (load_written _ _ _ _ _ Hcreds)).
  rewrite Hq, bind_lift_inr, !bind_print, Hres, Hsplit, bind_lift_inr.
  destruct (process_all_run db (fun x => fs x = fs w) gs (output_zone a) off []
              (emit (q +:+ str1 nl) (emit running_msg w)) Hgs Hdb) as (s' & Hrun & Hfs);
    [done|done|].
  rewrite (bind_Ok _ _ _ _ _ Hrun), !bind_print.
  rewrite foldl_dict_set_fresh; [|by rewrite <- list_fmap_compose].
  rewrite Hout, export_csv_eq, for_save_csv by done. cbn [app].
  eexists. split; [done|]. cbn [fs emit world_stdout].
  assert (Hf : (fun kv : string * frame => csv_name b kv.1) <$>
                 ((fun g => (id_of g, norm_of off g)) <$> gs) = csv_name b <$> (id_of <$> gs))
    by (by rewrite <- !list_fmap_compose).
  split.
  - intros g Hg.
    apply (write_all_in (fun kv => csv_name b kv.1) (fun kv => BCsv (frame_rows kv.2)) _ _
             (id_of g, norm_of off g)).
    + rewrite Hf. apply NoDup_fmap_2; [apply csv_name_inj|done].
    + by apply (list_elem_of_fmap_2 (fun g => (id_of g, norm_of off g))).
  - intros p Hp. rewrite write_all_notin; [by rewrite Hfs|by rewrite Hf].
Qed.

(** C1 (refinement).  End to end: with a credentials file written by the
    setup tool, a query [prepare_query] accepts, a response made of raw
    tables whose groups have distinct identifiers, and an output path
    [b.csv], [main] writes each group's normalized table (identifier
    ["{box}_{sensor}"], bookkeeping columns dropped, [time] in unix
    seconds of the output zone) to [b_<identifier>.csv], and no other
    file. *)
Theorem main_csv a w u o t q rs gs off b :
  fs w !! creds a = Some (BCreds (output_dict u o t)) ->
  prepare_query pz a = inr q ->
  query_data_frame (mkclient u t o 100000000) q = QList rs ->
  Forall raw rs -> split_result (QList rs) = inr gs ->
  db (output_zone a) = Some off -> NoDup (id_of <$> gs) ->
  output_file a = b +:+ ".csv" -> has_stem b = true ->
  exists w', main pz db query_data_frame show a w = (w', Ok tt) /\
    (forall g, g ∈ gs -> fs w' !! csv_name b (id_of g) = Some (BCsv (frame_rows (norm_of off g)))) /\
    (forall p, p ∉ csv_name b <$> (id_of <$> gs) -> fs w' !! p = fs w !! p).
Proof.
  intros Hcreds Hq Hres Hraw Hsplit.
  by apply (main_csv_gen a w u o t q (QList rs)); [..|eapply split_raw].
Qed.

(** C16 (safety).  A response that is a single DataFrame is not split
    (line 152): whatever boxes and sensors its rows come from, the run
    writes one file, named after the first row's identifier, holding all
    its rows normalized as one table, and no other file; the spec's
    one table per (measurement, id) does not hold for it. *)
Theorem single_frame_merged a w u o t q df n z0 ns off b :
  fs w !! creds a = Some (BCreds (output_dict u o t)) ->
  prepare_query pz a = inr q ->
  query_data_frame (mkclient u t o 100000000) q = QFrame df ->
  raw_table n df z0 ns -> db (output_zone a) = Some off ->
  output_file a = b +:+ ".csv" -> has_stem b = true ->
  exists w', main pz db query_data_frame show a w = (w', Ok tt) /\
    fs w' !! csv_name b (id_of df) = Some (BCsv (frame_rows (norm_of off df))) /\
    length (frame_rows (norm_of off df)) = n /\
    (forall p, p <> csv_name b (id_of df) -> fs w' !! p = fs w !! p).
Proof.
  intros Hcreds Hq Hres Hraw Hdb Hout Hb.
  assert (Hr : Forall raw [df]) by (constructor; [by exists n, z0, ns|constructor]).
  assert (Hnd : NoDup (id_of <$> [df])) by (constructor; [apply not_elem_of_nil|constructor]).
  destruct (main_csv_gen a w u o t q (QFrame df) [df] off b Hcreds Hq Hres eq_refl Hr Hdb Hnd Hout Hb)
    as (w' & Hrun & Hin & Hother).
  exists w'. split_and!; [done|by apply Hin, list_elem_of_singleton| |].
  - by eapply norm_of_rows.
  - intros p Hp. apply Hother. cbn. apply not_elem_of_cons. split; [done|apply not_elem_of_nil].
Qed.

(** C24 (error).  [main] loads the credentials before anything else: when
    the file is missing it prints the instruction and exits with status
    1, whatever the other arguments are, before any time string is
    parsed or any query sent. *)
Theorem main_missing_creds a w :
  fs w !! creds a = None ->
  main pz db query_data_frame show a w = (emit not_found_msg w, Exited 1%Z).
Proof. intros Hc. unfold main, bind at 1. by rewrite loadInfluxClient_missing. Qed.

(** C31 (roundtrip).  Run on the command line written from a namespace
    (each option as [--name=value], then [--] and the positionals),
    the script behaves as [main] on that namespace, whatever characters
    the values hold: the command line loses nothing [main] can be given. *)
Theorem main_argv_to_argv a w :
  main_argv pz db query_data_frame show help (to_argv a) w = main pz db query_data_frame show a w.
Proof. unfold main_argv, cliArguments. by rewrite parse_args_to_argv. Qed.


End Runs.

Section LastWins.
Context {S : Type} `{Stdout S}.
Variable db : TzDb.

(** C14 (functional).  The loop of lines 155-159 over raw tables leaves
    in [out_df] one key per identifier, in order of first appearance,
    holding the table normalized last under it: a table whose identifier
    comes again later is lost without a warning. *)
Theorem process_all_last_wins dfs out_tz off (s : S) :
  Forall raw dfs -> db out_tz = Some off ->
  exists s' d, process_all db dfs out_tz [] s = (s', Ok d) /\
    d.*1 = py_unique (id_of <$> dfs) /\
    forall k, dict_lookup d k = norm_of off <$> last (filter (fun df => id_of df = k) dfs).
Proof.
  intros Hraw Hdb.
  destruct (process_all_run db (fun _ => True) dfs out_tz off [] s Hraw Hdb) as (s' & Hrun & _);
    [done|done|].
  eexists _, _. split; [exact Hrun|]. split.
  - rewrite foldl_dict_set_keys, <- list_fmap_compose. done.
  - intros k. rewrite (foldl_dict_set_last id_of (norm_of off)).
    by destruct (last _).
Qed.

End LastWins.

(** ** Witnesses *)

Example main_csv_witness :
  exists w', main sample_pz sample_db (fun _ _ => QList [two_box_table]) (fun _ => "") e2e_args
               e2e_world = (w', Ok tt) /\
    (forall g, g ∈ [take_rows [1] two_box_table; take_rows [0; 2] two_box_table] ->
       fs w' !! csv_name "out" (id_of g) = Some (BCsv (frame_rows (norm_of (fun _ => 0%Z) g)))) /\
    (forall p, p ∉ csv_name "out" <$> (id_of <$> [take_rows [1] two_box_table;
                                                 take_rows [0; 2] two_box_table]) ->
       fs w' !! p = fs e2e_world !! p).
Proof.
  apply (main_csv sample_pz sample_db (fun _ _ => QList [two_box_table]) (fun _ => "") e2e_args
           e2e_world "http://localhost:8086" "paros" "tok" e2e_query [two_box_table]).
  - reflexivity.
  - vm_compute. reflexivity.
  - reflexivity.
  - repeat constructor. exists 3, "UTC", [10000000000; 10000000000; 20000000000]%Z.
    constructor.
    + apply (@bool_decide_eq_true_1 _ (wf_dec _ _)). vm_compute. reflexivity.
    + lia.
    + apply (bool_decide_eq_true_1 (Forall _ _)). vm_compute. reflexivity.
    + apply (bool_decide_eq_true_1 (_ ∉ _)). vm_compute. reflexivity.
    + vm_compute. reflexivity.
  - vm_compute. reflexivity.
  - reflexivity.
  - apply (bool_decide_eq_true_1 (NoDup _)). vm_compute. reflexivity.
  - reflexivity.
  - reflexivity.
Defined.

Example main_missing_creds_witness :
  fs (mkworld ∅ [] []) !! creds e2e_args = None /\
  main sample_pz sample_db (fun _ _ => QList []) (fun _ => "") e2e_args (mkworld ∅ [] [])
  = (emit not_found_msg (mkworld ∅ [] []), Exited 1%Z).
Proof.
  assert (H : fs (mkworld ∅ [] []) !! creds e2e_args = None) by reflexivity.
  split; [exact H|]. exact (main_missing_creds sample_pz sample_db _ _ _ _ H).
Defined.


(** The two-sensor table answered as one DataFrame: one file
    [out_box9_P1.csv] with the three rows. *)
Example single_frame_merged_witness :
  exists w', main sample_pz sample_db (fun _ _ => QFrame two_box_table) (fun _ => "") e2e_args
               e2e_world = (w', Ok tt) /\
    fs w' !! csv_name "out" (id_of two_box_table)
      = Some (BCsv (frame_rows (norm_of (fun _ => 0%Z) two_box_table))) /\
    length (frame_rows (norm_of (fun _ => 0%Z) two_box_table)) = 3 /\
    (forall p, p <> csv_name "out" (id_of two_box_table) -> fs w' !! p = fs e2e_world !! p).
Proof.
  apply (single_frame_merged sample_pz sample_db (fun _ _ => QFrame two_box_table) (fun _ => "")
           e2e_args e2e_world "http://localhost:8086" "paros" "tok" e2e_query two_box_table 3 "UTC"
           [10000000000; 10000000000; 20000000000]%Z).
  - reflexivity.
  - vm_compute. reflexivity.
  - reflexivity.
  - raw_table_by_eval.
  - reflexivity.
  - reflexivity.
  - reflexivity.
Defined.

(** Two tables of box 9's sensor P1: the dictionary keeps the second. *)
Example process_all_last_wins_witness :
  exists (s' : list string) d,
    process_all sample_db same_id_tables "UTC" [] [] = (s', Ok d) /\
    d.*1 = py_unique (id_of <$> same_id_tables) /\
    forall k, dict_lookup d k
              = norm_of (fun _ => 0%Z) <$> last (filter (fun df => id_of df = k) same_id_tables).
Proof.
  apply process_all_last_wins; [|reflexivity].
  constructor; [|constructor; [|constructor]].
  - exists 1, "UTC", [10000000000%Z]. raw_table_by_eval.
  - exists 1, "UTC", [20000000000%Z]. raw_table_by_eval.
Defined.

End Main.
